(** * NSW Crime RAG system: the query pipeline and its evaluation engine

    A shallow embedding of [rag_pipeline.py] (class [NSWCrimeRAGPipeline])
    and [evaluation_framework.py] (class [RAGEvaluator]).

    Conventions of the embedding.
    - Python [str] is [string]; a character is a code point below 256
      (Latin-1), on which [str.lower] and the regular expression class
      [\d] are written out.
    - Python [float] scores are exact rationals ([Q]); equalities between
      scores are stated with [Qeq] ([==]).  A float can differ from the
      exact value in its last bits, so nothing below is stated about a
      comparison or a rounding tie that such a difference could turn: the
      bounds are closed intervals, and statements about thresholds keep a
      margin.  True division is partial: it raises [ZeroDivisionError] on
      a zero divisor.
    - A Python [set] is a [gset], a metadata [dict] a [gmap].
    - The embedding model, the vector store, the text splitter, the
      generative chain, the file system and the clock are external: they
      are the fields of the class [Services].  The truth value of a
      vector store is that of its length, as Python takes it from
      [Chroma.__len__].
    - Methods that raise or mutate are written in a state-and-exception
      monad; [print] statements (console output only) are left out. *)

From Stdlib Require Import Ascii String QArith Qround Lqa.
From stdpp Require Import base tactics option list strings gmap sets fin_sets.

Local Open Scope string_scope.
Local Open Scope list_scope.

(** ** Python text *)

Module Py.

Definition is_upper (n : N) : bool :=
  ((65 <=? n)%N && (n <=? 90)%N)
  || ((192 <=? n)%N && (n <=? 222)%N && negb (n =? 215)%N).

(** [str.lower] on one code point: [A-Z] and the Latin-1 capitals
    (U+00C0..U+00DE without the multiplication sign U+00D7) move up by 32. *)
Definition lower_char (c : ascii) : ascii :=
  let n := Ascii.N_of_ascii c in
  if is_upper n then Ascii.ascii_of_N (n + 32) else c.

Fixpoint lower (s : string) : string :=
  match s with
  | EmptyString => EmptyString
  | String c s' => String (lower_char c) (lower s')
  end.

(** [p] is an initial segment of [s]. *)
Fixpoint startswith (p s : string) : bool :=
  match p, s with
  | EmptyString, _ => true
  | String _ _, EmptyString => false
  | String a p', String b s' => if Ascii.eqb a b then startswith p' s' else false
  end.

(** [sub in s] on strings: [sub] occurs in [s] as a contiguous substring. *)
Fixpoint str_in (sub s : string) : bool :=
  startswith sub s ||
  match s with
  | EmptyString => false
  | String _ s' => str_in sub s'
  end.

(** Truthiness of a [str] and of a [list]: empty is false. *)
Definition truthy_str (s : string) : bool :=
  match s with EmptyString => false | _ => true end.

Definition truthy_list {A} (l : list A) : bool :=
  match l with [] => false | _ => true end.

(** The class [\d] on Latin-1 text: the ten ASCII digits. *)
Definition is_digit (c : ascii) : bool :=
  let n := Ascii.N_of_ascii c in (48 <=? n)%N && (n <=? 57)%N.

(** [re.findall(r'\d+', text)]: the maximal runs of digits, left to right.
    [run] is the run being read, in reverse. *)
Fixpoint findall_digits_from (run : list ascii) (text : string) : list string :=
  match text with
  | EmptyString =>
      match run with [] => [] | _ => [string_of_list_ascii (rev run)] end
  | String c rest =>
      if is_digit c then findall_digits_from (c :: run) rest
      else match run with
           | [] => findall_digits_from [] rest
           | _ => string_of_list_ascii (rev run) :: findall_digits_from [] rest
           end
  end.

Definition findall_digits (text : string) : list string :=
  findall_digits_from [] text.

(** [x < y] on numbers. *)
Definition Qlt_bool (x y : Q) : bool := negb (Qle_bool y x).

(** [sum(numbers)]: a left fold from [0]. *)
Definition sum (numbers : list Q) : Q := fold_left Qplus numbers 0%Q.

(** The integer nearest to [q], a tie going to the even one. *)
Definition round_half_even (q : Q) : Z :=
  let f := Qfloor q in
  match Qcompare (q - inject_Z f) (1 # 2) with
  | Lt => f
  | Gt => (f + 1)%Z
  | Eq => if Z.even f then f else (f + 1)%Z
  end.

(** [round(number, ndigits)], on the exact value of [number]: the nearest
    multiple of [10 ^ -ndigits], a tie going to the even one.  Where the
    exact value is a tie, the float the program rounds lies on one side
    of it already, and Python may show the other neighbour. *)
Definition round (number : Q) (ndigits : nat) : Q :=
  let scale := inject_Z (10 ^ Z.of_nat ndigits) in
  (inject_Z (round_half_even (number * scale)) / scale)%Q.

End Py.

(** ** Exceptions *)

(** A raised exception: its class name and its message. *)
Record exn := Raise { exn_class : string; exn_msg : string }.

Definition ValueError (msg : string) : exn := Raise "ValueError" msg.
Definition ZeroDivisionError : exn := Raise "ZeroDivisionError" "division by zero".

(** [query] before the chain is wired raises this [ValueError]; this is the
    error the design documents call NotInitializedError. *)
Definition NotInitializedError : exn := ValueError "QA chain not initialized".

Definition result (A : Type) : Type := (exn + A)%type.

(** [a / b] on numbers. *)
Definition truediv (a b : Q) : result Q :=
  if Qeq_bool b 0 then inl ZeroDivisionError else inr (a / b)%Q.

Definition of_nat (n : nat) : Q := inject_Z (Z.of_nat n).

(** ** Data model *)

(** A metadata value: a string or a number. *)
Inductive meta_value :=
  | MStr (s : string)
  | MNum (n : Z).

#[global] Instance meta_value_eq_dec : EqDecision meta_value.
Proof. solve_decision. Defined.

#[global] Instance meta_value_countable : Countable meta_value.
Proof.
  refine (inj_countable'
    (fun v => match v with MStr s => inl s | MNum n => inr n end)
    (fun x => match x with inl s => MStr s | inr n => MNum n end) _).
  intros []; reflexivity.
Defined.

#[global] Instance MStr_inj : Inj (=) (=) MStr.
Proof. intros x y E. by injection E. Qed.

(** One entry of [source_documents]: [{"content": ..., "metadata": ...}]. *)
Record SourceDoc := {
  content : string;
  metadata : gmap string meta_value
}.

(** The dictionary returned by [NSWCrimeRAGPipeline.query]. *)
Record QueryResult := {
  qr_question : string;
  qr_answer : string;
  qr_source_documents : list SourceDoc
}.

(** One benchmark entry of [_load_ground_truth]. *)
Record GroundTruth := {
  gt_question : string;
  expected_keywords : list string;
  expected_sources : list string
}.

Record EvaluationResult := {
  question : string;
  answer : string;
  source_documents : list SourceDoc;
  effectiveness_score : Q;
  faithfulness_score : Q;
  source_attribution_score : Q;
  overall_score : Q;
  timestamp : string
}.

(** ** The scoring functions of [RAGEvaluator] *)

Definition evaluate_effectiveness
    (question answer : string) (expected_keywords : list string) : result Q :=
  if negb (Py.truthy_str answer) || negb (Py.truthy_list expected_keywords)
  then inr 0%Q
  else
    let answer_lower := Py.lower answer in
    let keyword_matches :=
      fold_left
        (fun keyword_matches keyword =>
           if Py.str_in (Py.lower keyword) answer_lower
           then S keyword_matches else keyword_matches)
        expected_keywords 0%nat in
    if Py.truthy_list expected_keywords
    then truediv (of_nat keyword_matches) (of_nat (length expected_keywords))
    else inr 0%Q.

Definition crime_types : list string :=
  ["Murder"; "Assault"; "Robbery"; "Break and enter"; "Motor vehicle theft";
   "Drug"; "Sexual assault"; "Fraud"; "Domestic violence"].

Definition lgas : list string :=
  ["Greater Sydney"; "NSW Regional"; "New South Wales"].

Definition trends : list string := ["increasing"; "decreasing"; "stable"].

(** [for term in vocabulary: if term in text: facts.append(term)] *)
Definition append_found (vocabulary : list string) (text : string)
    (facts : list string) : list string :=
  fold_left
    (fun facts term => if Py.str_in term text then facts ++ [term] else facts)
    vocabulary facts.

Definition _extract_facts (text : string) : list string :=
  let facts := [] in
  let numbers := Py.findall_digits text in
  let facts := facts ++ numbers in
  let facts := append_found crime_types text facts in
  let facts := append_found lgas text facts in
  let facts := append_found trends (Py.lower text) facts in
  facts.

(** The inner loop of [evaluate_faithfulness]: the first document whose
    lower-cased content contains the lower-cased fact ends the search. *)
Fixpoint fact_supported (fact : string) (source_documents : list SourceDoc) : bool :=
  match source_documents with
  | [] => false
  | doc :: rest =>
      if Py.str_in (Py.lower fact) (Py.lower (content doc)) then true
      else fact_supported fact rest
  end.

Definition evaluate_faithfulness
    (answer : string) (source_documents : list SourceDoc) : result Q :=
  if negb (Py.truthy_str answer) || negb (Py.truthy_list source_documents)
  then inr 0%Q
  else
    let answer_facts := _extract_facts answer in
    if negb (Py.truthy_list answer_facts) then inr 0%Q
    else
      let supported_facts :=
        fold_left
          (fun supported_facts fact =>
             if fact_supported fact source_documents
             then S supported_facts else supported_facts)
          answer_facts 0%nat in
      if Py.truthy_list answer_facts
      then truediv (of_nat supported_facts) (of_nat (length answer_facts))
      else inr 0%Q.

(** [for doc in source_documents: if 'lga' in doc['metadata']: add it] *)
Definition collect_lga (source_documents : list SourceDoc) : gset meta_value :=
  fold_left
    (fun actual_sources doc =>
       match metadata doc !! "lga" with
       | Some lga => actual_sources ∪ {[ lga ]}
       | None => actual_sources
       end)
    source_documents ∅.

Definition evaluate_source_attribution
    (source_documents : list SourceDoc) (expected_sources : list string) : result Q :=
  if negb (Py.truthy_list source_documents) then inr 0%Q
  else if negb (Py.truthy_list expected_sources)
  then inr (if Py.truthy_list source_documents then 1%Q else 0%Q)
  else
    let actual_sources := collect_lga source_documents in
    let expected_sources_set : gset meta_value :=
      list_to_set (MStr <$> expected_sources) in
    let intersection := actual_sources ∩ expected_sources_set in
    if decide (expected_sources_set = ∅) then inr 1%Q
    else truediv (of_nat (size intersection)) (of_nat (size expected_sources_set)).

(** The expression that [run_evaluation] assigns to [overall_score]. *)
Definition weighted_overall (effectiveness faithfulness source_attribution : Q) : Q :=
  (effectiveness * 0.4 + faithfulness * 0.4 + source_attribution * 0.2)%Q.

(** ** State and exceptions *)

(** A computation over a mutable state [S] that returns or raises.  Only
    exceptions of class [Exception] are modelled (what [except Exception]
    catches). *)
Definition M (S A : Type) : Type := S -> result A * S.

#[global] Instance M_ret {S} : MRet (M S) := fun A a s => (inr a, s).

#[global] Instance M_bind {S} : MBind (M S) :=
  fun A B k m s =>
    match m s with
    | (inr a, s') => k a s'
    | (inl e, s') => (inl e, s')
    end.

Definition raise {S A} (e : exn) : M S A := fun s => (inl e, s).

(** [try: body  except Exception as e: handler e] *)
Definition try_except {S A} (body : M S A) (handler : exn -> M S A) : M S A :=
  fun s =>
    match body s with
    | (inr a, s') => (inr a, s')
    | (inl e, s') => handler e s'
    end.

Definition lift_result {S A} (r : result A) : M S A := fun s => (r, s).

(** [for x in l: body x] *)
Fixpoint for_each {S A} (l : list A) (body : A -> M S unit) : M S unit :=
  match l with
  | [] => mret tt
  | x :: rest => body x;; for_each rest body
  end.

(** Methods of an object [O] run on the pair of the object and the
    external state. *)
Definition get_self {O E} : M (O * E) O := fun s => (inr (fst s), s).

Definition get_ext {O E} : M (O * E) E := fun s => (inr (snd s), s).

Definition set_self {O E} (o : O) : M (O * E) unit := fun s => (inr tt, (o, snd s)).

Definition call_ext {O E A} (m : M E A) : M (O * E) A :=
  fun s => let (r, e') := m (snd s) in (r, (fst s, e')).

(** Sequencing inside [result], for code without state. *)
#[global] Instance result_ret : MRet result := fun A a => inr a.

#[global] Instance result_bind : MBind result :=
  fun A B k r =>
    match r with
    | inr a => k a
    | inl e => inl e
    end.

(** ** The report of [generate_report] *)

Record Summary := {
  total_questions : nat;
  average_effectiveness : Q;
  average_faithfulness : Q;
  average_source_attribution : Q;
  average_overall_score : Q;
  unanswered_questions : nat;
  unanswered_percentage : Q
}.

Record Detail := {
  d_question : string;
  d_effectiveness_score : Q;
  d_faithfulness_score : Q;
  d_source_attribution_score : Q;
  d_overall_score : Q
}.

(** Either [{"error": ...}] or the full report dictionary. *)
Inductive Report :=
  | ErrorReport (error : string)
  | FullReport (evaluation_summary : Summary) (detailed_results : list Detail)
      (recommendations : list string).

Definition _generate_recommendations
    (effectiveness faithfulness source_attribution : Q) : list string :=
  let recommendations := [] in
  let recommendations :=
    if Py.Qlt_bool effectiveness 0.7
    then recommendations ++ ["Improve answer relevance by fine-tuning the retrieval system or adjusting the prompt template"]
    else recommendations in
  let recommendations :=
    if Py.Qlt_bool faithfulness 0.7
    then recommendations ++ ["Enhance faithfulness by improving the grounding of answers in source documents"]
    else recommendations in
  let recommendations :=
    if Py.Qlt_bool source_attribution 0.7
    then recommendations ++ ["Improve source attribution by optimizing the retriever to find more relevant documents"]
    else recommendations in
  let recommendations :=
    if Qle_bool 0.8 effectiveness && Qle_bool 0.8 faithfulness
    then recommendations ++ ["System is performing well. Consider expanding the knowledge base for broader coverage"]
    else recommendations in
  let recommendations :=
    if negb (Py.truthy_list recommendations)
    then recommendations ++ ["Continue monitoring system performance and consider expanding evaluation criteria"]
    else recommendations in
  recommendations.

(** ** The external services *)

(** A langchain [Document]. *)
Record Document := {
  page_content : string;
  doc_metadata : gmap string meta_value
}.

(** Calls that leave the process, in the order they are made. *)
Inductive call :=
  | CallJsonLoad (documents_file : string)
  | CallFromDocuments (splits : list Document) (persist_directory : string)
  | CallPersist
  | CallChroma (persist_directory : string)
  | CallFromChainType
  | CallChain (question : string).

(** Everything outside the process, as one interface: file system, vector
    store, text splitter, models and clock. *)
Class Services := {
  (** The state of the outside world. *)
  World : Type;
  (** A [Chroma] handle and a [RetrievalQA] chain. *)
  VectorStore : Type;
  QAChain : Type;
  (** [json.load(open(documents_file))]: the corpus records. *)
  json_load : string -> World -> result (list SourceDoc) * World;
  (** [RecursiveCharacterTextSplitter(1000, 200).split_documents]. *)
  split_documents : list Document -> list Document;
  (** [Chroma.from_documents(documents, embedding, persist_directory)]. *)
  Chroma_from_documents :
    list Document -> string -> World -> result VectorStore * World;
  (** [vectorstore.persist()]. *)
  Chroma_persist : VectorStore -> World -> result unit * World;
  (** [Chroma(persist_directory, embedding_function)]. *)
  Chroma : string -> World -> result VectorStore * World;
  (** [len(vectorstore)]: the number of entries of the collection.  [Chroma]
      defines [__len__] and no [__bool__], so this is what the truth value
      of a store is taken from. *)
  Chroma_len : VectorStore -> World -> nat;
  (** [os.path.exists]. *)
  path_exists : string -> World -> bool;
  (** [RetrievalQA.from_chain_type(llm, "stuff", retriever k=4, ...)]. *)
  RetrievalQA_from_chain_type : VectorStore -> World -> result QAChain * World;
  (** [qa_chain({"query": question})]: the answer and the retrieved documents. *)
  chain_call :
    QAChain -> string -> World -> result (string * list Document) * World;
  (** [datetime.now().isoformat()]. *)
  now_isoformat : World -> string * World;
  (** What the vector index at a directory durably holds, if anything. *)
  persisted_index : string -> World -> option (list Document)
}.

Section Pipeline.

Context {Sv : Services}.

(** The external state together with the log of calls made so far. *)
Record Ext := {
  world : World;
  calls : list call
}.

Definition invoke {A} (c : call) (f : World -> result A * World) : M Ext A :=
  fun e =>
    let (r, w') := f (world e) in
    (r, {| world := w'; calls := calls e ++ [c] |}).

Definition clock : M Ext string :=
  fun e =>
    let (t, w') := now_isoformat (world e) in
    (inr t, {| world := w'; calls := calls e |}).

(** ** [NSWCrimeRAGPipeline] *)

Record NSWCrimeRAGPipeline := {
  vectorstore : option VectorStore;
  qa_chain : option QAChain
}.

Definition NSWCrimeRAGPipeline_init : NSWCrimeRAGPipeline :=
  {| vectorstore := None; qa_chain := None |}.

Definition load_documents (documents_file : string) : M Ext (list Document) :=
  data ← invoke (CallJsonLoad documents_file) (json_load documents_file);
  mret (fold_left
         (fun documents doc_data =>
            documents ++ [ {| page_content := content doc_data;
                              doc_metadata := metadata doc_data |} ])
         data []).

Definition create_vector_store (documents : list Document)
    (persist_directory : string) : M (NSWCrimeRAGPipeline * Ext) VectorStore :=
  let splits := split_documents documents in
  store ← call_ext (invoke (CallFromDocuments splits persist_directory)
                          (Chroma_from_documents splits persist_directory));
  self ← get_self;
  set_self {| vectorstore := Some store; qa_chain := qa_chain self |};;
  call_ext (invoke CallPersist (Chroma_persist store));;
  mret store.

Definition load_vector_store (persist_directory : string)
    : M (NSWCrimeRAGPipeline * Ext) VectorStore :=
  store ← call_ext (invoke (CallChroma persist_directory)
                          (Chroma persist_directory));
  self ← get_self;
  set_self {| vectorstore := Some store; qa_chain := qa_chain self |};;
  mret store.

(** The truth value of [self.vectorstore]: [None] is false, and a store is
    true exactly when it holds at least one entry. *)
Definition truthy_vectorstore (vectorstore : option VectorStore) (w : World)
    : bool :=
  match vectorstore with
  | None => false
  | Some store => negb (Nat.eqb (Chroma_len store w) 0)
  end.

Definition setup_qa_chain : M (NSWCrimeRAGPipeline * Ext) QAChain :=
  self ← get_self;
  env ← get_ext;
  match vectorstore self with
  | Some store =>
      if negb (truthy_vectorstore (vectorstore self) (world env))
      then raise (ValueError "Vector store not initialized")
      else
        chain ← call_ext (invoke CallFromChainType
                                (RetrievalQA_from_chain_type store));
        self ← get_self;
        set_self {| vectorstore := vectorstore self; qa_chain := Some chain |};;
        mret chain
  | None => raise (ValueError "Vector store not initialized")
  end.

Definition query (self : NSWCrimeRAGPipeline) (question : string)
    : M Ext QueryResult :=
  match qa_chain self with
  | None => raise NotInitializedError
  | Some chain =>
      result ← invoke (CallChain question) (chain_call chain question);
      mret {| qr_question := question;
             qr_answer := fst result;
             qr_source_documents :=
               map (fun doc => {| content := page_content doc;
                                  metadata := doc_metadata doc |})
                   (snd result) |}
  end.

(** The branch of [initialize_pipeline] that fills [self.vectorstore]. *)
Definition build_or_load (documents_file : string) (force_recreate : bool)
    (persist_directory : string) : M (NSWCrimeRAGPipeline * Ext) unit :=
  env ← get_ext;
  if force_recreate || negb (path_exists persist_directory (world env))
  then
    documents ← call_ext (load_documents documents_file);
    create_vector_store documents persist_directory;;
    mret tt
  else
    load_vector_store persist_directory;;
    mret tt.

Definition initialize_pipeline (documents_file : string) (force_recreate : bool)
    : M (NSWCrimeRAGPipeline * Ext) unit :=
  let persist_directory := "chroma_db" in
  build_or_load documents_file force_recreate persist_directory;;
  setup_qa_chain;;
  mret tt.

(** ** [RAGEvaluator] *)

Definition _load_ground_truth : list GroundTruth := [
  {| gt_question := "What are the crime statistics for Greater Sydney?";
     expected_keywords :=
       ["Greater Sydney"; "crime"; "statistics"; "rate"; "count"; "per 100000"];
     expected_sources := ["Greater Sydney"] |};
  {| gt_question := "Compare crime rates between Greater Sydney and NSW Regional areas";
     expected_keywords :=
       ["compare"; "Greater Sydney"; "NSW Regional"; "rate"; "per 100000"; "difference"];
     expected_sources := ["Greater Sydney"; "NSW Regional"] |};
  {| gt_question := "Which region has the highest assault rates?";
     expected_keywords :=
       ["highest"; "assault"; "rate"; "region"; "Greater Sydney"; "NSW Regional"; "New South Wales"];
     expected_sources := ["Greater Sydney"; "NSW Regional"; "New South Wales"] |};
  {| gt_question := "What are the most common types of crimes in NSW?";
     expected_keywords :=
       ["common"; "types"; "crimes"; "NSW"; "Assault"; "Theft"; "Drug"; "Break and enter"];
     expected_sources := ["New South Wales"] |};
  {| gt_question := "How has domestic violence related assault changed over time?";
     expected_keywords :=
       ["domestic violence"; "assault"; "changed"; "time"; "trend"; "increasing"; "decreasing"];
     expected_sources := ["Greater Sydney"; "NSW Regional"; "New South Wales"] |};
  {| gt_question := "What crime trends have occurred from 2015 to 2024?";
     expected_keywords :=
       ["trends"; "2015"; "2024"; "crime"; "increasing"; "decreasing"; "stable"];
     expected_sources := ["Greater Sydney"; "NSW Regional"; "New South Wales"] |};
  {| gt_question := "What are the murder rates across NSW regions?";
     expected_keywords :=
       ["murder"; "rate"; "regions"; "Greater Sydney"; "NSW Regional"; "New South Wales"];
     expected_sources := ["Greater Sydney"; "NSW Regional"; "New South Wales"] |};
  {| gt_question := "How prevalent is motor vehicle theft in Greater Sydney?";
     expected_keywords :=
       ["motor vehicle theft"; "prevalent"; "Greater Sydney"; "rate"; "count"];
     expected_sources := ["Greater Sydney"] |};
  {| gt_question := "Which areas have the highest drug-related crime rates?";
     expected_keywords :=
       ["drug"; "highest"; "rate"; "areas"; "dealing"; "trafficking"; "possession"];
     expected_sources := ["Greater Sydney"; "NSW Regional"; "New South Wales"] |};
  {| gt_question := "Show me all drug-related offenses in NSW";
     expected_keywords :=
       ["drug"; "offenses"; "NSW"; "dealing"; "trafficking"; "possession"; "cannabis"; "amphetamines"];
     expected_sources := ["New South Wales"] |}
].

Record RAGEvaluator := {
  pipeline : NSWCrimeRAGPipeline;
  evaluation_results : list EvaluationResult;
  ground_truth_data : list GroundTruth
}.

Definition RAGEvaluator_init (pipeline : NSWCrimeRAGPipeline) : RAGEvaluator :=
  {| pipeline := pipeline;
     evaluation_results := [];
     ground_truth_data := _load_ground_truth |}.

(** [self.evaluation_results.append(eval_result)] *)
Definition append_result (eval_result : EvaluationResult)
    : M (RAGEvaluator * Ext) unit :=
  self ← get_self;
  set_self {| pipeline := pipeline self;
              evaluation_results := evaluation_results self ++ [eval_result];
              ground_truth_data := ground_truth_data self |}.

(** The [try] block of the loop of [run_evaluation]. *)
Definition evaluate_item (gt_data : GroundTruth) : M (RAGEvaluator * Ext) unit :=
  self ← get_self;
  result ← call_ext (query (pipeline self) (gt_question gt_data));
  effectiveness ← lift_result
    (evaluate_effectiveness (gt_question gt_data) (qr_answer result)
       (expected_keywords gt_data));
  faithfulness ← lift_result
    (evaluate_faithfulness (qr_answer result) (qr_source_documents result));
  source_attribution ← lift_result
    (evaluate_source_attribution (qr_source_documents result)
       (expected_sources gt_data));
  let overall_score :=
    weighted_overall effectiveness faithfulness source_attribution in
  timestamp ← call_ext clock;
  let eval_result :=
    {| question := gt_question gt_data;
       answer := qr_answer result;
       source_documents := qr_source_documents result;
       effectiveness_score := effectiveness;
       faithfulness_score := faithfulness;
       source_attribution_score := source_attribution;
       overall_score := overall_score;
       timestamp := timestamp |} in
  append_result eval_result.

Definition run_evaluation : M (RAGEvaluator * Ext) (list EvaluationResult) :=
  self ← get_self;
  for_each (ground_truth_data self)
    (fun gt_data =>
       try_except (evaluate_item gt_data)
         (fun e => mret tt));;
  self ← get_self;
  mret (evaluation_results self).

Definition generate_report (self : RAGEvaluator) : result Report :=
  if negb (Py.truthy_list (evaluation_results self))
  then mret (ErrorReport "No evaluation results available")
  else
    let total_questions := length (evaluation_results self) in
    avg_effectiveness ←
      truediv (Py.sum (map effectiveness_score (evaluation_results self)))
              (of_nat total_questions);
    avg_faithfulness ←
      truediv (Py.sum (map faithfulness_score (evaluation_results self)))
              (of_nat total_questions);
    avg_source_attribution ←
      truediv (Py.sum (map source_attribution_score (evaluation_results self)))
              (of_nat total_questions);
    avg_overall ←
      truediv (Py.sum (map overall_score (evaluation_results self)))
              (of_nat total_questions);
    let unanswered_questions :=
      length (List.filter (fun r => Py.Qlt_bool (overall_score r) 0.3)
                (evaluation_results self)) in
    unanswered_ratio ←
      truediv (of_nat unanswered_questions) (of_nat total_questions);
    let unanswered_percentage := (unanswered_ratio * 100)%Q in
    mret (FullReport
      {| total_questions := total_questions;
         average_effectiveness := Py.round avg_effectiveness 3;
         average_faithfulness := Py.round avg_faithfulness 3;
         average_source_attribution := Py.round avg_source_attribution 3;
         average_overall_score := Py.round avg_overall 3;
         unanswered_questions := unanswered_questions;
         unanswered_percentage := Py.round unanswered_percentage 1 |}
      (map (fun r =>
              {| d_question := question r;
                 d_effectiveness_score := Py.round (effectiveness_score r) 3;
                 d_faithfulness_score := Py.round (faithfulness_score r) 3;
                 d_source_attribution_score :=
                   Py.round (source_attribution_score r) 3;
                 d_overall_score := Py.round (overall_score r) 3 |})
           (evaluation_results self))
      (_generate_recommendations
         avg_effectiveness avg_faithfulness avg_source_attribution)).

End Pipeline.

(** ** The scores as the design documents word them *)

(** A text made of digits only. *)
Definition digits_only (s : string) : bool :=
  forallb Py.is_digit (list_ascii_of_string s).

(** [keyword] appears case-insensitively as a substring of [answer]. *)
Definition appears_in (answer keyword : string) : bool :=
  Py.str_in (Py.lower keyword) (Py.lower answer).

(** Effectiveness over a set of expected keywords: the share of the
    keywords that appear in the answer, [0] if either is empty. *)
Definition effectiveness_spec (answer : string) (expectedKeywords : gset string) : Q :=
  if decide (answer = "" ∨ expectedKeywords = ∅) then 0%Q
  else (of_nat (size (filter (fun k => appears_in answer k = true) expectedKeywords))
        / of_nat (size expectedKeywords))%Q.

(** The region identifiers found in the metadata of the retrieved documents. *)
Definition actualRegions (sources : list SourceDoc) : gset meta_value :=
  list_to_set (omap (fun d => metadata d !! "lga") sources).

(** Source attribution over a set of expected sources. *)
Definition source_attribution_spec (sources : list SourceDoc)
    (expectedSources : gset string) : Q :=
  if decide (expectedSources = ∅)
  then (if Py.truthy_list sources then 1%Q else 0%Q)
  else (of_nat (size (actualRegions sources ∩ set_map MStr expectedSources))
        / of_nat (size expectedSources))%Q.

(** [fact] appears case-insensitively in the content of some source. *)
Definition supported (sources : list SourceDoc) (fact : string) : bool :=
  existsb (fun d => appears_in (content d) fact) sources.

(** Faithfulness as the design documents word it: a *set* of facts, each
    numeric substring together with every vocabulary term (crime
    category, region, trend) that appears verbatim in the answer. *)
Definition facts_spec (answer : string) : gset string :=
  list_to_set (Py.findall_digits answer)
  ∪ list_to_set (filter (fun t => Py.str_in t answer = true)
                   (crime_types ++ lgas ++ trends)).

Definition faithfulness_spec (answer : string) (sources : list SourceDoc) : Q :=
  let facts := facts_spec answer in
  if decide (facts = ∅) then 0%Q
  else if negb (Py.truthy_list sources) then 0%Q
  else (of_nat (size (filter (fun f => supported sources f = true) facts))
        / of_nat (size facts))%Q.

(** Faithfulness as [_extract_facts] and [evaluate_faithfulness] compute
    it: a *sequence* of facts with one entry per occurrence of a digit run,
    then the crime categories and regions found verbatim, then the trend
    words found in the lower-cased answer. *)
Definition fact_sequence (answer : string) : list string :=
  Py.findall_digits answer
  ++ filter (fun t => Py.str_in t answer = true) crime_types
  ++ filter (fun t => Py.str_in t answer = true) lgas
  ++ filter (fun t => Py.str_in t (Py.lower answer) = true) trends.

Definition faithfulness_by_occurrence (answer : string)
    (sources : list SourceDoc) : Q :=
  let facts := fact_sequence answer in
  if negb (Py.truthy_list facts) || negb (Py.truthy_list sources) then 0%Q
  else (of_nat (length (filter (fun f => supported sources f = true) facts))
        / of_nat (length facts))%Q.

(** ** The run and the index build as the design documents word them *)

(** What holds of every result a run creates. *)
Definition well_scored (r : EvaluationResult) : Prop :=
  (overall_score r == 0.4 * effectiveness_score r + 0.4 * faithfulness_score r
                     + 0.2 * source_attribution_score r)%Q
  /\ (0 <= effectiveness_score r <= 1)%Q
  /\ (0 <= faithfulness_score r <= 1)%Q
  /\ (0 <= source_attribution_score r <= 1)%Q
  /\ (0 <= overall_score r <= 1)%Q.

Section Wording.

Context {Sv : Services}.

(** The value of a score computation (scores never raise, see below). *)
Definition score (r : result Q) : Q :=
  match r with
  | inr v => v
  | inl _ => 0%Q
  end.

(** The [EvaluationResult] of one answered benchmark item. *)
Definition scored (gt : GroundTruth) (r : QueryResult) (now : string)
    : EvaluationResult :=
  let e := score (evaluate_effectiveness (gt_question gt) (qr_answer r)
                    (expected_keywords gt)) in
  let f := score (evaluate_faithfulness (qr_answer r) (qr_source_documents r)) in
  let a := score (evaluate_source_attribution (qr_source_documents r)
                    (expected_sources gt)) in
  {| question := gt_question gt;
     answer := qr_answer r;
     source_documents := qr_source_documents r;
     effectiveness_score := e;
     faithfulness_score := f;
     source_attribution_score := a;
     overall_score := weighted_overall e f a;
     timestamp := now |}.

(** What one benchmark item contributes to a run: nothing when its query
    raises, one result otherwise. *)
Definition item_outcome (p : NSWCrimeRAGPipeline) (gt : GroundTruth) (env : Ext)
    : option EvaluationResult * Ext :=
  match query p (gt_question gt) env with
  | (inl _, env') => (None, env')
  | (inr r, env') =>
      let (now, w) := now_isoformat (world env') in
      (Some (scored gt r now), {| world := w; calls := calls env' |})
  end.

(** The outcomes of the items of a run, each queried once, in order. *)
Fixpoint run_outcomes (p : NSWCrimeRAGPipeline) (items : list GroundTruth)
    (env : Ext) : list (option EvaluationResult) * Ext :=
  match items with
  | [] => ([], env)
  | gt :: rest =>
      let (o, env') := item_outcome p gt env in
      let (os, env'') := run_outcomes p rest env' in
      (o :: os, env'')
  end.

(** The results among the outcomes, in order. *)
Definition created (os : list (option EvaluationResult)) : list EvaluationResult :=
  omap id os.

(** The arithmetic mean and the number of results scored below 0.3. *)
Definition mean (scores : list Q) : Q :=
  (Py.sum scores / of_nat (length scores))%Q.

Definition unanswered (results : list EvaluationResult) : nat :=
  length (List.filter (fun r => Py.Qlt_bool (overall_score r) 0.3) results).

(** The evaluator with more results. *)
Definition with_results (self : RAGEvaluator) (more : list EvaluationResult)
    : RAGEvaluator :=
  {| pipeline := pipeline self;
     evaluation_results := evaluation_results self ++ more;
     ground_truth_data := ground_truth_data self |}.

(** The calls made since [before]. *)
Definition calls_since (before after : Ext) : list call :=
  drop (length (calls before)) (calls after).

Definition is_embedding_call (c : call) : bool :=
  match c with
  | CallFromDocuments _ _ => true
  | _ => false
  end.

(** [load_documents] turns corpus records into documents. *)
Definition to_documents (data : list SourceDoc) : list Document :=
  map (fun d => {| page_content := content d; doc_metadata := metadata d |}) data.

End Wording.

(** ** A concrete service instance

    A small in-memory world, used to run the program on concrete inputs.
    Its vector store behaves like a persistent Chroma collection: opening
    a directory creates an empty collection when there is none, and
    [from_documents] embeds every chunk and then adds them all to the
    collection it finds. *)

Record TestWorld := {
  tw_corpus : result (list SourceDoc);
  tw_index : option (list Document);
  tw_unembeddable : list string;
  tw_answers : list (string * string);
  tw_ticks : nat
}.

Definition tw_set_index (idx : option (list Document)) (w : TestWorld) : TestWorld :=
  {| tw_corpus := tw_corpus w; tw_index := idx;
     tw_unembeddable := tw_unembeddable w; tw_answers := tw_answers w;
     tw_ticks := tw_ticks w |}.

Definition EmbeddingServiceError : exn := Raise "APIConnectionError" "Connection error.".
Definition GenerationServiceError : exn := Raise "ConnectionError" "Connection refused".

Definition tw_embeddable (w : TestWorld) (d : Document) : bool :=
  negb (existsb (String.eqb (page_content d)) (tw_unembeddable w)).

(** [Chroma(persist_directory)]: the collection at the directory, created
    empty when there is none. *)
Definition tw_opened (w : TestWorld) : TestWorld :=
  tw_set_index (Some (default [] (tw_index w))) w.

Definition tw_open (w : TestWorld) : result unit * TestWorld :=
  (inr tt, tw_opened w).

(** [Chroma.from_documents]: the collection at the directory is opened,
    then every chunk is embedded, and a chunk the embedding service
    rejects fails the call with nothing added; then all chunks are added
    to the collection, after the entries it already holds. *)
Definition tw_from_documents (chunks : list Document) (w : TestWorld)
    : result unit * TestWorld :=
  if forallb (tw_embeddable w) chunks
  then (inr tt, tw_set_index (Some (default [] (tw_index w) ++ chunks)) w)
  else (inl EmbeddingServiceError, tw_opened w).

Definition tw_lookup (q : string) (answers : list (string * string)) : option string :=
  snd <$> List.find (fun qa => String.eqb (fst qa) q) answers.

Definition tw_chain_call (_ : unit) (q : string) (w : TestWorld)
    : result (string * list Document) * TestWorld :=
  match tw_lookup q (tw_answers w) with
  | Some a => (inr (a, take 4 (default [] (tw_index w))), w)
  | None => (inl GenerationServiceError, w)
  end.

Definition tw_now (w : TestWorld) : string * TestWorld :=
  (String.concat "" (replicate (tw_ticks w) "t"),
   {| tw_corpus := tw_corpus w; tw_index := tw_index w;
      tw_unembeddable := tw_unembeddable w; tw_answers := tw_answers w;
      tw_ticks := S (tw_ticks w) |}).

Definition test_services : Services :=
  {| World := TestWorld;
     VectorStore := unit;
     QAChain := unit;
     json_load := fun _ w => (tw_corpus w, w);
     split_documents := fun documents => documents;
     Chroma_from_documents := fun chunks _ w => tw_from_documents chunks w;
     Chroma_persist := fun _ w => (inr tt, w);
     Chroma := fun _ w => tw_open w;
     Chroma_len := fun _ w => length (default [] (tw_index w));
     path_exists := fun _ w => bool_decide (is_Some (tw_index w));
     RetrievalQA_from_chain_type := fun _ w => (inr tt, w);
     chain_call := tw_chain_call;
     now_isoformat := tw_now;
     persisted_index := fun _ w => tw_index w |}.

Definition record (c lga : string) : SourceDoc :=
  {| content := c; metadata := {[ "lga" := MStr lga ]} |}.

Definition chunk (c lga : string) : Document :=
  {| page_content := c; doc_metadata := {[ "lga" := MStr lga ]} |}.

Definition test_world : TestWorld :=
  {| tw_corpus := inr [record "Greater Sydney assault rate is 500 per 100000" "Greater Sydney";
                       record "NSW Regional murder count 12" "NSW Regional"];
     tw_index := None;
     tw_unembeddable := [];
     tw_answers :=
       [("What are the crime statistics for Greater Sydney?",
         "Greater Sydney crime rate: Assault 500 per 100000, increasing");
        ("Which region has the highest assault rates?", "No idea 42")];
     tw_ticks := 0 |}.

(** A world whose index already holds one chunk and whose embedding
    service rejects the text ["b"]. *)
Definition stale_world : TestWorld :=
  {| tw_corpus := inr [];
     tw_index := Some [chunk "old" "NSW Regional"];
     tw_unembeddable := ["b"];
     tw_answers := [];
     tw_ticks := 0 |}.

(** A world with a built index, one answerable benchmark question and one
    with a poor answer; every other question makes the chain raise. *)
Definition served_world : TestWorld :=
  tw_set_index
    (Some [chunk "Greater Sydney assault rate is 500 per 100000" "Greater Sydney";
           chunk "NSW Regional murder count 12" "NSW Regional"])
    test_world.

Definition wired_pipeline : @NSWCrimeRAGPipeline test_services :=
  @Build_NSWCrimeRAGPipeline test_services (Some tt) (Some tt).

Definition served : @Ext test_services := @Build_Ext test_services served_world [].

(** A result with a given overall score, and a sequence of ten results of
    which three score below 0.3. *)
Definition result_scoring (overall : Q) : EvaluationResult :=
  {| question := "q"; answer := "a"; source_documents := [];
     effectiveness_score := overall; faithfulness_score := overall;
     source_attribution_score := overall; overall_score := overall;
     timestamp := "" |}.

Definition ten_results : list EvaluationResult :=
  map result_scoring [0.1; 0.9; 0.29; 0.3; 0.5; 0; 1; 0.75; 0.6; 0.31]%Q.

(** * The rest of the program *)

(** ** The recommendation texts of [_generate_recommendations] *)

Definition rec_relevance : string :=
  "Improve answer relevance by fine-tuning the retrieval system or adjusting the prompt template".
Definition rec_faithfulness : string :=
  "Enhance faithfulness by improving the grounding of answers in source documents".
Definition rec_attribution : string :=
  "Improve source attribution by optimizing the retriever to find more relevant documents".
Definition rec_performing_well : string :=
  "System is performing well. Consider expanding the knowledge base for broader coverage".
Definition rec_monitor : string :=
  "Continue monitoring system performance and consider expanding evaluation criteria".

(** ** [RAGEvaluator.save_results] and the two [main] functions *)

(** A value of the dictionary written for one result. *)
Inductive saved_value :=
  | SavedStr (s : string)
  | SavedNum (q : Q)
  | SavedDocs (docs : list SourceDoc).

(** The dictionary [data] that [save_results] dumps. *)
Record SavedData := {
  saved_evaluation_results : list (list (string * saved_value));
  saved_report : Report;
  saved_evaluation_timestamp : string
}.

Definition KeyError (key : string) : exn := Raise "KeyError" key.

(** [report["evaluation_summary"]] and [report["recommendations"]]:
    the no-results dictionary has neither key. *)
Definition report_evaluation_summary (report : Report) : result Summary :=
  match report with
  | FullReport summary _ _ => inr summary
  | ErrorReport _ => inl (KeyError "evaluation_summary")
  end.

Definition report_recommendations (report : Report) : result (list string) :=
  match report with
  | FullReport _ _ recommendations => inr recommendations
  | ErrorReport _ => inl (KeyError "recommendations")
  end.

(** What [save_results] needs from outside, beside [Services]. *)
Class Disk {Sv : Services} := {
  (** [datetime.now().strftime("%Y%m%d_%H%M%S")]. *)
  now_strftime : World -> string * World;
  (** [with open(filename, 'w') as f: json.dump(data, f, indent=2)]. *)
  json_dump : string -> SavedData -> World -> result unit * World
}.

Section Scripts.

Context {Sv : Services} {Dk : Disk}.

(** An external read that cannot raise and is not logged. *)
Definition observe {A} (f : World -> A * World) : M Ext A :=
  fun e =>
    let (a, w') := f (world e) in
    (inr a, {| world := w'; calls := calls e |}).

(** An external call outside [Services]; the call log is left alone. *)
Definition unlogged {A} (f : World -> result A * World) : M Ext A :=
  fun e =>
    let (r, w') := f (world e) in
    (r, {| world := w'; calls := calls e |}).

(** Runs a method on a local object and hands back the object. *)
Definition on_object {O A} (o : O) (m : M (O * Ext) A) : M Ext (A * O) :=
  fun e =>
    match m (o, e) with
    | (inr a, (o', e')) => (inr (a, o'), e')
    | (inl x, (_, e')) => (inl x, e')
    end.

(** One entry of [serializable_results]. *)
Definition serializable (result : EvaluationResult) : list (string * saved_value) :=
  [("question", SavedStr (question result));
   ("answer", SavedStr (answer result));
   ("source_documents", SavedDocs (source_documents result));
   ("effectiveness_score", SavedNum (effectiveness_score result));
   ("faithfulness_score", SavedNum (faithfulness_score result));
   ("source_attribution_score", SavedNum (source_attribution_score result));
   ("overall_score", SavedNum (overall_score result));
   ("timestamp", SavedStr (timestamp result))].

Definition save_results (filename : option string)
    : M (RAGEvaluator * Ext) string :=
  filename ←
    match filename with
    | None =>
        timestamp ← call_ext (observe now_strftime);
        mret ("evaluation_results_" +:+ timestamp +:+ ".json")
    | Some filename => mret filename
    end;
  self ← get_self;
  let serializable_results :=
    fold_left
      (fun serializable_results result =>
         serializable_results ++ [serializable result])
      (evaluation_results self) [] in
  report ← lift_result (generate_report self);
  evaluation_timestamp ← call_ext clock;
  let data :=
    {| saved_evaluation_results := serializable_results;
       saved_report := report;
       saved_evaluation_timestamp := evaluation_timestamp |} in
  call_ext (unlogged (json_dump filename data));;
  mret filename.

(** The file name [save_results] writes to. *)
Definition saved_name (filename : option string) (w : World) : string :=
  match filename with
  | Some name => name
  | None => "evaluation_results_" +:+ fst (now_strftime w) +:+ ".json"
  end.

(** The branch on [os.path.exists("chroma_db")] with which both
    [evaluation_framework.main] and the dashboard initialise a pipeline. *)
Definition initialize_by_existence (documents_file : string)
    : M (NSWCrimeRAGPipeline * Ext) unit :=
  env ← get_ext;
  if negb (path_exists "chroma_db" (world env))
  then initialize_pipeline documents_file true
  else initialize_pipeline documents_file false.

(** [evaluation_framework.main], from the construction of the evaluator
    on. *)
Definition evaluate_and_save (pipeline : NSWCrimeRAGPipeline) : M Ext Report :=
  let evaluator := RAGEvaluator_init pipeline in
  '(results, evaluator) ← on_object evaluator run_evaluation;
  report ← lift_result (generate_report evaluator);
  summary ← lift_result (report_evaluation_summary report);
  recommendations ← lift_result (report_recommendations report);
  '(filename, evaluator) ← on_object evaluator (save_results None);
  mret report.

(** [evaluation_framework.main]. *)
Definition evaluation_main : M Ext Report :=
  let pipeline := NSWCrimeRAGPipeline_init in
  let documents_file := "data/rag_documents.json" in
  '(_, pipeline) ← on_object pipeline (initialize_by_existence documents_file);
  evaluate_and_save pipeline.

(** The queries of [rag_pipeline.main]. *)
Definition test_queries : list string :=
  ["What are the crime statistics for Sydney?";
   "Which areas have increasing crime rates?";
   "What types of crimes are most common in NSW?";
   "Compare crime rates between different LGAs"].

(** [rag_pipeline.main]. *)
Definition pipeline_main : M Ext unit :=
  let pipeline := NSWCrimeRAGPipeline_init in
  let documents_file := "data/rag_documents.json" in
  '(_, pipeline) ← on_object pipeline (initialize_pipeline documents_file true);
  for_each test_queries
    (fun query_text =>
       try_except
         (result ← query pipeline query_text; mret tt)
         (fun e => mret tt)).

(** [initialize_pipeline] of the dashboard ([app.py]): the pipeline, or
    [None] after an error message. *)
Definition app_initialize_pipeline : M Ext (option NSWCrimeRAGPipeline) :=
  try_except
    (let pipeline := NSWCrimeRAGPipeline_init in
     let documents_file := "data/rag_documents.json" in
     '(_, pipeline) ← on_object pipeline (initialize_by_existence documents_file);
     mret (Some pipeline))
    (fun e => mret None).

(** [n] successive calls of [run_evaluation]. *)
Fixpoint repeat_runs (n : nat) (s : RAGEvaluator * Ext) : RAGEvaluator * Ext :=
  match n with
  | O => s
  | S n' => repeat_runs n' (snd (run_evaluation s))
  end.

End Scripts.

(** ** The dashboard ([app.py]) *)

(** One element of the corpus file as [display_metrics] reads it: a JSON
    object that may have a ["metadata"] object of strings and numbers. *)
Record CorpusEntry := {
  entry_metadata : option (gmap string meta_value)
}.

(** Truthiness of a metadata value: empty text and zero are false. *)
Definition truthy_value (v : meta_value) : bool :=
  match v with
  | MStr s => Py.truthy_str s
  | MNum n => negb (n =? 0)%Z
  end.

(** The three numbers that [display_metrics] shows. *)
Record Metrics := {
  total_documents : Z;
  local_government_areas : nat;
  crime_type_count : nat
}.

(** The body of the loop of [display_metrics]. *)
Definition scan_entry
    (unique_lgas crime_types : gset meta_value) (doc : CorpusEntry)
    : result (gset meta_value * gset meta_value) :=
  let metadata := default ∅ (entry_metadata doc) in
  match metadata !! "lga" with
  | Some lga =>
      if truthy_value lga
      then
        let unique_lgas := unique_lgas ∪ {[ lga ]} in
        match metadata !! "crime_type" with
        | Some crime_type => inr (unique_lgas, crime_types ∪ {[ crime_type ]})
        | None => inl (KeyError "crime_type")
        end
      else inr (unique_lgas, crime_types)
  | None => inr (unique_lgas, crime_types)
  end.

Fixpoint scan_entries (documents : list CorpusEntry)
    (unique_lgas crime_types : gset meta_value)
    : result (gset meta_value * gset meta_value) :=
  match documents with
  | [] => inr (unique_lgas, crime_types)
  | doc :: rest =>
      match scan_entry unique_lgas crime_types doc with
      | inl e => inl e
      | inr (unique_lgas, crime_types) =>
          scan_entries rest unique_lgas crime_types
      end
  end.

(** The [try] block of [display_metrics] once the file is loaded. *)
Definition compute_metrics (documents : list CorpusEntry) : result Metrics :=
  let total_documents := (Z.of_nat (length documents) - 1)%Z in
  '(unique_lgas, crime_types) ← scan_entries documents ∅ ∅;
  mret {| total_documents := total_documents;
          local_government_areas := size unique_lgas;
          crime_type_count := size crime_types |}.

(** What [display_metrics] puts on the page. *)
Inductive metrics_view :=
  | ShowMetrics (metrics : Metrics)
  | ShowMetricsError (e : exn).

(** [display_metrics], given the outcome of reading the corpus file. *)
Definition display_metrics (loaded : result (list CorpusEntry)) : metrics_view :=
  match loaded ≫= compute_metrics with
  | inr metrics => ShowMetrics metrics
  | inl e => ShowMetricsError e
  end.

(** An entry that makes [display_metrics] fail: a region without a crime
    type. *)
Definition lacks_crime_type (doc : CorpusEntry) : bool :=
  let metadata := default ∅ (entry_metadata doc) in
  match metadata !! "lga" with
  | Some lga =>
      truthy_value lga && bool_decide (metadata !! "crime_type" = None)
  | None => false
  end.

(** The region of an entry that counts, and its crime type. *)
Definition counted_lga (doc : CorpusEntry) : option meta_value :=
  match default ∅ (entry_metadata doc) !! "lga" with
  | Some lga => if truthy_value lga then Some lga else None
  | None => None
  end.

Definition counted_crime_type (doc : CorpusEntry) : option meta_value :=
  match counted_lga doc with
  | Some _ => default ∅ (entry_metadata doc) !! "crime_type"
  | None => None
  end.

(** [str.isspace] on one Latin-1 code point. *)
Definition is_space (c : ascii) : bool :=
  let n := Ascii.N_of_ascii c in
  ((9 <=? n)%N && (n <=? 13)%N) || ((28 <=? n)%N && (n <=? 32)%N)
  || (n =? 133)%N || (n =? 160)%N.

Fixpoint lstrip (s : string) : string :=
  match s with
  | EmptyString => EmptyString
  | String c rest => if is_space c then lstrip rest else s
  end.

Definition reverse_string (s : string) : string :=
  string_of_list_ascii (rev (list_ascii_of_string s)).

Definition rstrip (s : string) : string :=
  reverse_string (lstrip (reverse_string s)).

(** [str.strip()] *)
Definition strip (s : string) : string := rstrip (lstrip s).

(** What pressing "Ask Question" leads to. *)
Inductive ask_view :=
  | ShowAnswer (result : QueryResult)
  | ShowQueryError (e : exn)
  | ShowWarning.

Section Dashboard.

Context {Sv : Services}.

(** The "Ask Question" button of [main] in [app.py]: the question is the
    selected example if there is one, else the typed text. *)
Definition ask_question (pipeline : NSWCrimeRAGPipeline)
    (selected_example text_input : string) : M Ext ask_view :=
  let user_question :=
    if Py.truthy_str selected_example then selected_example else text_input in
  if Py.truthy_str (strip user_question)
  then
    try_except
      (result ← query pipeline user_question; mret (ShowAnswer result))
      (fun e => mret (ShowQueryError e))
  else mret ShowWarning.

End Dashboard.

(** ** The setup scripts ([setup.py], [test_setup.py]) *)

(** [a < b] on tuples of integers. *)
Fixpoint tuple_lt (a b : list Z) : bool :=
  match a, b with
  | _, [] => false
  | [], _ :: _ => true
  | x :: a', y :: b' =>
      if (x <? y)%Z then true
      else if (y <? x)%Z then false
      else tuple_lt a' b'
  end.

(** [check_python_version], on the numbers of [sys.version_info]. *)
Definition check_python_version (version_info : list Z) : bool :=
  if tuple_lt version_info [3; 8]%Z then false else true.

(** A path of the file system holds a file with its text, or a directory. *)
Inductive node :=
  | File (text : string)
  | Directory.

#[global] Instance node_eq_dec : EqDecision node.
Proof. solve_decision. Defined.

Definition IsADirectoryError : exn := Raise "IsADirectoryError" "Is a directory".
Definition FileNotFoundError : exn := Raise "FileNotFoundError" "No such file or directory".

(** [Path.exists] *)
Definition exists_path (path : string) (fs : gmap string node) : bool :=
  bool_decide (is_Some (fs !! path)).

(** [open(path, 'r').read()] *)
Definition read_text (path : string) : M (gmap string node) string :=
  fun fs =>
    match fs !! path with
    | Some (File text) => (inr text, fs)
    | Some Directory => (inl IsADirectoryError, fs)
    | None => (inl FileNotFoundError, fs)
    end.

(** [open(path, 'w').write(text)] *)
Definition write_text (path text : string) : M (gmap string node) unit :=
  fun fs =>
    match fs !! path with
    | Some Directory => (inl IsADirectoryError, fs)
    | _ => (inr tt, <[path := File text]> fs)
    end.

Definition setup_environment : M (gmap string node) unit :=
  fun fs =>
    let env_file := ".env" in
    let env_example := "env_example.txt" in
    if negb (exists_path env_file fs) && exists_path env_example fs
    then (content ← read_text env_example; write_text env_file content) fs
    else if exists_path env_file fs then (inr tt, fs)
    else (inr tt, fs).

(** [data_dir / file] *)
Definition path_join (directory file : string) : string :=
  directory +:+ "/" +:+ file.

(** The loop of [check_data_files]: the first missing file ends it. *)
Fixpoint all_found (data_dir : string) (required_files : list string)
    (fs : gmap string node) : bool :=
  match required_files with
  | [] => true
  | file :: rest =>
      if exists_path (path_join data_dir file) fs
      then all_found data_dir rest fs
      else false
  end.

Definition check_data_files (fs : gmap string node) : bool :=
  let data_dir := "data" in
  if negb (exists_path data_dir fs) then false
  else
    let required_files := ["nsw_crime_data.json"; "rag_documents.json"] in
    all_found data_dir required_files fs.

(** A parsed JSON document. *)
#[local] Unset Elimination Schemes.
Inductive json :=
  | JNull
  | JBool (b : bool)
  | JNumber (q : Q)
  | JString (s : string)
  | JArray (items : list json)
  | JObject (members : list (string * json)).
#[local] Set Elimination Schemes.

Definition TypeError (msg : string) : exn := Raise "TypeError" msg.

(** [key in value] for a string key. *)
Definition json_contains (key : string) (value : json) : result bool :=
  match value with
  | JObject members => inr (existsb (fun m => String.eqb (fst m) key) members)
  | JArray items =>
      inr (existsb (fun item => match item with
                                | JString s => String.eqb s key
                                | _ => false
                                end) items)
  | JString s => inr (Py.str_in key s)
  | _ => inl (TypeError "argument is not iterable")
  end.

(** [value[key]] for a string key: of an object built by [json.load] the
    last member with that name. *)
Definition json_getitem (key : string) (value : json) : result json :=
  match value with
  | JObject members =>
      match List.find (fun m => String.eqb (fst m) key) (rev members) with
      | Some m => inr (snd m)
      | None => inl (KeyError key)
      end
  | _ => inl (TypeError "indices must be integers")
  end.

(** [len(value)] *)
Definition json_len (value : json) : result nat :=
  match value with
  | JArray items => inr (length items)
  | JObject members => inr (length (remove_dups (map fst members)))
  | JString s => inr (String.length s)
  | _ => inl (TypeError "object has no len()")
  end.

Section TestSetup.

(** [json.loads]: the parsed document, or nothing for invalid JSON. *)
Variable json_loads : string -> option json.

(** [with open(path) as f: json.load(f)] inside [try ... except
    json.JSONDecodeError]: nothing stands for the decode error. *)
Definition load_json (path : string) (fs : gmap string node)
    : result (option json) :=
  match fs !! path with
  | Some (File text) => inr (json_loads text)
  | Some Directory => inl IsADirectoryError
  | None => inl FileNotFoundError
  end.

Definition test_data_files (fs : gmap string node) : result bool :=
  let data_dir := "data" in
  if negb (exists_path data_dir fs) then inr false
  else
    let crime_file := path_join data_dir "nsw_crime_data.json" in
    if negb (exists_path crime_file fs) then inr false
    else
      loaded ← load_json crime_file fs;
      match loaded with
      | None => inr false
      | Some crime_data =>
          has_records ← json_contains "crime_records" crime_data;
          if negb has_records then inr false
          else
            records ← json_getitem "crime_records" crime_data;
            record_count ← json_len records;
            let rag_file := path_join data_dir "rag_documents.json" in
            if negb (exists_path rag_file fs) then inr false
            else
              loaded ← load_json rag_file fs;
              match loaded with
              | None => inr false
              | Some rag_docs =>
                  match rag_docs with
                  | JArray items => inr true
                  | _ => inr false
                  end
              end
      end.

End TestSetup.

Section TestMain.

(** The state the tests run in. *)
Variable Host : Type.

(** One turn of the loop of [main] in [test_setup.py]: a test that raises
    counts as failed. *)
Definition run_test (test : string * M Host bool)
    : M Host (string * bool) :=
  try_except
    (result ← snd test; mret (fst test, result))
    (fun e => mret (fst test, false)).

Fixpoint run_tests (tests : list (string * M Host bool))
    (results : list (string * bool)) : M Host (list (string * bool)) :=
  match tests with
  | [] => mret results
  | test :: rest =>
      outcome ← run_test test;
      run_tests rest (results ++ [outcome])
  end.

(** [main] of [test_setup.py], over its list of tests. *)
Definition test_main (tests : list (string * M Host bool)) : M Host bool :=
  results ← run_tests tests [];
  let passed :=
    fold_left
      (fun passed (r : string * bool) => if snd r then S passed else passed)
      results 0%nat in
  mret (Nat.eqb passed (length results)).

(** Whether each test, run in turn, returned [True]. *)
Fixpoint test_outcomes (tests : list (string * M Host bool)) (h : Host)
    : list bool * Host :=
  match tests with
  | [] => ([], h)
  | test :: rest =>
      let (r, h1) := snd test h in
      let (bs, h2) := test_outcomes rest h1 in
      (match r with inr b => b | inl _ => false end :: bs, h2)
  end.

End TestMain.

(** ** Concrete inputs for the rest of the program *)

(** An evaluator holding the ten sample results. *)
Definition sample_evaluator : @RAGEvaluator test_services :=
  @Build_RAGEvaluator test_services wired_pipeline ten_results _load_ground_truth.

(** Two results whose mean effectiveness, 0.6996, is shown as 0.7. *)
Definition near_threshold_evaluator : @RAGEvaluator test_services :=
  @Build_RAGEvaluator test_services wired_pipeline
    (map result_scoring [0.6996; 0.6996]%Q) _load_ground_truth.

(** A disk that stamps one fixed time and accepts every write. *)
Definition test_disk : @Disk test_services :=
  @Build_Disk test_services
    (fun w => ("20240101_120000", w))
    (fun _ _ w => (inr tt, w)).

(** A world whose corpus file cannot be read, and one with an index but a
    chain that raises on every question. *)
Definition unreadable_world : TestWorld :=
  {| tw_corpus := inl FileNotFoundError;
     tw_index := tw_index served_world;
     tw_unembeddable := [];
     tw_answers := tw_answers served_world;
     tw_ticks := 0 |}.

Definition silent_world : TestWorld :=
  {| tw_corpus := tw_corpus served_world;
     tw_index := tw_index served_world;
     tw_unembeddable := [];
     tw_answers := [];
     tw_ticks := 0 |}.


Definition entry (lga crime_type : string) : CorpusEntry :=
  {| entry_metadata :=
       Some {[ "lga" := MStr lga; "crime_type" := MStr crime_type ]} |}.

(** * Properties *)

(** Unfolds the monadic plumbing down to the external calls. *)
Ltac plumbing :=
  unfold mbind, M_bind, mret, M_ret, raise, lift_result, try_except,
    call_ext, get_self, get_ext, set_self, invoke, clock in *;
  cbn [fst snd world calls qa_chain vectorstore] in *.

(** Two equations on the outcome of one external call are merged. *)
Ltac same_call :=
  simplify_eq;
  repeat match goal with
         | E : ?t = _, H : ?t = _ |- _ => rewrite E in H; simplify_eq
         end.

(** Closes the side conditions of a score that is the constant [0]. *)
Ltac zero_score :=
  repeat split;
  try first [ reflexivity | intros _; reflexivity | lra ].


(** ** Python text *)

Lemma string_app_cons (a : ascii) (s t : string) :
  (String a s ++ t)%string = String a (s ++ t)%string.
Proof. reflexivity. Qed.

Lemma string_app_nil (t : string) : ("" ++ t)%string = t.
Proof. reflexivity. Qed.

Lemma startswith_spec (p s : string) :
  Py.startswith p s = true <-> exists post, s = (p ++ post)%string.
Proof.
  revert s. induction p as [|a p IH]; intros s; simpl.
  - split; [intros _; by exists s|done].
  - destruct s as [|b s]; simpl.
    + split; [done|intros [post H]; discriminate].
    + destruct (Ascii.eqb a b) eqn:E.
      * apply Ascii.eqb_eq in E as ->. rewrite IH.
        split; intros [post H]; exists post;
          rewrite string_app_cons in *; congruence.
      * apply Ascii.eqb_neq in E.
        split; [done|intros [post H]; rewrite string_app_cons in H; congruence].
Qed.

(** [sub in s] holds exactly when [s] is [pre ++ sub ++ post]. *)
Lemma str_in_spec (sub s : string) :
  Py.str_in sub s = true
  <-> exists pre post, s = (pre ++ sub ++ post)%string.
Proof.
  induction s as [|c s IH]; simpl.
  - rewrite orb_false_r, startswith_spec. split.
    + intros [post H]. by exists "", post.
    + intros (pre & post & H). destruct pre; [by exists post|discriminate].
  - rewrite orb_true_iff, startswith_spec, IH. split.
    + intros [[post H]|(pre & post & H)].
      * by exists "", post.
      * exists (String c pre), post. rewrite string_app_cons. by rewrite H.
    + intros (pre & post & H). destruct pre as [|x pre].
      * left. by exists post.
      * right. exists pre, post. rewrite string_app_cons in H. congruence.
Qed.

Lemma lower_char_idempotent (c : ascii) :
  Py.lower_char (Py.lower_char c) = Py.lower_char c.
Proof.
  destruct c as [[] [] [] [] [] [] [] []]; reflexivity.
Qed.

Lemma lower_idempotent (s : string) : Py.lower (Py.lower s) = Py.lower s.
Proof.
  induction s as [|c s IH]; simpl; [reflexivity|].
  by rewrite lower_char_idempotent, IH.
Qed.

Lemma string_of_list_ascii_app (l1 l2 : list ascii) :
  string_of_list_ascii (l1 ++ l2)
  = (string_of_list_ascii l1 ++ string_of_list_ascii l2)%string.
Proof.
  induction l1 as [|a l1 IH]; simpl; [reflexivity|].
  by rewrite string_app_cons, IH.
Qed.

Lemma string_app_empty_r (s : string) : (s ++ "")%string = s.
Proof.
  induction s as [|a s IH]; [reflexivity|]. by rewrite string_app_cons, IH.
Qed.

Lemma string_app_assoc (a b c : string) :
  ((a ++ b) ++ c)%string = (a ++ b ++ c)%string.
Proof.
  induction a as [|x a IH]; [reflexivity|]. by rewrite !string_app_cons, IH.
Qed.

(** A character that is no digit ends the run before it: the matches of
    [a ++ c ++ b] are those of [a] followed by those of [b]. *)
Lemma findall_digits_from_split (run : list ascii) (a b : string) (c : ascii) :
  Py.is_digit c = false ->
  Py.findall_digits_from run (a ++ String c b)%string
  = Py.findall_digits_from run a ++ Py.findall_digits b.
Proof.
  intros Hc. revert run. induction a as [|x a IH]; intros run.
  - rewrite string_app_nil. simpl. rewrite Hc. by destruct run.
  - rewrite string_app_cons. simpl.
    destruct (Py.is_digit x); [apply IH|].
    destruct run; by rewrite IH.
Qed.

Lemma findall_digits_split (a b : string) (c : ascii) :
  Py.is_digit c = false ->
  Py.findall_digits (a ++ String c b)%string
  = Py.findall_digits a ++ Py.findall_digits b.
Proof. apply findall_digits_from_split. Qed.

(** A run of digits is one match, as long as it is. *)
Lemma findall_digits_from_run (run : list ascii) (s : string) :
  digits_only s = true ->
  run <> [] \/ s <> "" ->
  Py.findall_digits_from run s
  = [(string_of_list_ascii (rev run) ++ s)%string].
Proof.
  revert run. induction s as [|c s IH]; intros run Hd Hne.
  - destruct Hne as [Hr|?]; [|done]. simpl.
    rewrite string_app_empty_r. by destruct run.
  - unfold digits_only in Hd. simpl in Hd.
    apply andb_true_iff in Hd as [Hc Hs]. simpl. rewrite Hc.
    rewrite IH; [|exact Hs|by left]. simpl.
    by rewrite string_of_list_ascii_app, string_app_assoc.
Qed.

Lemma findall_digits_run (s : string) :
  digits_only s = true -> s <> "" -> Py.findall_digits s = [s].
Proof.
  intros Hd Hs. unfold Py.findall_digits.
  rewrite findall_digits_from_run; [reflexivity|exact Hd|by right].
Qed.

(** Text without a digit has no match. *)
Lemma findall_digits_none (s : string) :
  forallb (fun c => negb (Py.is_digit c)) (list_ascii_of_string s) = true ->
  Py.findall_digits s = [].
Proof.
  unfold Py.findall_digits. induction s as [|c s IH]; simpl; [reflexivity|].
  intros H. apply andb_true_iff in H as [Hc Hs].
  apply negb_true_iff in Hc. rewrite Hc. by apply IH.
Qed.

(** ** Counting loops and ratios *)

Lemma count_loop {A} (p : A -> bool) (l : list A) (k : nat) :
  fold_left (fun n x => if p x then S n else n) l k
  = (k + length (filter (fun x => p x = true) l))%nat.
Proof.
  revert k. induction l as [|x l IH]; intros k; simpl.
  - lia.
  - rewrite IH, filter_cons. destruct (p x) eqn:Hp.
    + rewrite decide_True by done. simpl. lia.
    + rewrite decide_False by done. lia.
Qed.

Lemma of_nat_pos (n : nat) : (0 < n)%nat -> (0 < of_nat n)%Q.
Proof.
  intros Hn. unfold of_nat. change 0%Q with (inject_Z 0).
  rewrite <- Zlt_Qlt. lia.
Qed.

Lemma of_nat_le (m n : nat) : (m <= n)%nat -> (of_nat m <= of_nat n)%Q.
Proof. intros H. unfold of_nat. rewrite <- Zle_Qle. lia. Qed.

Lemma truediv_of_nat (a : Q) (n : nat) :
  (0 < n)%nat -> truediv a (of_nat n) = inr (a / of_nat n)%Q.
Proof.
  intros Hn. unfold truediv.
  destruct (Qeq_bool (of_nat n) 0) eqn:E; [|reflexivity].
  apply Qeq_bool_iff in E. pose proof (of_nat_pos n Hn) as Hp.
  rewrite E in Hp. exfalso. revert Hp. apply Qlt_irrefl.
Qed.

Lemma ratio_bounds (m n : nat) :
  (m <= n)%nat -> (0 < n)%nat -> (0 <= of_nat m / of_nat n <= 1)%Q.
Proof.
  intros Hmn Hn. pose proof (of_nat_pos n Hn) as Hp. split.
  - apply Qle_shift_div_l; [exact Hp|]. rewrite Qmult_0_l.
    change 0%Q with (of_nat 0). apply of_nat_le. lia.
  - apply Qle_shift_div_r; [exact Hp|]. rewrite Qmult_1_l.
    apply of_nat_le, Hmn.
Qed.

Lemma truthy_list_false {A} (l : list A) : Py.truthy_list l = false <-> l = [].
Proof. destruct l; simpl; split; congruence. Qed.

Lemma truthy_str_false (s : string) : Py.truthy_str s = false <-> s = "".
Proof. destruct s; simpl; split; congruence. Qed.

(** ** Effectiveness *)

(** On any list of keywords, duplicates included, the loop counts the
    entries that appear in the answer. *)
Lemma evaluate_effectiveness_list (question answer : string) (kws : list string) :
  answer <> "" -> kws <> [] ->
  evaluate_effectiveness question answer kws
  = inr (of_nat (length (filter (fun k => appears_in answer k = true) kws))
         / of_nat (length kws))%Q.
Proof.
  intros Ha Hk. unfold evaluate_effectiveness.
  destruct (Py.truthy_str answer) eqn:Et;
    [|apply truthy_str_false in Et; contradiction].
  destruct (Py.truthy_list kws) eqn:El;
    [|apply truthy_list_false in El; contradiction].
  simpl. rewrite count_loop. simpl.
  apply truediv_of_nat. destruct kws; [contradiction|simpl; lia].
Qed.

Lemma evaluate_effectiveness_empty (question answer : string) (kws : list string) :
  answer = "" \/ kws = [] -> evaluate_effectiveness question answer kws = inr 0%Q.
Proof.
  intros [-> | ->]; unfold evaluate_effectiveness; simpl; [reflexivity|].
  destruct (Py.truthy_str answer); reflexivity.
Qed.

Lemma filter_list_to_set `{Countable A} (P : A -> Prop) `{!forall x, Decision (P x)}
    (l : list A) :
  filter P (list_to_set l : gset A) = list_to_set (filter P l).
Proof.
  apply set_eq. intros x.
  rewrite elem_of_filter, !elem_of_list_to_set, list_elem_of_filter. tauto.
Qed.

Lemma list_to_set_empty_inv `{Countable A} (l : list A) :
  (list_to_set l : gset A) = ∅ -> l = [].
Proof.
  destruct l as [|x l]; [done|]. intros Hs. exfalso.
  assert (x ∈ (list_to_set (x :: l) : gset A)) as Hx by set_solver.
  rewrite Hs in Hx. set_solver.
Qed.

(** C3. For every answer and every set of expected keywords (a list
    without repetition), the effectiveness score is the number of keywords
    that appear case-insensitively as substrings of the answer divided by
    the number of keywords; it is 0 when the answer or the keyword set is
    empty, and it always lies in [0,1]. *)
Theorem evaluate_effectiveness_correct
    (question answer : string) (expected_keywords : list string) :
  NoDup expected_keywords ->
  exists score : Q,
    evaluate_effectiveness question answer expected_keywords = inr score
    /\ (score == effectiveness_spec answer (list_to_set expected_keywords))%Q
    /\ (answer = "" \/ expected_keywords = [] -> score = 0%Q)
    /\ (0 <= score <= 1)%Q.
Proof.
  intros Hnd. unfold effectiveness_spec.
  destruct (decide (answer = "" \/ expected_keywords = [])) as [He|Hne].
  - exists 0%Q. split; [apply evaluate_effectiveness_empty, He|].
    split; [|split; [done|split; discriminate]].
    rewrite decide_True; [reflexivity|].
    destruct He as [->| ->]; [by left|by right].
  - assert (answer <> "") as Ha by tauto.
    assert (expected_keywords <> []) as Hk by tauto.
    eexists. split; [apply evaluate_effectiveness_list; assumption|].
    split; [|split; [tauto|]].
    + rewrite decide_False
        by (intros [?|E]; [done|by apply list_to_set_empty_inv in E]).
      rewrite filter_list_to_set, !size_list_to_set;
        [reflexivity|assumption|by apply NoDup_filter].
    + apply ratio_bounds.
      * apply length_filter.
      * destruct expected_keywords; [done|simpl; lia].
Qed.

(** ** Source attribution *)

Lemma collect_lga_from (docs : list SourceDoc) (acc : gset meta_value) :
  fold_left
    (fun actual_sources doc =>
       match metadata doc !! "lga" with
       | Some lga => actual_sources ∪ {[ lga ]}
       | None => actual_sources
       end) docs acc
  = acc ∪ actualRegions docs.
Proof.
  revert acc. unfold actualRegions.
  induction docs as [|d docs IH]; intros acc; simpl.
  - by rewrite (right_id_L ∅ (∪)).
  - rewrite IH. destruct (metadata d !! "lga"); simpl; [|reflexivity].
    by rewrite (assoc_L (∪)).
Qed.

Lemma collect_lga_spec (docs : list SourceDoc) :
  collect_lga docs = actualRegions docs.
Proof. unfold collect_lga. rewrite collect_lga_from. by rewrite (left_id_L ∅ (∪)). Qed.

Lemma size_set_map_inj `{Countable A, Countable B} (f : A -> B) `{!Inj (=) (=) f}
    (X : gset A) :
  size (set_map f X : gset B) = size X.
Proof.
  unfold set_map. rewrite size_list_to_set.
  - rewrite length_fmap. reflexivity.
  - apply NoDup_fmap_2; [assumption|apply NoDup_elements].
Qed.

Lemma size_pos_nonempty `{Countable A} (X : gset A) : X <> ∅ -> (0 < size X)%nat.
Proof.
  intros HX. destruct (size X) eqn:E; [|lia].
  apply size_empty_iff in E. exfalso. apply HX. by apply leibniz_equiv.
Qed.

Lemma zero_ratio (q : Q) : (0 / q == 0)%Q.
Proof. unfold Qdiv. apply Qmult_0_l. Qed.

(** C4. For every sequence of retrieved documents and every collection of
    expected sources, the source-attribution score is
    |actualRegions ∩ expectedSources| / |expectedSources| over the set of
    distinct expected sources, where actualRegions is the set of [lga]
    values in the documents' metadata; for no expected sources it is 1 if
    some document was retrieved and 0 if none was. *)
Theorem evaluate_source_attribution_correct
    (source_documents : list SourceDoc) (expected_sources : list string) :
  exists score : Q,
    evaluate_source_attribution source_documents expected_sources = inr score
    /\ (score == source_attribution_spec source_documents
                   (list_to_set expected_sources))%Q.
Proof.
  unfold evaluate_source_attribution, source_attribution_spec.
  destruct source_documents as [|d docs].
  - exists 0%Q. split; [reflexivity|]. simpl.
    destruct (decide _); [reflexivity|].
    unfold actualRegions. simpl.
    rewrite intersection_empty_l_L, size_empty. symmetry. apply zero_ratio.
  - destruct expected_sources as [|e es].
    + exists 1%Q. split; [reflexivity|]. simpl.
      rewrite decide_True by done. reflexivity.
    + cbn [Py.truthy_list negb].
      set (E := list_to_set (e :: es) : gset string).
      assert (E <> ∅) as HE by (subst E; set_solver).
      assert ((list_to_set (MStr <$> e :: es) : gset meta_value) = set_map MStr E)
        as -> by (subst E; apply list_to_set_fmap_L).
      assert (set_map MStr E <> (∅ : gset meta_value)) as HME.
      { intros Hm.
        assert (MStr e ∈ (set_map MStr E : gset meta_value)) as Hin
          by (subst E; set_solver).
        rewrite Hm in Hin. set_solver. }
      rewrite decide_False by assumption.
      rewrite (decide_False (P := E = ∅)) by assumption.
      rewrite collect_lga_spec.
      eexists. split.
      * apply truediv_of_nat. by apply size_pos_nonempty.
      * rewrite size_set_map_inj by apply _. reflexivity.
Qed.

(** ** Faithfulness *)

Lemma append_found_filter (vocabulary : list string) (text : string)
    (facts : list string) :
  append_found vocabulary text facts
  = facts ++ filter (fun t => Py.str_in t text = true) vocabulary.
Proof.
  unfold append_found. revert facts.
  induction vocabulary as [|t v IH]; intros facts; simpl.
  - by rewrite app_nil_r.
  - rewrite IH, filter_cons. destruct (Py.str_in t text).
    + rewrite decide_True by done. by rewrite <- app_assoc.
    + by rewrite decide_False by done.
Qed.

Lemma _extract_facts_sequence (text : string) :
  _extract_facts text = fact_sequence text.
Proof.
  unfold _extract_facts, fact_sequence.
  rewrite !append_found_filter. simpl. by rewrite <- !app_assoc.
Qed.

Lemma fact_supported_existsb (fact : string) (docs : list SourceDoc) :
  fact_supported fact docs = supported docs fact.
Proof.
  unfold supported, appears_in.
  induction docs as [|d docs IH]; simpl; [reflexivity|].
  rewrite IH. by destruct (Py.str_in _ _).
Qed.

Lemma fact_sequence_empty_answer : fact_sequence "" = [].
Proof. reflexivity. Qed.

Lemma supported_loop (docs : list SourceDoc) (facts : list string) :
  fold_left
    (fun supported_facts fact =>
       if fact_supported fact docs then S supported_facts else supported_facts)
    facts 0%nat
  = length (filter (fun f => supported docs f = true) facts).
Proof.
  rewrite (count_loop (fun f => fact_supported f docs)). simpl.
  f_equal. apply list_filter_iff. intros f. by rewrite fact_supported_existsb.
Qed.

(** With no fact or no source the score is 0. *)
Lemma evaluate_faithfulness_none (answer : string) (docs : list SourceDoc) :
  fact_sequence answer = [] \/ docs = [] ->
  evaluate_faithfulness answer docs = inr 0%Q.
Proof.
  intros Hz. unfold evaluate_faithfulness. rewrite _extract_facts_sequence.
  destruct (Py.truthy_str answer); [|reflexivity].
  destruct docs as [|d docs]; [reflexivity|].
  destruct Hz as [->|?]; [reflexivity|discriminate].
Qed.

(** Otherwise it is the share of the extracted facts that are supported. *)
Lemma evaluate_faithfulness_some (answer : string) (docs : list SourceDoc) :
  fact_sequence answer <> [] -> docs <> [] ->
  evaluate_faithfulness answer docs
  = inr (of_nat (length (filter (fun f => supported docs f = true)
                           (fact_sequence answer)))
         / of_nat (length (fact_sequence answer)))%Q.
Proof.
  intros Hf Hd. unfold evaluate_faithfulness.
  rewrite _extract_facts_sequence, supported_loop.
  destruct (Py.truthy_str answer) eqn:Et.
  2: { apply truthy_str_false in Et. subst answer.
       by rewrite fact_sequence_empty_answer in Hf. }
  destruct docs as [|d docs]; [done|].
  destruct (fact_sequence answer) as [|f facts]; [done|].
  cbn [Py.truthy_list negb orb]. apply truediv_of_nat. simpl. lia.
Qed.

(** C2, as the code has it.  The faithfulness score is the number of
    entries of the extracted fact sequence (one entry per digit run
    occurrence, then the crime categories and regions found verbatim, then
    the trend words found in the lower-cased answer) that appear
    case-insensitively in at least one source content, divided by the
    length of that sequence; it is 0 when no fact is extracted or no source
    is given, and always in [0,1]. *)
Theorem evaluate_faithfulness_correct
    (answer : string) (source_documents : list SourceDoc) :
  exists score : Q,
    evaluate_faithfulness answer source_documents = inr score
    /\ (score == faithfulness_by_occurrence answer source_documents)%Q
    /\ (fact_sequence answer = [] \/ source_documents = [] -> score = 0%Q)
    /\ (0 <= score <= 1)%Q.
Proof.
  unfold faithfulness_by_occurrence.
  destruct (decide (fact_sequence answer = [] \/ source_documents = []))
    as [Hz|Hnz].
  - exists 0%Q. split; [by apply evaluate_faithfulness_none|].
    split; [|zero_score].
    destruct Hz as [->| ->]; [reflexivity|].
    cbn [Py.truthy_list negb]. by rewrite orb_true_r.
  - assert (fact_sequence answer <> []) as Hf by tauto.
    assert (source_documents <> []) as Hd by tauto.
    eexists. split; [by apply evaluate_faithfulness_some|].
    destruct (fact_sequence answer) as [|f facts]; [done|].
    destruct source_documents as [|d docs]; [done|].
    cbn [Py.truthy_list negb orb]. split; [reflexivity|].
    split; [tauto|].
    apply ratio_bounds; [apply length_filter|simpl; lia].
Qed.

(** C2, as worded, fails twice: a trend word is also found when the
    answer spells it with capitals, and a number that occurs twice is
    counted twice. *)
Lemma evaluate_faithfulness_not_as_worded :
  (exists score : Q,
     evaluate_faithfulness "Increasing 5" [record "5" "Greater Sydney"] = inr score
     /\ ~ (score == faithfulness_spec "Increasing 5" [record "5" "Greater Sydney"])%Q)
  /\ (exists score : Q,
        evaluate_faithfulness "5 5 7" [record "5" "Greater Sydney"] = inr score
        /\ ~ (score == faithfulness_spec "5 5 7" [record "5" "Greater Sydney"])%Q).
Proof.
  split.
  - exists (1 # 2)%Q. split; [vm_compute; reflexivity|].
    vm_compute. discriminate.
  - exists (2 # 3)%Q. split; [vm_compute; reflexivity|].
    vm_compute. discriminate.
Qed.

(** ** The pipeline *)

Section PipelineProperties.

Context {Sv : Services}.

Lemma load_documents_to_documents (data : list SourceDoc) (acc : list Document) :
  fold_left
    (fun documents doc_data =>
       documents ++ [ {| page_content := content doc_data;
                         doc_metadata := metadata doc_data |} ])
    data acc
  = acc ++ to_documents data.
Proof.
  revert acc. induction data as [|d data IH]; intros acc; simpl.
  - by rewrite app_nil_r.
  - rewrite IH. by rewrite <- app_assoc.
Qed.

(** [query] on a wired chain: the guard passes and the outcome is the
    chain's. *)
Lemma query_wired (self : NSWCrimeRAGPipeline) (chain : QAChain)
    (question : string) (env : Ext) :
  qa_chain self = Some chain ->
  query self question env =
    match chain_call chain question (world env) with
    | (inr (a, docs), w') =>
        (inr {| qr_question := question; qr_answer := a;
                qr_source_documents :=
                  map (fun doc => {| content := page_content doc;
                                     metadata := doc_metadata doc |}) docs |},
         {| world := w'; calls := calls env ++ [CallChain question] |})
    | (inl e, w') =>
        (inl e, {| world := w'; calls := calls env ++ [CallChain question] |})
    end.
Proof.
  intros Hc. unfold query. rewrite Hc. plumbing.
  destruct (chain_call chain question (world env)) as [[e|[a docs]] w']; reflexivity.
Qed.

Lemma query_unwired (self : NSWCrimeRAGPipeline) (question : string) (env : Ext) :
  qa_chain self = None -> query self question env = (inl NotInitializedError, env).
Proof. intros Hc. unfold query. rewrite Hc. reflexivity. Qed.

(** [create_vector_store] and [load_vector_store] do not touch [qa_chain]. *)
Lemma create_vector_store_qa_chain documents dir self env :
  qa_chain (fst (snd (create_vector_store documents dir (self, env))))
  = qa_chain self.
Proof.
  unfold create_vector_store. plumbing.
  destruct (Chroma_from_documents _ _ _) as [[e|store] w1]; simpl; [reflexivity|].
  destruct (Chroma_persist _ _) as [[e|[]] w2]; reflexivity.
Qed.

Lemma load_vector_store_qa_chain dir self env :
  qa_chain (fst (snd (load_vector_store dir (self, env)))) = qa_chain self.
Proof.
  unfold load_vector_store. plumbing.
  destruct (Chroma _ _) as [[e|store] w1]; reflexivity.
Qed.

Lemma build_or_load_qa_chain file force dir self env :
  qa_chain (fst (snd (build_or_load file force dir (self, env)))) = qa_chain self.
Proof.
  unfold build_or_load, load_documents.
  unfold mbind at 1, M_bind at 1, get_ext at 1. cbn [snd].
  destruct (force || negb (path_exists dir (world env))).
  - unfold mbind at 1, M_bind at 1.
    destruct (call_ext _ (self, env)) as [[e|docs] [self1 env1]] eqn:E1.
    + plumbing. destruct (json_load _ _) as [[?|?] ?]; simpl in E1; by simplify_eq.
    + assert (self1 = self) as ->.
      { plumbing. destruct (json_load _ _) as [[?|?] ?]; simpl in E1; by simplify_eq. }
      unfold mbind at 1, M_bind at 1.
      pose proof (create_vector_store_qa_chain docs dir self env1) as Hq.
      destruct (create_vector_store docs dir (self, env1)) as [[?|?] [? ?]];
        exact Hq.
  - unfold mbind at 1, M_bind at 1.
    pose proof (load_vector_store_qa_chain dir self env) as Hq.
    destruct (load_vector_store dir (self, env)) as [[?|?] [? ?]]; exact Hq.
Qed.

(** [setup_qa_chain], run: an unset or empty store is refused before
    anything is called; otherwise the chain is asked for once. *)
Lemma setup_qa_chain_run self env :
  setup_qa_chain (self, env)
  = match vectorstore self with
    | Some store =>
        if Nat.eqb (Chroma_len store (world env)) 0
        then (inl (ValueError "Vector store not initialized"), (self, env))
        else
          let env' w :=
            {| world := w; calls := calls env ++ [CallFromChainType] |} in
          match RetrievalQA_from_chain_type store (world env) with
          | (inl e, w) => (inl e, (self, env' w))
          | (inr chain, w) =>
              (inr chain,
               ({| vectorstore := Some store; qa_chain := Some chain |}, env' w))
          end
    | None => (inl (ValueError "Vector store not initialized"), (self, env))
    end.
Proof.
  unfold setup_qa_chain. plumbing.
  destruct (vectorstore self) as [store|] eqn:Ev; [|reflexivity].
  cbn [truthy_vectorstore]. rewrite negb_involutive.
  destruct (Nat.eqb (Chroma_len store (world env)) 0); [reflexivity|].
  plumbing.
  destruct (RetrievalQA_from_chain_type _ _) as [[e|chain] w1];
    cbn [fst snd]; by rewrite ?Ev.
Qed.

Lemma setup_qa_chain_outcome self env :
  match setup_qa_chain (self, env) with
  | (inr chain, (self', _)) => qa_chain self' = Some chain
  | (inl _, (self', _)) => qa_chain self' = qa_chain self
  end.
Proof.
  rewrite setup_qa_chain_run.
  destruct (vectorstore self) as [store|]; [|reflexivity].
  destruct (Nat.eqb (Chroma_len store (world env)) 0); [reflexivity|].
  cbn zeta.
  destruct (RetrievalQA_from_chain_type _ _) as [[e|chain] w1]; reflexivity.
Qed.

Lemma initialize_pipeline_outcome file force self env :
  match initialize_pipeline file force (self, env) with
  | (inr _, (self', _)) => exists chain, qa_chain self' = Some chain
  | (inl _, (self', _)) => qa_chain self' = qa_chain self
  end.
Proof.
  unfold initialize_pipeline.
  unfold mbind at 1, M_bind at 1.
  pose proof (build_or_load_qa_chain file force "chroma_db" self env) as Hb.
  destruct (build_or_load _ _ _ _) as [[e|[]] [self1 env1]]; simpl in Hb; [exact Hb|].
  unfold mbind at 1, M_bind at 1.
  pose proof (setup_qa_chain_outcome self1 env1) as Hs.
  destruct (setup_qa_chain (self1, env1)) as [[e|chain] [self2 env2]].
  - congruence.
  - unfold mret, M_ret. eauto.
Qed.

(** C7. A query on a pipeline with no QA chain wired fails with the
    not-initialised error and yields no result (nothing is called); a
    pipeline is in that state when fresh and when its only initialise call
    raised; after a successful initialise the guard passes and the query
    is answered by the chain. *)
Theorem query_not_initialized (question : string) (env : Ext) :
  (forall self, qa_chain self = None ->
     query self question env = (inl NotInitializedError, env))
  /\ qa_chain NSWCrimeRAGPipeline_init = None
  /\ (forall file force env0 e self' env',
        initialize_pipeline file force (NSWCrimeRAGPipeline_init, env0)
        = (inl e, (self', env')) ->
        query self' question env = (inl NotInitializedError, env))
  /\ (forall file force self0 env0 self' env',
        initialize_pipeline file force (self0, env0) = (inr tt, (self', env')) ->
        exists chain, qa_chain self' = Some chain
          /\ fst (query self' question env)
             = match fst (chain_call chain question (world env)) with
               | inr (a, docs) =>
                   inr {| qr_question := question; qr_answer := a;
                          qr_source_documents :=
                            map (fun doc => {| content := page_content doc;
                                               metadata := doc_metadata doc |})
                                docs |}
               | inl e => inl e
               end).
Proof.
  split; [intros self Hc; by apply query_unwired|].
  split; [reflexivity|]. split.
  - intros file force env0 e self' env' Hi.
    pose proof (initialize_pipeline_outcome file force NSWCrimeRAGPipeline_init env0) as Ho.
    rewrite Hi in Ho. by apply query_unwired.
  - intros file force self0 env0 self' env' Hi.
    pose proof (initialize_pipeline_outcome file force self0 env0) as Ho.
    rewrite Hi in Ho. destruct Ho as [chain Hc]. exists chain. split; [exact Hc|].
    rewrite (query_wired self' chain question env Hc).
    destruct (chain_call chain question (world env)) as [[e|[a docs]] w']; reflexivity.
Qed.

(** [initialize_pipeline], run: the route taken and what each external
    call is given. *)
Lemma initialize_pipeline_run
    (documents_file : string) (force_recreate : bool)
    (self : NSWCrimeRAGPipeline) (env : Ext) :
  let after w cs := {| world := w; calls := calls env ++ cs |} in
  let wire s :=
    match setup_qa_chain s with
    | (inl e, s') => (inl e, s')
    | (inr _, s') => (inr tt, s')
    end in
  initialize_pipeline documents_file force_recreate (self, env)
  = if force_recreate || negb (path_exists "chroma_db" (world env))
    then
      match json_load documents_file (world env) with
      | (inl e, w1) => (inl e, (self, after w1 [CallJsonLoad documents_file]))
      | (inr data, w1) =>
          let chunks := split_documents (to_documents data) in
          let embed := CallFromDocuments chunks "chroma_db" in
          match Chroma_from_documents chunks "chroma_db" w1 with
          | (inl e, w2) =>
              (inl e, (self, after w2 [CallJsonLoad documents_file; embed]))
          | (inr store, w2) =>
              let self1 :=
                {| vectorstore := Some store; qa_chain := qa_chain self |} in
              match Chroma_persist store w2 with
              | (inl e, w3) =>
                  (inl e,
                   (self1,
                    after w3 [CallJsonLoad documents_file; embed; CallPersist]))
              | (inr _, w3) =>
                  wire (self1,
                        after w3 [CallJsonLoad documents_file; embed; CallPersist])
              end
          end
      end
    else
      match Chroma "chroma_db" (world env) with
      | (inl e, w1) => (inl e, (self, after w1 [CallChroma "chroma_db"]))
      | (inr store, w1) =>
          wire ({| vectorstore := Some store; qa_chain := qa_chain self |},
                after w1 [CallChroma "chroma_db"])
      end.
Proof.
  cbn zeta. unfold initialize_pipeline, build_or_load.
  unfold mbind at 1, M_bind at 1. unfold mbind at 1, M_bind at 1.
  unfold get_ext at 1. cbn [fst snd].
  destruct (force_recreate || negb (path_exists "chroma_db" (world env))).
  - unfold load_documents, create_vector_store. plumbing.
    destruct (json_load documents_file (world env)) as [[e|data] w1];
      cbn [fst snd world calls]; [reflexivity|].
    rewrite (load_documents_to_documents data []). cbn [app].
    destruct (Chroma_from_documents _ _ w1) as [[e|store] w2];
      cbn [fst snd world calls]; [by rewrite <- app_assoc|].
    destruct (Chroma_persist store w2) as [[e|[]] w3];
      cbn [fst snd world calls]; rewrite <- !app_assoc; cbn [app];
      [reflexivity|].
    by destruct (setup_qa_chain _) as [[e|chain] s'].
  - unfold load_vector_store. plumbing.
    destruct (Chroma "chroma_db" (world env)) as [[e|store] w1];
      cbn [fst snd world calls]; [reflexivity|].
    by destruct (setup_qa_chain _) as [[e|chain] s'].
Qed.

(** The external calls of [initialize_pipeline], by branch. *)
Lemma initialize_pipeline_calls
    (documents_file : string) (force_recreate : bool)
    (self : NSWCrimeRAGPipeline) (env : Ext) :
  let env' := snd (snd (initialize_pipeline documents_file force_recreate (self, env))) in
  if force_recreate || negb (path_exists "chroma_db" (world env))
  then
    exists rest,
      calls env' = calls env ++ CallJsonLoad documents_file :: rest
      /\ Forall (fun c => c <> CallChroma "chroma_db") rest
      /\ (forall data w1,
            json_load documents_file (world env) = (inr data, w1) ->
            exists rest',
              rest = CallFromDocuments (split_documents (to_documents data))
                       "chroma_db" :: rest')
  else
    exists rest,
      calls env' = calls env ++ CallChroma "chroma_db" :: rest
      /\ Forall (fun c => c = CallFromChainType) rest.
Proof.
  cbn zeta. rewrite initialize_pipeline_run. cbn zeta.
  destruct (force_recreate || negb (path_exists "chroma_db" (world env))).
  - destruct (json_load documents_file (world env)) as [[e|data] w1] eqn:Ej;
      cbn [fst snd world calls].
    { exists []. split; [reflexivity|]. split; [constructor|].
      intros ? ? [=]. }
    destruct (Chroma_from_documents _ _ w1) as [[e|store] w2];
      cbn [fst snd world calls].
    { eexists. split; [reflexivity|].
      split; [repeat constructor; discriminate|].
      intros data' w1' [= <- <-]. eauto. }
    destruct (Chroma_persist store w2) as [[e|[]] w3];
      cbn [fst snd world calls].
    { eexists. split; [reflexivity|].
      split; [repeat constructor; discriminate|].
      intros data' w1' [= <- <-]. eauto. }
    rewrite setup_qa_chain_run. cbn [vectorstore world calls].
    destruct (Nat.eqb (Chroma_len store w3) 0); cbn [fst snd world calls].
    { eexists. split; [reflexivity|].
      split; [repeat constructor; discriminate|].
      intros data' w1' [= <- <-]. eauto. }
    cbn zeta.
    destruct (RetrievalQA_from_chain_type store w3) as [[e|chain] w4];
      cbn [fst snd world calls];
      (eexists; split; [by rewrite <- !app_assoc|];
       split; [repeat constructor; discriminate|];
       intros data' w1' [= <- <-]; eauto).
  - destruct (Chroma "chroma_db" (world env)) as [[e|store] w1];
      cbn [fst snd world calls].
    { exists []. split; [reflexivity|constructor]. }
    rewrite setup_qa_chain_run. cbn [vectorstore world calls].
    destruct (Nat.eqb (Chroma_len store w1) 0); cbn [fst snd world calls].
    { exists []. split; [reflexivity|constructor]. }
    cbn zeta.
    destruct (RetrievalQA_from_chain_type store w1) as [[e|chain] w2];
      cbn [fst snd world calls];
      (eexists; split; [by rewrite <- !app_assoc|]; repeat constructor).
Qed.

(** When [initialize_pipeline] returns, by route: every call it made
    succeeded on what the call before left, and the store was not empty. *)
Lemma initialize_pipeline_returns
    (documents_file : string) (force_recreate : bool)
    (self self' : NSWCrimeRAGPipeline) (env env' : Ext) :
  let after w cs := {| world := w; calls := calls env ++ cs |} in
  initialize_pipeline documents_file force_recreate (self, env)
  = (inr tt, (self', env'))
  <-> if force_recreate || negb (path_exists "chroma_db" (world env))
      then
        exists data w1 store w2 w3 chain w4,
          json_load documents_file (world env) = (inr data, w1)
          /\ Chroma_from_documents (split_documents (to_documents data))
               "chroma_db" w1 = (inr store, w2)
          /\ Chroma_persist store w2 = (inr tt, w3)
          /\ Chroma_len store w3 <> 0%nat
          /\ RetrievalQA_from_chain_type store w3 = (inr chain, w4)
          /\ self' = {| vectorstore := Some store; qa_chain := Some chain |}
          /\ env' = after w4
                      [CallJsonLoad documents_file;
                       CallFromDocuments (split_documents (to_documents data))
                         "chroma_db";
                       CallPersist; CallFromChainType]
      else
        exists store w1 chain w2,
          Chroma "chroma_db" (world env) = (inr store, w1)
          /\ Chroma_len store w1 <> 0%nat
          /\ RetrievalQA_from_chain_type store w1 = (inr chain, w2)
          /\ self' = {| vectorstore := Some store; qa_chain := Some chain |}
          /\ env' = after w2 [CallChroma "chroma_db"; CallFromChainType].
Proof.
  cbn zeta. rewrite initialize_pipeline_run. cbn zeta.
  destruct (force_recreate || negb (path_exists "chroma_db" (world env))).
  - destruct (json_load documents_file (world env)) as [[e|data] w1] eqn:Ej.
    { split; [discriminate|]. intros (? & ? & ? & ? & ? & ? & ? & ? & _).
      simplify_eq. }
    destruct (Chroma_from_documents _ _ w1) as [[e|store] w2] eqn:Ef.
    { split; [discriminate|]. intros (? & ? & ? & ? & ? & ? & ? & ? & ? & _).
      same_call. }
    destruct (Chroma_persist store w2) as [[e|[]] w3] eqn:Ep.
    { split; [discriminate|].
      intros (? & ? & ? & ? & ? & ? & ? & ? & ? & ? & _). same_call. }
    rewrite setup_qa_chain_run. cbn [vectorstore world calls].
    destruct (Nat.eqb (Chroma_len store w3) 0) eqn:El.
    { apply Nat.eqb_eq in El. split; [discriminate|].
      intros (? & ? & ? & ? & ? & ? & ? & ? & ? & ? & ? & _). same_call; congruence. }
    apply Nat.eqb_neq in El. cbn zeta.
    destruct (RetrievalQA_from_chain_type store w3) as [[e|chain] w4] eqn:Ec.
    { split; [discriminate|].
      intros (? & ? & ? & ? & ? & ? & ? & ? & ? & ? & ? & ? & _). same_call. }
    rewrite <- !app_assoc. cbn [app]. split.
    + intros [= <- <-]. by exists data, w1, store, w2, w3, chain, w4.
    + intros (? & ? & ? & ? & ? & ? & ? & ? & ? & ? & ? & ? & -> & ->).
      same_call; reflexivity.
  - destruct (Chroma "chroma_db" (world env)) as [[e|store] w1] eqn:Eo.
    { split; [discriminate|]. intros (? & ? & ? & ? & ? & _). simplify_eq. }
    rewrite setup_qa_chain_run. cbn [vectorstore world calls].
    destruct (Nat.eqb (Chroma_len store w1) 0) eqn:El.
    { apply Nat.eqb_eq in El. split; [discriminate|].
      intros (? & ? & ? & ? & ? & ? & _). simplify_eq. }
    apply Nat.eqb_neq in El. cbn zeta.
    destruct (RetrievalQA_from_chain_type store w1) as [[e|chain] w2] eqn:Ec.
    { split; [discriminate|]. intros (? & ? & ? & ? & ? & ? & ? & _).
      same_call. }
    rewrite <- !app_assoc. cbn [app]. split.
    + intros [= <- <-]. by exists store, w1, chain, w2.
    + intros (? & ? & ? & ? & ? & ? & ? & -> & ->). same_call; reflexivity.
Qed.

(** C6. [initialize_pipeline] builds the index from the corpus exactly
    when [force_recreate] is true or the persist directory does not exist,
    and otherwise loads the existing index.
    On the build route its first external call is the corpus read and, once
    the corpus is read, the next one embeds all its chunks; the existing
    index is not opened; and it returns exactly when the corpus was read,
    [from_documents] on all its chunks gave a store, that store was
    persisted and is not empty, and the chain was created over it: the
    pipeline then holds that store and that chain, and the world is the one
    these calls left.
    On the load route its first call opens the existing index, it neither
    reads the corpus nor embeds anything, and it returns exactly when the
    opened store is not empty and the chain was created over it: the
    pipeline then holds the opened store, and the world is the one these
    two calls left.
    In particular [force_recreate = true] always takes the build route. *)
Theorem initialize_pipeline_route
    (documents_file : string) (force_recreate : bool)
    (self : NSWCrimeRAGPipeline) (env : Ext) :
  let out := initialize_pipeline documents_file force_recreate (self, env) in
  let new := calls_since env (snd (snd out)) in
  let build :=
    force_recreate = true \/ path_exists "chroma_db" (world env) = false in
  let after w cs := {| world := w; calls := calls env ++ cs |} in
  (head new = Some (CallJsonLoad documents_file) <-> build)
  /\ (head new = Some (CallChroma "chroma_db") <-> ~ build)
  /\ (build ->
      (CallChroma "chroma_db" ∉ new)
      /\ (forall data w1,
            json_load documents_file (world env) = (inr data, w1) ->
            new !! 1%nat
            = Some (CallFromDocuments (split_documents (to_documents data))
                      "chroma_db"))
      /\ forall self' env',
           out = (inr tt, (self', env'))
           <-> exists data w1 store w2 w3 chain w4,
                 json_load documents_file (world env) = (inr data, w1)
                 /\ Chroma_from_documents (split_documents (to_documents data))
                      "chroma_db" w1 = (inr store, w2)
                 /\ Chroma_persist store w2 = (inr tt, w3)
                 /\ Chroma_len store w3 <> 0%nat
                 /\ RetrievalQA_from_chain_type store w3 = (inr chain, w4)
                 /\ self' = {| vectorstore := Some store; qa_chain := Some chain |}
                 /\ env' = after w4
                             [CallJsonLoad documents_file;
                              CallFromDocuments
                                (split_documents (to_documents data)) "chroma_db";
                              CallPersist; CallFromChainType])
  /\ (~ build ->
      existsb is_embedding_call new = false
      /\ (CallJsonLoad documents_file ∉ new)
      /\ forall self' env',
           out = (inr tt, (self', env'))
           <-> exists store w1 chain w2,
                 Chroma "chroma_db" (world env) = (inr store, w1)
                 /\ Chroma_len store w1 <> 0%nat
                 /\ RetrievalQA_from_chain_type store w1 = (inr chain, w2)
                 /\ self' = {| vectorstore := Some store; qa_chain := Some chain |}
                 /\ env' = after w2 [CallChroma "chroma_db"; CallFromChainType])
  /\ (force_recreate = true -> head new = Some (CallJsonLoad documents_file)).
Proof.
  cbn zeta.
  pose proof (initialize_pipeline_calls documents_file force_recreate self env)
    as Hcalls. cbn zeta in Hcalls. unfold calls_since.
  pose proof (fun self' env' =>
                initialize_pipeline_returns documents_file force_recreate
                  self self' env env') as Hret.
  cbn zeta in Hret.
  assert (force_recreate || negb (path_exists "chroma_db" (world env)) = true
          <-> force_recreate = true \/ path_exists "chroma_db" (world env) = false)
    as Hb by (rewrite orb_true_iff, negb_true_iff; tauto).
  destruct (force_recreate || negb (path_exists "chroma_db" (world env))).
  - assert (force_recreate = true \/ path_exists "chroma_db" (world env) = false)
      as Hbuild by (apply Hb; reflexivity).
    destruct Hcalls as (rest & -> & Hno & Hdata).
    rewrite drop_app_length. cbn [head].
    split; [tauto|]. split; [split; [discriminate|tauto]|].
    split; [|split; [tauto|reflexivity]].
    intros _. split; [|split].
    + intros Hin. apply elem_of_cons in Hin as [Heq|Hin]; [discriminate|].
      rewrite Forall_forall in Hno. by apply (Hno _ Hin).
    + intros data w1 Hj. destruct (Hdata data w1 Hj) as (rest' & ->).
      reflexivity.
    + exact Hret.
  - assert (~ (force_recreate = true \/ path_exists "chroma_db" (world env) = false))
      as Hload by (intros H; apply Hb in H; discriminate).
    destruct Hcalls as (rest & -> & Hrest).
    rewrite drop_app_length. cbn [head].
    split; [split; [discriminate|tauto]|]. split; [tauto|].
    split; [tauto|]. split; [|tauto].
    intros _. rewrite Forall_forall in Hrest. split; [|split].
    + cbn [existsb is_embedding_call orb]. apply not_true_is_false.
      intros Hex. apply existsb_exists in Hex as (c & Hin & Hc).
      apply list_elem_of_In in Hin. rewrite (Hrest c Hin) in Hc. discriminate.
    + intros Hin. apply elem_of_cons in Hin as [Heq|Hin]; [discriminate|].
      specialize (Hrest _ Hin). discriminate.
    + exact Hret.
Qed.

End PipelineProperties.

(** ** The evaluator *)

(** The three scores never raise and lie in [0,1]. *)
Lemma evaluate_effectiveness_total (question answer : string) (kws : list string) :
  exists v : Q, evaluate_effectiveness question answer kws = inr v
    /\ (0 <= v <= 1)%Q.
Proof.
  destruct (decide (answer = "" \/ kws = [])) as [He|Hne].
  - exists 0%Q. split; [by apply evaluate_effectiveness_empty|lra].
  - eexists. split; [apply evaluate_effectiveness_list; tauto|].
    apply ratio_bounds; [apply length_filter|].
    destruct kws; [tauto|simpl; lia].
Qed.

Lemma evaluate_faithfulness_total (answer : string) (docs : list SourceDoc) :
  exists v : Q, evaluate_faithfulness answer docs = inr v /\ (0 <= v <= 1)%Q.
Proof.
  destruct (decide (fact_sequence answer = [] \/ docs = [])) as [Hz|Hnz].
  - exists 0%Q. split; [by apply evaluate_faithfulness_none|lra].
  - eexists. split; [apply evaluate_faithfulness_some; tauto|].
    apply ratio_bounds; [apply length_filter|].
    destruct (fact_sequence answer); [tauto|simpl; lia].
Qed.

Lemma evaluate_source_attribution_total
    (docs : list SourceDoc) (expected : list string) :
  exists v : Q, evaluate_source_attribution docs expected = inr v
    /\ (0 <= v <= 1)%Q.
Proof.
  unfold evaluate_source_attribution.
  destruct docs as [|d docs]; cbn [Py.truthy_list negb].
  { exists 0%Q. split; [reflexivity|lra]. }
  destruct expected as [|e es]; cbn [Py.truthy_list negb].
  { exists 1%Q. split; [reflexivity|lra]. }
  destruct (decide _) as [|Hne].
  { exists 1%Q. split; [reflexivity|lra]. }
  eexists. split.
  - apply truediv_of_nat. by apply size_pos_nonempty.
  - apply ratio_bounds; [|by apply size_pos_nonempty].
    apply subseteq_size. apply intersection_subseteq_r.
Qed.

Lemma weighted_overall_bounds (e f a : Q) :
  (0 <= e <= 1)%Q -> (0 <= f <= 1)%Q -> (0 <= a <= 1)%Q ->
  (0 <= weighted_overall e f a <= 1)%Q.
Proof. unfold weighted_overall. intros [? ?] [? ?] [? ?]. split; lra. Qed.

Lemma weighted_overall_sum (e f a : Q) :
  (weighted_overall e f a == 0.4 * e + 0.4 * f + 0.2 * a)%Q.
Proof. unfold weighted_overall. ring. Qed.

Section EvaluatorProperties.

Context {Sv : Services}.

Lemma scored_well_scored (gt : GroundTruth) (r : QueryResult) (now : string) :
  well_scored (scored gt r now).
Proof.
  unfold well_scored, scored. cbn.
  destruct (evaluate_effectiveness_total (gt_question gt) (qr_answer r)
              (expected_keywords gt)) as (e & -> & He).
  destruct (evaluate_faithfulness_total (qr_answer r) (qr_source_documents r))
    as (f & -> & Hf).
  destruct (evaluate_source_attribution_total (qr_source_documents r)
              (expected_sources gt)) as (a & -> & Ha).
  cbn [score].
  split; [apply weighted_overall_sum|].
  repeat split; try tauto; by apply weighted_overall_bounds.
Qed.

Lemma with_results_nil (self : RAGEvaluator) : with_results self [] = self.
Proof. destruct self. unfold with_results. simpl. by rewrite app_nil_r. Qed.

Lemma with_results_app (self : RAGEvaluator) (a b : list EvaluationResult) :
  with_results (with_results self a) b = with_results self (a ++ b).
Proof. unfold with_results. simpl. by rewrite app_assoc. Qed.

(** One turn of the loop: the [try] block with its handler. *)
Lemma evaluate_item_step (gt : GroundTruth) (self : RAGEvaluator) (env : Ext) :
  try_except (evaluate_item gt) (fun _ => mret tt) (self, env)
  = match item_outcome (pipeline self) gt env with
    | (None, env') => (inr tt, (self, env'))
    | (Some r, env') => (inr tt, (with_results self [r], env'))
    end.
Proof.
  unfold evaluate_item, append_result, item_outcome, scored. plumbing.
  destruct (query (pipeline self) (gt_question gt) env) as [[e|r] env'];
    [reflexivity|].
  destruct (evaluate_effectiveness_total (gt_question gt) (qr_answer r)
              (expected_keywords gt)) as (ve & -> & _).
  destruct (evaluate_faithfulness_total (qr_answer r) (qr_source_documents r))
    as (vf & -> & _).
  destruct (evaluate_source_attribution_total (qr_source_documents r)
              (expected_sources gt)) as (va & -> & _).
  cbn [score fst snd]. destruct (now_isoformat (world env')) as [now w].
  reflexivity.
Qed.

Lemma run_loop (items : list GroundTruth) (self : RAGEvaluator) (env : Ext) :
  for_each items
    (fun gt_data => try_except (evaluate_item gt_data) (fun _ => mret tt))
    (self, env)
  = (inr tt,
     (with_results self (created (fst (run_outcomes (pipeline self) items env))),
      snd (run_outcomes (pipeline self) items env))).
Proof.
  revert self env. induction items as [|gt items IH]; intros self env.
  - simpl. by rewrite with_results_nil.
  - cbn [for_each run_outcomes].
    unfold mbind at 1, M_bind at 1. rewrite evaluate_item_step.
    destruct (item_outcome (pipeline self) gt env) as [[r|] env1].
    + rewrite IH. cbn [pipeline with_results].
      destruct (run_outcomes (pipeline self) items env1) as [os env2].
      cbn [fst snd created omap]. by rewrite with_results_app.
    + rewrite IH.
      destruct (run_outcomes (pipeline self) items env1) as [os env2].
      reflexivity.
Qed.

Lemma run_outcomes_length p (items : list GroundTruth) (env : Ext) :
  length (fst (run_outcomes p items env)) = length items.
Proof.
  revert env. induction items as [|gt items IH]; intros env; [reflexivity|].
  cbn [run_outcomes]. destruct (item_outcome p gt env) as [o env1].
  specialize (IH env1). destruct (run_outcomes p items env1) as [os env2].
  simpl in *. by rewrite IH.
Qed.

Lemma run_outcomes_questions p (items : list GroundTruth) (env : Ext) :
  map question (created (fst (run_outcomes p items env)))
    `sublist_of` map gt_question items.
Proof.
  revert env. induction items as [|gt items IH]; intros env; [reflexivity|].
  cbn [run_outcomes]. unfold item_outcome.
  destruct (query p (gt_question gt) env) as [[e|r] env1].
  - specialize (IH env1). destruct (run_outcomes p items env1) as [os env2].
    cbn in *. by apply sublist_cons.
  - destruct (now_isoformat (world env1)) as [now w].
    specialize (IH {| world := w; calls := calls env1 |}).
    destruct (run_outcomes p items _) as [os env2].
    cbn in *. by apply sublist_skip.
Qed.

Lemma run_outcomes_well_scored p (items : list GroundTruth) (env : Ext) :
  Forall well_scored (created (fst (run_outcomes p items env))).
Proof.
  revert env. induction items as [|gt items IH]; intros env; [constructor|].
  cbn [run_outcomes]. unfold item_outcome.
  destruct (query p (gt_question gt) env) as [[e|r] env1].
  - specialize (IH env1). destruct (run_outcomes p items env1) as [os env2].
    exact IH.
  - destruct (now_isoformat (world env1)) as [now w].
    specialize (IH {| world := w; calls := calls env1 |}).
    destruct (run_outcomes p items _) as [os env2].
    cbn in *. constructor; [apply scored_well_scored|exact IH].
Qed.

Lemma run_outcomes_calls p chain (items : list GroundTruth) (env : Ext) :
  qa_chain p = Some chain ->
  calls (snd (run_outcomes p items env))
  = calls env ++ map (fun gt => CallChain (gt_question gt)) items.
Proof.
  intros Hc. revert env.
  induction items as [|gt items IH]; intros env; [by rewrite app_nil_r|].
  cbn [run_outcomes]. unfold item_outcome.
  rewrite (query_wired p chain _ env Hc).
  destruct (chain_call chain (gt_question gt) (world env)) as [[e|[a docs]] w1].
  - specialize (IH {| world := w1; calls := calls env ++ [CallChain (gt_question gt)] |}).
    destruct (run_outcomes p items _) as [os env2].
    cbn in *. by rewrite IH, <- app_assoc.
  - cbn [world calls]. destruct (now_isoformat w1) as [now w2].
    specialize (IH {| world := w2; calls := calls env ++ [CallChain (gt_question gt)] |}).
    destruct (run_outcomes p items _) as [os env2].
    cbn in *. by rewrite IH, <- app_assoc.
Qed.

(** On a pipeline that is not wired every item is skipped and nothing is
    called. *)
Lemma run_outcomes_unwired p (items : list GroundTruth) (env : Ext) :
  qa_chain p = None ->
  run_outcomes p items env = (map (fun _ => None) items, env).
Proof.
  intros Hc. induction items as [|gt items IH]; [reflexivity|].
  cbn [run_outcomes]. unfold item_outcome.
  rewrite (query_unwired p _ env Hc), IH. reflexivity.
Qed.

(** The loop over [l1 ++ l2] is the loop over [l1] followed by the loop
    over [l2], whatever happened in [l1]. *)
Lemma run_outcomes_app p (l1 l2 : list GroundTruth) (env : Ext) :
  run_outcomes p (l1 ++ l2) env
  = (fst (run_outcomes p l1 env)
       ++ fst (run_outcomes p l2 (snd (run_outcomes p l1 env))),
     snd (run_outcomes p l2 (snd (run_outcomes p l1 env)))).
Proof.
  revert env. induction l1 as [|gt l1 IH]; intros env.
  - cbn. by destruct (run_outcomes p l2 env).
  - cbn [app run_outcomes]. destruct (item_outcome p gt env) as [o env1].
    rewrite IH. destruct (run_outcomes p l1 env1) as [os env2].
    reflexivity.
Qed.

Lemma run_evaluation_outcomes (self : RAGEvaluator) (env : Ext) :
  run_evaluation (self, env)
  = (inr (evaluation_results self
          ++ created (fst (run_outcomes (pipeline self) (ground_truth_data self) env))),
     (with_results self
        (created (fst (run_outcomes (pipeline self) (ground_truth_data self) env))),
      snd (run_outcomes (pipeline self) (ground_truth_data self) env))).
Proof.
  unfold run_evaluation.
  unfold mbind at 1, M_bind at 1, get_self at 1. cbn [fst].
  unfold mbind at 1, M_bind at 1. rewrite run_loop. reflexivity.
Qed.

(** C9. A run never raises: an item whose query raises contributes no
    result and the loop goes on; every benchmark item gets exactly one
    outcome, the created results follow the benchmark order, and on a wired
    pipeline the chain is called exactly once per item, in benchmark order,
    whatever fails.  On a pipeline that is not wired every item is skipped
    without any call. *)
Theorem run_evaluation_skips_failures (self : RAGEvaluator) (env : Ext) :
  let items := ground_truth_data self in
  let outcomes := fst (run_outcomes (pipeline self) items env) in
  let env' := snd (run_outcomes (pipeline self) items env) in
  run_evaluation (self, env)
  = (inr (evaluation_results self ++ created outcomes),
     (with_results self (created outcomes), env'))
  /\ length outcomes = length items
  /\ map question (created outcomes) `sublist_of` map gt_question items
  /\ (forall gt, try_except (evaluate_item gt) (fun _ => mret tt) (self, env)
                 = match query (pipeline self) (gt_question gt) env with
                   | (inl _, env1) => (inr tt, (self, env1))
                   | (inr r, env1) =>
                       let (now, w) := now_isoformat (world env1) in
                       (inr tt, (with_results self [scored gt r now],
                                 {| world := w; calls := calls env1 |}))
                   end)
  /\ (forall chain, qa_chain (pipeline self) = Some chain ->
        calls env' = calls env ++ map (fun gt => CallChain (gt_question gt)) items)
  /\ (qa_chain (pipeline self) = None ->
      created outcomes = [] /\ env' = env).
Proof.
  cbn zeta. split; [apply run_evaluation_outcomes|].
  split; [apply run_outcomes_length|].
  split; [apply run_outcomes_questions|]. split; [|split].
  - intros gt. rewrite evaluate_item_step. unfold item_outcome.
    destruct (query _ _ _) as [[e|r] env1]; [reflexivity|].
    by destruct (now_isoformat _).
  - intros chain Hc. by apply run_outcomes_calls with chain.
  - intros Hc. rewrite run_outcomes_unwired by exact Hc. cbn [fst snd].
    split; [|reflexivity]. unfold created.
    induction (ground_truth_data self); [reflexivity|assumption].
Qed.

(** C1. The overall score of every result a run creates is the weighted
    sum 0.4 effectiveness + 0.4 faithfulness + 0.2 source attribution of
    its own components, and lies in [0,1]; the weighted sum lies in [0,1]
    whenever the three components do. *)
Theorem overall_score_weighted (self : RAGEvaluator) (env : Ext) :
  (forall e f a : Q,
     (0 <= e <= 1)%Q -> (0 <= f <= 1)%Q -> (0 <= a <= 1)%Q ->
     (0 <= weighted_overall e f a <= 1)%Q)
  /\ exists new : list EvaluationResult,
       evaluation_results (fst (snd (run_evaluation (self, env))))
       = evaluation_results self ++ new
       /\ Forall
            (fun r =>
               (overall_score r == 0.4 * effectiveness_score r
                                  + 0.4 * faithfulness_score r
                                  + 0.2 * source_attribution_score r)%Q
               /\ (0 <= overall_score r <= 1)%Q)
            new.
Proof.
  split; [apply weighted_overall_bounds|].
  rewrite run_evaluation_outcomes. cbn [fst snd with_results evaluation_results].
  eexists. split; [reflexivity|].
  eapply Forall_impl; [apply run_outcomes_well_scored|].
  intros r (Hsum & _ & _ & _ & Hb). by split.
Qed.

(** The report over a non-empty result sequence. *)
Lemma generate_report_full (self : RAGEvaluator) :
  evaluation_results self <> [] ->
  let results := evaluation_results self in
  generate_report self
  = inr (FullReport
      {| total_questions := length results;
         average_effectiveness :=
           Py.round (mean (map effectiveness_score results)) 3;
         average_faithfulness :=
           Py.round (mean (map faithfulness_score results)) 3;
         average_source_attribution :=
           Py.round (mean (map source_attribution_score results)) 3;
         average_overall_score := Py.round (mean (map overall_score results)) 3;
         unanswered_questions := unanswered results;
         unanswered_percentage :=
           Py.round (of_nat (unanswered results) / of_nat (length results) * 100) 1 |}
      (map (fun r =>
              {| d_question := question r;
                 d_effectiveness_score := Py.round (effectiveness_score r) 3;
                 d_faithfulness_score := Py.round (faithfulness_score r) 3;
                 d_source_attribution_score :=
                   Py.round (source_attribution_score r) 3;
                 d_overall_score := Py.round (overall_score r) 3 |})
           results)
      (_generate_recommendations
         (mean (map effectiveness_score results))
         (mean (map faithfulness_score results))
         (mean (map source_attribution_score results)))).
Proof.
  intros Hne. cbn zeta. unfold generate_report, mean, unanswered.
  destruct (evaluation_results self) as [|r rs] eqn:E; [done|].
  cbn [Py.truthy_list negb].
  assert (0 < length (r :: rs))%nat as Hlen by (simpl; lia).
  rewrite !truediv_of_nat by exact Hlen.
  rewrite !length_map. reflexivity.
Qed.

(** C8. With no result collected, [generate_report] returns the
    no-results report instead of dividing by zero; this is the case of a
    fresh evaluator, and no result sequence at all makes it raise. *)
Theorem generate_report_no_results (self : RAGEvaluator) :
  (evaluation_results self = [] ->
   generate_report self = inr (ErrorReport "No evaluation results available"))
  /\ (forall p, generate_report (RAGEvaluator_init p)
                = inr (ErrorReport "No evaluation results available"))
  /\ (exists report, generate_report self = inr report).
Proof.
  split; [|split].
  - intros E. unfold generate_report. by rewrite E.
  - reflexivity.
  - destruct (evaluation_results self) as [|r rs] eqn:E.
    + eexists. unfold generate_report. by rewrite E.
    + eexists. apply generate_report_full. by rewrite E.
Qed.

(** C10. The result sequence starts empty and only grows: a run keeps
    what was there and appends its own results, so a second run on the
    same evaluator extends the sequence of the first, and the report's
    count, means and unanswered count range over everything accumulated. *)
Theorem evaluation_results_append_only (p : NSWCrimeRAGPipeline) (env : Ext) :
  evaluation_results (RAGEvaluator_init p) = []
  /\ (forall self env0,
        evaluation_results self
          `prefix_of` evaluation_results (fst (snd (run_evaluation (self, env0)))))
  /\ (let s1 := snd (run_evaluation (RAGEvaluator_init p, env)) in
      let s2 := snd (run_evaluation s1) in
      let first := evaluation_results (fst s1) in
      let all := evaluation_results (fst s2) in
      exists second,
        all = first ++ second
        /\ second = created (fst (run_outcomes p _load_ground_truth (snd s1)))
        /\ (all <> [] ->
            exists summary details recs,
              generate_report (fst s2) = inr (FullReport summary details recs)
              /\ total_questions summary = (length first + length second)%nat
              /\ average_effectiveness summary
                 = Py.round (mean (map effectiveness_score all)) 3
              /\ average_faithfulness summary
                 = Py.round (mean (map faithfulness_score all)) 3
              /\ average_source_attribution summary
                 = Py.round (mean (map source_attribution_score all)) 3
              /\ average_overall_score summary
                 = Py.round (mean (map overall_score all)) 3
              /\ unanswered_questions summary = unanswered all
              /\ map d_question details = map question all)).
Proof.
  split; [reflexivity|]. split.
  - intros self env0. rewrite run_evaluation_outcomes.
    cbn [fst snd with_results evaluation_results]. by eexists.
  - cbn zeta. rewrite run_evaluation_outcomes. cbn [fst snd].
    rewrite run_evaluation_outcomes.
    cbn [fst snd with_results evaluation_results pipeline ground_truth_data
         RAGEvaluator_init app].
    eexists. split; [reflexivity|]. split; [reflexivity|].
    intros Hne.
    match goal with |- context [generate_report ?s] => set (self2 := s) end.
    pose proof (generate_report_full self2 Hne) as Hr. cbn zeta in Hr.
    do 3 eexists. split; [exact Hr|].
    cbn [total_questions average_effectiveness average_faithfulness
         average_source_attribution average_overall_score unanswered_questions].
    subst self2. cbn [evaluation_results with_results RAGEvaluator_init app].
    rewrite length_app, map_map. cbn [d_question].
    repeat split; reflexivity.
Qed.

End EvaluatorProperties.

(** ** Concrete runs *)

Lemma evaluate_effectiveness_correct_witness :
  exists score : Q,
    evaluate_effectiveness "q" "Crime RATE in Greater Sydney"
      ["crime"; "rate"; "count"; "Greater Sydney"] = inr score
    /\ (score == effectiveness_spec "Crime RATE in Greater Sydney"
                   (list_to_set ["crime"; "rate"; "count"; "Greater Sydney"]))%Q
    /\ (0 <= score <= 1)%Q.
Proof.
  destruct (evaluate_effectiveness_correct "q" "Crime RATE in Greater Sydney"
              ["crime"; "rate"; "count"; "Greater Sydney"])
    as (score & Hs & Heq & _ & Hb).
  - apply (bool_decide_unpack _). vm_compute. reflexivity.
  - exists score. repeat split; [exact Hs|exact Heq|apply Hb|apply Hb].
Defined.

Lemma evaluate_faithfulness_correct_witness :
  exists score : Q,
    evaluate_faithfulness "Assault is stable at 500" [] = inr score
    /\ score = 0%Q.
Proof.
  destruct (evaluate_faithfulness_correct "Assault is stable at 500" [])
    as (score & Hs & _ & Hz & _).
  exists score. split; [exact Hs|]. apply Hz. right. reflexivity.
Defined.

Lemma evaluate_source_attribution_correct_witness :
  exists score : Q,
    evaluate_source_attribution
      [record "a" "Greater Sydney"; record "b" "Elsewhere"]
      ["Greater Sydney"; "NSW Regional"] = inr score
    /\ (score == source_attribution_spec
                   [record "a" "Greater Sydney"; record "b" "Elsewhere"]
                   (list_to_set ["Greater Sydney"; "NSW Regional"]))%Q.
Proof.
  apply (evaluate_source_attribution_correct
           [record "a" "Greater Sydney"; record "b" "Elsewhere"]
           ["Greater Sydney"; "NSW Regional"]).
Defined.

(** C5. A build over an index that already holds the corpus: the call
    returns, and the index then holds the old entries followed by the new
    ones, every chunk twice, not the new ones alone.  The same happens
    through [initialize_pipeline] with [force_recreate = True].  A build
    that the embedding service fails leaves the index as it was.  In
    general a build that returns leaves the entries the index held,
    followed by the new chunks. *)
Theorem create_vector_store_appends :
  let corpus :=
    [chunk "Greater Sydney assault rate is 500 per 100000" "Greater Sydney";
     chunk "NSW Regional murder count 12" "NSW Regional"] in
  let index_after (out : result VectorStore * (NSWCrimeRAGPipeline * Ext)) :=
    @persisted_index test_services "chroma_db" (world (snd (snd out))) in
  let build :=
    @create_vector_store test_services corpus "chroma_db"
      (@NSWCrimeRAGPipeline_init test_services, served) in
  let rebuild :=
    @initialize_pipeline test_services "data/rag_documents.json" true
      (@NSWCrimeRAGPipeline_init test_services, served) in
  let failed :=
    @create_vector_store test_services
      [chunk "a" "Greater Sydney"; chunk "b" "Greater Sydney"] "chroma_db"
      (@NSWCrimeRAGPipeline_init test_services,
       @Build_Ext test_services stale_world []) in
  @persisted_index test_services "chroma_db" (world served) = Some corpus
  /\ fst build = inr tt
  /\ index_after build = Some (corpus ++ corpus)
  /\ index_after build <> Some (@split_documents test_services corpus)
  /\ fst rebuild = inr tt
  /\ @persisted_index test_services "chroma_db" (world (snd (snd rebuild)))
     = Some (corpus ++ corpus)
  /\ fst failed = inl EmbeddingServiceError
  /\ index_after failed = Some [chunk "old" "NSW Regional"]
  /\ forall (w : TestWorld) (documents : list Document)
        (self : @NSWCrimeRAGPipeline test_services) (made : list call),
       forallb (tw_embeddable w) documents = true ->
       let out :=
         @create_vector_store test_services documents "chroma_db"
           (self, @Build_Ext test_services w made) in
       fst out = inr tt
       /\ index_after out = Some (default [] (tw_index w) ++ documents).
Proof.
  cbn zeta. repeat split; try (vm_compute; reflexivity).
  - intros H. vm_compute in H. discriminate H.
  - unfold create_vector_store. plumbing.
    cbn [Chroma_from_documents Chroma_persist split_documents test_services].
    unfold tw_from_documents. by rewrite H.
  - unfold create_vector_store. plumbing.
    cbn [Chroma_from_documents Chroma_persist split_documents test_services
           persisted_index].
    unfold tw_from_documents. by rewrite H.
Qed.

Lemma overall_score_weighted_witness :
  (0 <= weighted_overall (2 # 3) (4 # 5) 1 <= 1)%Q
  /\ exists new : list EvaluationResult,
       evaluation_results
         (fst (snd (@run_evaluation test_services
                      (@RAGEvaluator_init test_services wired_pipeline, served))))
       = [] ++ new
       /\ Forall
            (fun r =>
               (overall_score r == 0.4 * effectiveness_score r
                                  + 0.4 * faithfulness_score r
                                  + 0.2 * source_attribution_score r)%Q
               /\ (0 <= overall_score r <= 1)%Q)
            new.
Proof.
  destruct (@overall_score_weighted test_services
              (@RAGEvaluator_init test_services wired_pipeline) served)
    as [Hbounds Hrun].
  split; [|exact Hrun].
  apply Hbounds; split; unfold Qle; simpl; lia.
Defined.

Lemma initialize_pipeline_route_witness :
  calls_since served
    (snd (snd (@initialize_pipeline test_services "data/rag_documents.json"
                 true (wired_pipeline, served)))) !! 1%nat
  = Some (CallFromDocuments
            [chunk "Greater Sydney assault rate is 500 per 100000" "Greater Sydney";
             chunk "NSW Regional murder count 12" "NSW Regional"] "chroma_db")
  /\ @initialize_pipeline test_services "data/rag_documents.json" false
       (@NSWCrimeRAGPipeline_init test_services, served)
     = (inr tt,
        (wired_pipeline,
         @Build_Ext test_services served_world
           [CallChroma "chroma_db"; CallFromChainType])).
Proof.
  split.
  - destruct (@initialize_pipeline_route test_services "data/rag_documents.json"
                true wired_pipeline served) as (_ & _ & Hbuild & _).
    destruct Hbuild as (_ & Hembed & _); [left; reflexivity|].
    apply (Hembed
             [record "Greater Sydney assault rate is 500 per 100000" "Greater Sydney";
              record "NSW Regional murder count 12" "NSW Regional"]
             served_world).
    reflexivity.
  - destruct (@initialize_pipeline_route test_services "data/rag_documents.json"
                false (@NSWCrimeRAGPipeline_init test_services) served)
      as (_ & _ & _ & Hload & _).
    destruct Hload as (_ & _ & Hreturns).
    + intros [H|H]; discriminate H.
    + apply Hreturns. exists tt, served_world, tt, served_world.
      repeat split. discriminate.
Defined.

Lemma query_not_initialized_witness :
  @query test_services (@NSWCrimeRAGPipeline_init test_services)
    "What are the crime statistics for Greater Sydney?" served
  = (inl NotInitializedError, served).
Proof.
  apply (proj1 (@query_not_initialized test_services
                  "What are the crime statistics for Greater Sydney?" served)).
  reflexivity.
Defined.

Lemma generate_report_no_results_witness :
  @generate_report test_services (@RAGEvaluator_init test_services wired_pipeline)
  = inr (ErrorReport "No evaluation results available").
Proof.
  apply (proj1 (@generate_report_no_results test_services
                  (@RAGEvaluator_init test_services wired_pipeline))).
  reflexivity.
Defined.

Lemma run_evaluation_skips_failures_witness :
  calls (snd (@run_outcomes test_services wired_pipeline _load_ground_truth served))
  = map (fun gt => CallChain (gt_question gt)) _load_ground_truth.
Proof.
  apply (proj1 (proj2 (proj2 (proj2 (proj2
           (@run_evaluation_skips_failures test_services
              (@RAGEvaluator_init test_services wired_pipeline) served)))))
           tt).
  reflexivity.
Defined.

Lemma evaluation_results_append_only_witness :
  exists summary details recs,
    @generate_report test_services
      (fst (snd (@run_evaluation test_services
                   (snd (@run_evaluation test_services
                           (@RAGEvaluator_init test_services wired_pipeline, served))))))
    = inr (FullReport summary details recs)
    /\ total_questions summary = 4%nat.
Proof.
  destruct (@evaluation_results_append_only test_services wired_pipeline served)
    as (_ & _ & second & Hall & Hsecond & Hreport).
  destruct Hreport as (summary & details & recs & Hr & Htotal & _).
  - rewrite Hall, Hsecond. vm_compute. discriminate.
  - exists summary, details, recs. split; [exact Hr|].
    rewrite Htotal, Hsecond. vm_compute. reflexivity.
Defined.

(** ** Worked examples *)

(** An answer saying "increased": the trend vocabulary has "increasing"
    only, the category "Assault" is capitalised; the two facts found are
    both in the source. *)
Example faithfulness_of_increased :
  _extract_facts "The assault rate increased to 500 in Greater Sydney"
  = ["500"; "Greater Sydney"]
  /\ exists score : Q,
       evaluate_faithfulness "The assault rate increased to 500 in Greater Sydney"
         [record "Greater Sydney assault rate is 500 per 100000" "Greater Sydney"]
       = inr score
       /\ (score == 1)%Q.
Proof.
  split; [reflexivity|]. exists (2 # 2)%Q. split; reflexivity.
Qed.

(** The second benchmark question makes the chain raise; the first and the
    third are answered and are the results of the run. *)
Example run_continues_after_failure :
  map question
    (evaluation_results
       (fst (snd (@run_evaluation test_services
                    (@RAGEvaluator_init test_services wired_pipeline, served)))))
  = ["What are the crime statistics for Greater Sydney?";
     "Which region has the highest assault rates?"].
Proof. vm_compute. reflexivity. Qed.

(** Ten results, three of them below 0.3. *)
Example three_of_ten_unanswered :
  exists summary details recs,
    @generate_report test_services
      {| pipeline := wired_pipeline;
         evaluation_results := ten_results;
         ground_truth_data := _load_ground_truth |}
    = inr (FullReport summary details recs)
    /\ unanswered_questions summary = 3%nat
    /\ (unanswered_percentage summary == 30)%Q.
Proof.
  do 3 eexists. split; [vm_compute; reflexivity|]. split; reflexivity.
Qed.

(** * Properties of the rest of the program *)

(** ** Recommendations *)

Lemma Qlt_bool_iff (x y : Q) : Py.Qlt_bool x y = true <-> (x < y)%Q.
Proof.
  unfold Py.Qlt_bool. rewrite negb_true_iff. split.
  - intros H. apply Qnot_le_lt. intros Hle.
    apply Qle_bool_iff in Hle. congruence.
  - intros H. apply not_true_is_false. intros Hle.
    apply Qle_bool_iff in Hle. by apply (Qlt_not_le x y).
Qed.

(** The recommendations as four independent switches and a fallback. *)
Lemma _generate_recommendations_switches (e f a : Q) :
  _generate_recommendations e f a
  = (if Py.Qlt_bool e 0.7 then [rec_relevance] else [])
    ++ (if Py.Qlt_bool f 0.7 then [rec_faithfulness] else [])
    ++ (if Py.Qlt_bool a 0.7 then [rec_attribution] else [])
    ++ (if Qle_bool 0.8 e && Qle_bool 0.8 f then [rec_performing_well] else [])
    ++ (if Py.Qlt_bool e 0.7 || Py.Qlt_bool f 0.7 || Py.Qlt_bool a 0.7
           || (Qle_bool 0.8 e && Qle_bool 0.8 f)
        then [] else [rec_monitor]).
Proof.
  unfold _generate_recommendations.
  destruct (Py.Qlt_bool e 0.7), (Py.Qlt_bool f 0.7), (Py.Qlt_bool a 0.7),
    (Qle_bool 0.8 e && Qle_bool 0.8 f); reflexivity.
Qed.

(** Decides a closed statement about membership in a list of texts. *)
Ltac closed := apply (bool_decide_unpack _); vm_compute; reflexivity.

(** X1. The recommendation list is never empty, and the generic
    "continue monitoring" text is given exactly when no threshold fires
    (all three averages at least 0.7, and not both effectiveness and
    faithfulness at least 0.8); it is then the only recommendation. *)
Theorem recommendations_fallback (e f a : Q) :
  let recs := _generate_recommendations e f a in
  recs <> []
  /\ (rec_monitor ∈ recs <-> recs = [rec_monitor])
  /\ (rec_monitor ∈ recs
      <-> (0.7 <= e)%Q /\ (0.7 <= f)%Q /\ (0.7 <= a)%Q
          /\ ~ ((0.8 <= e)%Q /\ (0.8 <= f)%Q)).
Proof.
  cbn zeta. rewrite _generate_recommendations_switches.
  assert (Py.Qlt_bool e 0.7 = false <-> (0.7 <= e)%Q) as He.
  { rewrite <- not_true_iff_false, Qlt_bool_iff. split; [apply Qnot_lt_le|apply Qle_not_lt]. }
  assert (Py.Qlt_bool f 0.7 = false <-> (0.7 <= f)%Q) as Hf.
  { rewrite <- not_true_iff_false, Qlt_bool_iff. split; [apply Qnot_lt_le|apply Qle_not_lt]. }
  assert (Py.Qlt_bool a 0.7 = false <-> (0.7 <= a)%Q) as Ha.
  { rewrite <- not_true_iff_false, Qlt_bool_iff. split; [apply Qnot_lt_le|apply Qle_not_lt]. }
  assert (Qle_bool 0.8 e && Qle_bool 0.8 f = true <-> (0.8 <= e)%Q /\ (0.8 <= f)%Q) as Hw
    by (by rewrite andb_true_iff, !Qle_bool_iff).
  destruct (Py.Qlt_bool e 0.7), (Py.Qlt_bool f 0.7), (Py.Qlt_bool a 0.7),
    (Qle_bool 0.8 e && Qle_bool 0.8 f);
    cbn [orb app];
    (split; [discriminate|]);
    (split;
     [ split; [intros Hin; first [reflexivity | exfalso; revert Hin; closed]
              | intros Heq; first [closed | discriminate Heq]]
     | split; [intros Hin; first [ (split; [by apply He|split; [by apply Hf|split; [by apply Ha|]]];
                                      intros Hww; apply Hw in Hww; discriminate)
                                 | exfalso; revert Hin; closed ]
              | intros (H1 & H2 & H3 & H4);
                first [ closed
                      | apply He in H1; discriminate
                      | apply Hf in H2; discriminate
                      | apply Ha in H3; discriminate
                      | exfalso; apply H4; by apply Hw ] ] ]).
Qed.

Lemma recommendations_facts (e f a : Q) :
  let recs := _generate_recommendations e f a in
  (rec_relevance ∈ recs <-> (e < 0.7)%Q)
  /\ (rec_faithfulness ∈ recs <-> (f < 0.7)%Q)
  /\ (rec_attribution ∈ recs <-> (a < 0.7)%Q)
  /\ (rec_performing_well ∈ recs <-> (0.8 <= e)%Q /\ (0.8 <= f)%Q)
  /\ recs `sublist_of` [rec_relevance; rec_faithfulness; rec_attribution;
                        rec_performing_well; rec_monitor]
  /\ (length recs <= 3)%nat
  /\ ~ (rec_performing_well ∈ recs
        /\ (rec_relevance ∈ recs \/ rec_faithfulness ∈ recs)).
Proof.
  cbn zeta. rewrite _generate_recommendations_switches.
  pose proof (Qlt_bool_iff e 0.7) as He.
  pose proof (Qlt_bool_iff f 0.7) as Hf.
  pose proof (Qlt_bool_iff a 0.7) as Ha.
  assert (Qle_bool 0.8 e && Qle_bool 0.8 f = true <-> (0.8 <= e)%Q /\ (0.8 <= f)%Q) as Hw
    by (by rewrite andb_true_iff, !Qle_bool_iff).
  assert (Py.Qlt_bool e 0.7 = true -> Qle_bool 0.8 e && Qle_bool 0.8 f = true -> False)
    as Hew by (intros H1 H2; apply He in H1; apply Hw in H2; lra).
  assert (Py.Qlt_bool f 0.7 = true -> Qle_bool 0.8 e && Qle_bool 0.8 f = true -> False)
    as Hfw by (intros H1 H2; apply Hf in H1; apply Hw in H2; lra).
  destruct (Py.Qlt_bool e 0.7), (Py.Qlt_bool f 0.7), (Py.Qlt_bool a 0.7),
    (Qle_bool 0.8 e && Qle_bool 0.8 f);
    cbn [orb app];
    try (exfalso; by apply Hew);
    try (exfalso; by apply Hfw);
    (split; [rewrite <- He; split; [intros Hin; first [reflexivity|exfalso; revert Hin; closed]
                                   | intros Hb; first [closed|discriminate Hb]]|]);
    (split; [rewrite <- Hf; split; [intros Hin; first [reflexivity|exfalso; revert Hin; closed]
                                   | intros Hb; first [closed|discriminate Hb]]|]);
    (split; [rewrite <- Ha; split; [intros Hin; first [reflexivity|exfalso; revert Hin; closed]
                                   | intros Hb; first [closed|discriminate Hb]]|]);
    (split; [rewrite <- Hw; split; [intros Hin; first [reflexivity|exfalso; revert Hin; closed]
                                   | intros Hb; first [closed|discriminate Hb]]|]);
    (split; [repeat first [apply sublist_nil|apply sublist_skip|apply sublist_cons]|]);
    (split; [simpl; lia|]);
    closed.
Qed.

(** X2. Each threshold text is given exactly when its condition holds;
    the texts come in a fixed order, at most three at a time, and
    "performing well" never comes with the relevance or the faithfulness
    text (it can come with the source-attribution text). *)
Theorem recommendations_thresholds (e f a : Q) :
  let recs := _generate_recommendations e f a in
  (rec_relevance ∈ recs <-> (e < 0.7)%Q)
  /\ (rec_faithfulness ∈ recs <-> (f < 0.7)%Q)
  /\ (rec_attribution ∈ recs <-> (a < 0.7)%Q)
  /\ (rec_performing_well ∈ recs <-> (0.8 <= e)%Q /\ (0.8 <= f)%Q)
  /\ recs `sublist_of` [rec_relevance; rec_faithfulness; rec_attribution;
                        rec_performing_well; rec_monitor]
  /\ (length recs <= 3)%nat
  /\ ~ (rec_performing_well ∈ recs
        /\ (rec_relevance ∈ recs \/ rec_faithfulness ∈ recs)).
Proof. apply recommendations_facts. Qed.

(** ** Rounding and means *)

Lemma round_half_even_near (y : Q) :
  (inject_Z (Py.round_half_even y) - (1 # 2) <= y)%Q
  /\ (y <= inject_Z (Py.round_half_even y) + (1 # 2))%Q.
Proof.
  unfold Py.round_half_even.
  pose proof (Qfloor_le y) as Hlo. pose proof (Qlt_floor y) as Hhi.
  rewrite inject_Z_plus in Hhi. change (inject_Z 1) with 1%Q in Hhi.
  destruct (Qcompare (y - inject_Z (Qfloor y)) (1 # 2)) eqn:E.
  - apply Qeq_alt in E.
    destruct (Z.even (Qfloor y));
      rewrite ?inject_Z_plus; change (inject_Z 1) with 1%Q; split; lra.
  - apply Qlt_alt in E. split; lra.
  - apply Qgt_alt in E. rewrite inject_Z_plus. change (inject_Z 1) with 1%Q.
    split; lra.
Qed.

(** Rounding to an integer stays between integer bounds. *)
Lemma round_half_even_between (y : Q) (lo hi : Z) :
  (inject_Z lo <= y)%Q -> (y <= inject_Z hi)%Q ->
  (lo <= Py.round_half_even y <= hi)%Z.
Proof.
  intros Hl Hh. unfold Py.round_half_even.
  pose proof (Qfloor_le y) as Hlo. pose proof (Qlt_floor y) as Hhi.
  assert (lo <= Qfloor y)%Z as Hlf.
  { apply Z.lt_succ_r. rewrite Zlt_Qlt. unfold Z.succ.
    eapply Qle_lt_trans; [exact Hl|exact Hhi]. }
  assert (Qfloor y <= hi)%Z as Hfh.
  { rewrite Zle_Qle. eapply Qle_trans; [exact Hlo|exact Hh]. }
  assert ((0 < y - inject_Z (Qfloor y))%Q -> (Qfloor y + 1 <= hi)%Z) as Hstrict.
  { intros Hpos. apply Z.lt_succ_r. unfold Z.succ.
    apply Zplus_lt_compat_r. rewrite Zlt_Qlt.
    eapply Qlt_le_trans; [|exact Hh]. lra. }
  destruct (Qcompare (y - inject_Z (Qfloor y)) (1 # 2)) eqn:E.
  - apply Qeq_alt in E. destruct (Z.even (Qfloor y)); [lia|].
    split; [lia|]. apply Hstrict. lra.
  - lia.
  - apply Qgt_alt in E. split; [lia|]. apply Hstrict. lra.
Qed.

Lemma scale_pos (ndigits : nat) : (0 < inject_Z (10 ^ Z.of_nat ndigits))%Q.
Proof.
  change 0%Q with (inject_Z 0). rewrite <- Zlt_Qlt.
  apply Z.pow_pos_nonneg; lia.
Qed.

(** [round] keeps a number between integer bounds. *)
Lemma round_between (x : Q) (lo hi : Z) (ndigits : nat) :
  (inject_Z lo <= x <= inject_Z hi)%Q ->
  (inject_Z lo <= Py.round x ndigits <= inject_Z hi)%Q.
Proof.
  intros [Hl Hh]. unfold Py.round. cbn zeta.
  set (scale := (10 ^ Z.of_nat ndigits)%Z).
  pose proof (scale_pos ndigits) as HS. fold scale in HS.
  destruct (round_half_even_between (x * inject_Z scale) (lo * scale) (hi * scale))
    as [H1 H2].
  - rewrite inject_Z_mult. apply Qmult_le_compat_r; [exact Hl|lra].
  - rewrite inject_Z_mult. apply Qmult_le_compat_r; [exact Hh|lra].
  - split.
    + apply Qle_shift_div_l; [exact HS|].
      rewrite <- inject_Z_mult, <- Zle_Qle. exact H1.
    + apply Qle_shift_div_r; [exact HS|].
      rewrite <- inject_Z_mult, <- Zle_Qle. exact H2.
Qed.

(** [round] moves a number by at most half a unit of the last digit. *)
Lemma round_near (x : Q) (ndigits : nat) :
  let half_unit := ((1 # 2) / inject_Z (10 ^ Z.of_nat ndigits))%Q in
  (x - half_unit <= Py.round x ndigits <= x + half_unit)%Q.
Proof.
  cbn zeta. unfold Py.round. cbn zeta.
  set (scale := inject_Z (10 ^ Z.of_nat ndigits)).
  pose proof (scale_pos ndigits) as HS. fold scale in HS.
  destruct (round_half_even_near (x * scale)) as [H1 H2].
  set (r := inject_Z (Py.round_half_even (x * scale))) in *.
  assert (x - (1 # 2) / scale == (x * scale - (1 # 2)) / scale)%Q as ->
    by (field; lra).
  assert (x + (1 # 2) / scale == (x * scale + (1 # 2)) / scale)%Q as ->
    by (field; lra).
  split.
  - apply Qle_shift_div_l; [exact HS|].
    assert ((x * scale - (1 # 2)) / scale * scale == x * scale - (1 # 2))%Q
      as -> by (field; lra).
    lra.
  - apply Qle_shift_div_r; [exact HS|].
    assert ((x * scale + (1 # 2)) / scale * scale == x * scale + (1 # 2))%Q
      as -> by (field; lra).
    lra.
Qed.

Lemma of_nat_succ (n : nat) : (of_nat (S n) == of_nat n + 1)%Q.
Proof.
  unfold of_nat. rewrite Nat2Z.inj_succ. unfold Z.succ.
  rewrite inject_Z_plus. reflexivity.
Qed.

Lemma sum_from_bounds (scores : list Q) (acc lo hi : Q) :
  Forall (fun q => (0 <= q <= 1)%Q) scores ->
  (lo <= acc <= hi)%Q ->
  (lo <= fold_left Qplus scores acc <= hi + of_nat (length scores))%Q.
Proof.
  intros Hs. revert acc lo hi.
  induction Hs as [|q scores [Hq0 Hq1] _ IH]; intros acc lo hi [Hl Hh].
  - simpl. change (of_nat 0) with 0%Q. split; lra.
  - cbn [fold_left length]. rewrite of_nat_succ.
    destruct (IH (acc + q)%Q lo (hi + 1)%Q) as [H1 H2]; [split; lra|].
    split; lra.
Qed.

(** The mean of scores in [0,1] is in [0,1]. *)
Lemma mean_bounds (scores : list Q) :
  scores <> [] ->
  Forall (fun q => (0 <= q <= 1)%Q) scores ->
  (0 <= mean scores <= 1)%Q.
Proof.
  intros Hne Hs. unfold mean, Py.sum.
  destruct (sum_from_bounds scores 0 0 0 Hs) as [H1 H2]; [lra|].
  assert (0 < of_nat (length scores))%Q as Hn.
  { apply of_nat_pos. destruct scores; [done|simpl; lia]. }
  split.
  - apply Qle_shift_div_l; [exact Hn|]. lra.
  - apply Qle_shift_div_r; [exact Hn|]. lra.
Qed.

(** ** The report *)

Section ReportProperties.

Context {Sv : Services}.

Lemma unanswered_le (results : list EvaluationResult) :
  (unanswered results <= length results)%nat.
Proof. unfold unanswered. apply List.filter_length_le. Qed.

(** X3. For a non-empty result sequence the report counts every result:
    [total_questions] is the number of results, [detailed_results] has one
    entry per result in the same order, the unanswered count does not
    exceed the total and the unanswered percentage lies between 0 and
    100. *)
Theorem generate_report_counts (self : RAGEvaluator) :
  evaluation_results self <> [] ->
  exists summary details recs,
    generate_report self = inr (FullReport summary details recs)
    /\ total_questions summary = length (evaluation_results self)
    /\ map d_question details = map question (evaluation_results self)
    /\ (unanswered_questions summary <= total_questions summary)%nat
    /\ (0 <= unanswered_percentage summary <= 100)%Q.
Proof.
  intros Hne. pose proof (generate_report_full self Hne) as Hr. cbn zeta in Hr.
  do 3 eexists. split; [exact Hr|].
  cbn [total_questions unanswered_questions unanswered_percentage].
  split; [reflexivity|]. split; [by rewrite map_map|].
  split; [apply unanswered_le|].
  apply (round_between _ 0 100).
  assert (0 < length (evaluation_results self))%nat as Hn
    by (destruct (evaluation_results self); [done|simpl; lia]).
  destruct (ratio_bounds _ _ (unanswered_le (evaluation_results self)) Hn).
  change (inject_Z 0) with 0%Q. change (inject_Z 100) with 100%Q. split; lra.
Qed.

Lemma well_scored_components (results : list EvaluationResult) :
  Forall well_scored results ->
  Forall (fun q => (0 <= q <= 1)%Q) (map effectiveness_score results)
  /\ Forall (fun q => (0 <= q <= 1)%Q) (map faithfulness_score results)
  /\ Forall (fun q => (0 <= q <= 1)%Q) (map source_attribution_score results)
  /\ Forall (fun q => (0 <= q <= 1)%Q) (map overall_score results).
Proof.
  intros H. repeat split; apply Forall_map; eapply Forall_impl; try exact H;
    intros r (_ & He & Hf & Ha & Ho); assumption.
Qed.

Lemma report_averages_bounded (self : RAGEvaluator) :
  evaluation_results self <> [] ->
  Forall well_scored (evaluation_results self) ->
  exists summary details recs,
    generate_report self = inr (FullReport summary details recs)
    /\ (0 <= average_effectiveness summary <= 1)%Q
    /\ (0 <= average_faithfulness summary <= 1)%Q
    /\ (0 <= average_source_attribution summary <= 1)%Q
    /\ (0 <= average_overall_score summary <= 1)%Q.
Proof.
  intros Hne Hw. pose proof (generate_report_full self Hne) as Hr. cbn zeta in Hr.
  destruct (well_scored_components _ Hw) as (He & Hf & Ha & Ho).
  assert (forall (g : EvaluationResult -> Q),
            map g (evaluation_results self) <> []) as Hmap
    by (intros g; destruct (evaluation_results self); [done|discriminate]).
  do 3 eexists. split; [exact Hr|].
  cbn [average_effectiveness average_faithfulness average_source_attribution
       average_overall_score].
  repeat split; apply (round_between _ 0 1); apply mean_bounds; auto.
Qed.

(** Runs keep the results well scored. *)
Lemma run_evaluation_keeps_well_scored (s : RAGEvaluator * Ext) :
  Forall well_scored (evaluation_results (fst s)) ->
  Forall well_scored (evaluation_results (fst (snd (run_evaluation s)))).
Proof.
  destruct s as [self env]. intros H. rewrite run_evaluation_outcomes.
  cbn [fst snd with_results evaluation_results].
  apply Forall_app. split; [exact H|apply run_outcomes_well_scored].
Qed.

Lemma repeat_runs_well_scored (n : nat) (s : RAGEvaluator * Ext) :
  Forall well_scored (evaluation_results (fst s)) ->
  Forall well_scored (evaluation_results (fst (repeat_runs n s))).
Proof.
  revert s. induction n as [|n IH]; intros s H; [exact H|].
  cbn [repeat_runs]. apply IH. by apply run_evaluation_keeps_well_scored.
Qed.

(** X4. After any number of evaluation runs on a fresh evaluator, every
    accumulated result has scores in [0,1] and the weighted overall score,
    and the report is either the no-results report (nothing was answered)
    or a full report whose four averages lie in [0,1]; it never raises. *)
Theorem report_after_runs (n : nat) (p : NSWCrimeRAGPipeline) (env : Ext) :
  let self := fst (repeat_runs n (RAGEvaluator_init p, env)) in
  Forall well_scored (evaluation_results self)
  /\ match generate_report self with
     | inr (ErrorReport _) => evaluation_results self = []
     | inr (FullReport summary _ _) =>
         evaluation_results self <> []
         /\ (0 <= average_effectiveness summary <= 1)%Q
         /\ (0 <= average_faithfulness summary <= 1)%Q
         /\ (0 <= average_source_attribution summary <= 1)%Q
         /\ (0 <= average_overall_score summary <= 1)%Q
     | inl _ => False
     end.
Proof.
  cbn zeta.
  assert (Forall well_scored
            (evaluation_results (fst (repeat_runs n (RAGEvaluator_init p, env)))))
    as Hw by (apply repeat_runs_well_scored; constructor).
  split; [exact Hw|].
  destruct (evaluation_results (fst (repeat_runs n (RAGEvaluator_init p, env))))
    as [|r rs] eqn:E.
  - unfold generate_report. by rewrite E.
  - assert (evaluation_results (fst (repeat_runs n (RAGEvaluator_init p, env))) <> [])
      as Hne by (rewrite E; discriminate).
    rewrite <- E in Hw.
    destruct (report_averages_bounded _ Hne Hw) as (sm & det & recs & -> & Hb).
    split; [by rewrite <- E|exact Hb].
Qed.

(** X5. Each reported average is within 0.0005 of the exact mean of the
    corresponding scores, and each score in [detailed_results] is within
    0.0005 of the score it reports. *)
Theorem generate_report_rounding (self : RAGEvaluator) :
  evaluation_results self <> [] ->
  let results := evaluation_results self in
  let near (shown exact : Q) :=
    (exact - (1 # 2000) <= shown <= exact + (1 # 2000))%Q in
  exists summary details recs,
    generate_report self = inr (FullReport summary details recs)
    /\ near (average_effectiveness summary) (mean (map effectiveness_score results))
    /\ near (average_faithfulness summary) (mean (map faithfulness_score results))
    /\ near (average_source_attribution summary)
          (mean (map source_attribution_score results))
    /\ near (average_overall_score summary) (mean (map overall_score results))
    /\ Forall2
         (fun d r =>
            near (d_effectiveness_score d) (effectiveness_score r)
            /\ near (d_faithfulness_score d) (faithfulness_score r)
            /\ near (d_source_attribution_score d) (source_attribution_score r)
            /\ near (d_overall_score d) (overall_score r))
         details results.
Proof.
  intros Hne. cbn zeta.
  pose proof (generate_report_full self Hne) as Hr. cbn zeta in Hr.
  do 3 eexists. split; [exact Hr|].
  cbn [average_effectiveness average_faithfulness average_source_attribution
       average_overall_score].
  assert (forall x, (x - (1 # 2000) <= Py.round x 3 <= x + (1 # 2000))%Q) as Hnear.
  { intros x. pose proof (round_near x 3) as H. cbn zeta in H.
    assert ((1 # 2) / inject_Z (10 ^ Z.of_nat 3) == 1 # 2000)%Q as E
      by reflexivity.
    rewrite E in H. exact H. }
  repeat split; try apply Hnear.
  apply Forall2_fmap_l, Forall_Forall2_diag, Forall_forall.
  intros r _. cbn. repeat split; apply Hnear.
Qed.

(** X6. The recommendations are decided on the unrounded means, not on
    the rounded averages the report shows.  The means are exact rationals
    here and floating-point numbers in the program, which can differ in
    the last bits, so a margin of one millionth is kept around each
    threshold: a mean below 0.7 by the margin gets the text of its score,
    also when the average shown has rounded up to 0.7, and a mean above 0.7
    by the margin does not; likewise for "performing well" and 0.8. *)
Theorem generate_report_recommendations (self : RAGEvaluator) :
  evaluation_results self <> [] ->
  let results := evaluation_results self in
  let below (m threshold : Q) := (m <= threshold - (1 # 1000000))%Q in
  let above (m threshold : Q) := (threshold + (1 # 1000000) <= m)%Q in
  let effectiveness := mean (map effectiveness_score results) in
  let faithfulness := mean (map faithfulness_score results) in
  let source_attribution := mean (map source_attribution_score results) in
  exists summary details recs,
    generate_report self = inr (FullReport summary details recs)
    /\ (below effectiveness 0.7%Q -> rec_relevance ∈ recs)
    /\ (above effectiveness 0.7%Q -> rec_relevance ∉ recs)
    /\ (below faithfulness 0.7%Q -> rec_faithfulness ∈ recs)
    /\ (above faithfulness 0.7%Q -> rec_faithfulness ∉ recs)
    /\ (below source_attribution 0.7%Q -> rec_attribution ∈ recs)
    /\ (above source_attribution 0.7%Q -> rec_attribution ∉ recs)
    /\ (above effectiveness 0.8%Q -> above faithfulness 0.8%Q ->
        rec_performing_well ∈ recs)
    /\ (below effectiveness 0.8%Q \/ below faithfulness 0.8%Q ->
        rec_performing_well ∉ recs).
Proof.
  intros Hne. cbn zeta.
  pose proof (generate_report_full self Hne) as Hr. cbn zeta in Hr.
  do 3 eexists. split; [exact Hr|].
  destruct (recommendations_facts
              (mean (map effectiveness_score (evaluation_results self)))
              (mean (map faithfulness_score (evaluation_results self)))
              (mean (map source_attribution_score (evaluation_results self))))
    as (H1 & H2 & H3 & H4 & _).
  rewrite H1, H2, H3, H4.
  split; [intros; lra|]. split; [intros ? ?; lra|].
  split; [intros; lra|]. split; [intros ? ?; lra|].
  split; [intros; lra|]. split; [intros ? ?; lra|].
  split; [intros; split; lra|].
  intros [?|?] [? ?]; lra.
Qed.

End ReportProperties.

(** ** Saving and the scripts *)

Section ScriptProperties.

Context {Sv : Services} {Dk : Disk}.

Lemma serializable_results_map (results : list EvaluationResult)
    (acc : list (list (string * saved_value))) :
  fold_left
    (fun serializable_results result =>
       serializable_results ++ [serializable result])
    results acc
  = acc ++ map serializable results.
Proof.
  revert acc. induction results as [|r results IH]; intros acc; simpl.
  - by rewrite app_nil_r.
  - rewrite IH. by rewrite <- app_assoc.
Qed.

Lemma generate_report_returns (self : RAGEvaluator) :
  exists report,
    generate_report self = inr report
    /\ (evaluation_results self = [] ->
        report = ErrorReport "No evaluation results available")
    /\ (evaluation_results self <> [] ->
        exists summary details recs, report = FullReport summary details recs).
Proof.
  destruct (evaluation_results self) as [|r rs] eqn:E.
  - eexists. split; [unfold generate_report; by rewrite E|]. split; [done|].
    intros H. by destruct H.
  - assert (evaluation_results self <> []) as Hne by (rewrite E; discriminate).
    pose proof (generate_report_full self Hne) as Hr. cbn zeta in Hr.
    eexists. split; [exact Hr|]. split; [discriminate|]. intros _. eauto.
Qed.

(** X7. [save_results] never fails for lack of results: it writes exactly
    one file, named by the caller or
    evaluation_results_<timestamp>.json, holding one entry per accumulated
    result in order together with the report of [generate_report] (the
    no-results report when nothing was collected); it raises only if the
    write does, makes no pipeline call and leaves the evaluator as it
    was. *)
Theorem save_results_effect
    (filename : option string) (self : RAGEvaluator) (env : Ext) :
  let name := saved_name filename (world env) in
  exists data w,
    save_results filename (self, env)
    = (match fst (json_dump name data w) with
       | inl e => inl e
       | inr _ => inr name
       end,
       (self, {| world := snd (json_dump name data w); calls := calls env |}))
    /\ saved_evaluation_results data = map serializable (evaluation_results self)
    /\ generate_report self = inr (saved_report data)
    /\ (evaluation_results self = [] ->
        saved_report data = ErrorReport "No evaluation results available").
Proof.
  cbn zeta. destruct (generate_report_returns self) as (report & Hr & Hempty & _).
  unfold save_results, saved_name, observe, unlogged. plumbing.
  destruct filename as [name|]; cbn [fst snd world calls].
  - rewrite Hr, (serializable_results_map _ []). cbn [app].
    destruct (now_isoformat (world env)) as [now w2] eqn:En.
    cbn [fst snd world calls].
    exists {| saved_evaluation_results := map serializable (evaluation_results self);
              saved_report := report; saved_evaluation_timestamp := now |}, w2.
    split; [|by repeat split].
    destruct (json_dump _ _ w2) as [[e|[]] w3]; reflexivity.
  - destruct (now_strftime (world env)) as [stamp w1] eqn:Es.
    cbn [fst snd world calls].
    rewrite Hr, (serializable_results_map _ []). cbn [app].
    destruct (now_isoformat w1) as [now w2] eqn:En.
    cbn [fst snd world calls].
    exists {| saved_evaluation_results := map serializable (evaluation_results self);
              saved_report := report; saved_evaluation_timestamp := now |}, w2.
    split; [|by repeat split].
    destruct (json_dump _ _ w2) as [[e|[]] w3]; reflexivity.
Qed.

Lemma bind_get_ext {O E A} (k : E -> M (O * E) A) (s : O * E) :
  (env ← get_ext; k env) s = k (snd s) s.
Proof. reflexivity. Qed.

Lemma bind_at {S A B} (m1 m2 : M S A) (k : A -> M S B) (s : S) :
  m1 s = m2 s -> (m1 ≫= k) s = (m2 ≫= k) s.
Proof. unfold mbind, M_bind. by intros ->. Qed.

Lemma initialize_by_existence_eq
    (documents_file : string) (s : NSWCrimeRAGPipeline * Ext) :
  initialize_by_existence documents_file s
  = initialize_pipeline documents_file false s.
Proof.
  unfold initialize_by_existence. rewrite bind_get_ext.
  destruct (path_exists "chroma_db" (world (snd s))) eqn:Ex; cbn [negb];
    [reflexivity|].
  unfold initialize_pipeline. cbn zeta. apply bind_at.
  unfold build_or_load. rewrite !bind_get_ext. by rewrite Ex.
Qed.


(** X8. The callers' test for the index directory is redundant: choosing
    [force_recreate] by [os.path.exists], as [evaluation_framework.main] and
    the dashboard do, behaves exactly like
    [initialize_pipeline(documents_file, force_recreate=False)]. *)
Theorem initialize_by_existence_redundant
    (documents_file : string) (s : NSWCrimeRAGPipeline * Ext) :
  initialize_by_existence documents_file s
  = initialize_pipeline documents_file false s.
Proof. apply initialize_by_existence_eq. Qed.

Lemma on_object_run {O A} (o : O) (m : M (O * Ext) A) (env : Ext) :
  on_object o m env
  = match m (o, env) with
    | (inr a, (o', e')) => (inr (a, o'), e')
    | (inl x, (_, e')) => (inl x, e')
    end.
Proof. reflexivity. Qed.

(** X9. [evaluation_framework.main]: an error while initialising the
    pipeline is not caught and ends the script before any question is
    asked.  When no benchmark question is answered the report is the
    no-results dictionary, and the script raises
    [KeyError('evaluation_summary')] right after the run, saving nothing.
    Otherwise it saves the results once under a timestamped name and
    returns the report, unless the save raises. *)
Theorem evaluation_main_outcome (env : Ext) :
  match initialize_pipeline "data/rag_documents.json" false
          (NSWCrimeRAGPipeline_init, env) with
  | (inl e, (_, env1)) => evaluation_main env = (inl e, env1)
  | (inr _, (pipeline, env1)) =>
      let outcomes := run_outcomes pipeline _load_ground_truth env1 in
      let evaluator :=
        with_results (RAGEvaluator_init pipeline) (created (fst outcomes)) in
      match created (fst outcomes) with
      | [] =>
          evaluation_main env
          = (inl (KeyError "evaluation_summary"), snd outcomes)
      | _ :: _ =>
          exists summary details recs,
            generate_report evaluator = inr (FullReport summary details recs)
            /\ evaluation_main env
               = match save_results None (evaluator, snd outcomes) with
                 | (inl e, (_, env3)) => (inl e, env3)
                 | (inr _, (_, env3)) =>
                     (inr (FullReport summary details recs), env3)
                 end
      end
  end.
Proof.
  assert (forall p env1,
            let outcomes := run_outcomes p _load_ground_truth env1 in
            evaluate_and_save p env1
            = match generate_report
                      (with_results (RAGEvaluator_init p)
                         (created (fst outcomes))) with
              | inl e => (inl e, snd outcomes)
              | inr (ErrorReport _) =>
                  (inl (KeyError "evaluation_summary"), snd outcomes)
              | inr (FullReport summary details recs) =>
                  match save_results None
                          (with_results (RAGEvaluator_init p)
                             (created (fst outcomes)), snd outcomes) with
                  | (inl e, (_, env3)) => (inl e, env3)
                  | (inr _, (_, env3)) =>
                      (inr (FullReport summary details recs), env3)
                  end
              end) as Hrest.
  { intros p env1. cbn zeta. unfold evaluate_and_save. cbn zeta.
    unfold mbind at 1, M_bind at 1.
    rewrite on_object_run, run_evaluation_outcomes.
    cbn [pipeline ground_truth_data RAGEvaluator_init evaluation_results app].
    cbv beta iota.
    unfold mbind at 1, M_bind at 1, lift_result at 1.
    change {| pipeline := p; evaluation_results := [];
              ground_truth_data := _load_ground_truth |}
      with (RAGEvaluator_init p).
    destruct (generate_report _) as [e|[msg|summary details recs]];
      [reflexivity|reflexivity|].
    unfold mbind at 1, M_bind at 1, lift_result at 1.
    cbn [report_evaluation_summary].
    unfold mbind at 1, M_bind at 1, lift_result at 1.
    cbn [report_recommendations].
    unfold mbind at 1, M_bind at 1. rewrite on_object_run.
    destruct (save_results None _) as [[e|name] [ev env3]]; reflexivity. }
  assert (evaluation_main env
          = match initialize_pipeline "data/rag_documents.json" false
                    (NSWCrimeRAGPipeline_init, env) with
            | (inl e, (_, env1)) => (inl e, env1)
            | (inr _, (pipeline, env1)) => evaluate_and_save pipeline env1
            end) as Hmain.
  { unfold evaluation_main. cbn zeta. unfold mbind at 1, M_bind at 1.
    rewrite on_object_run, initialize_by_existence_eq.
    by destruct (initialize_pipeline _ _ _) as [[e|[]] [pipeline env1]]. }
  rewrite Hmain.
  destruct (initialize_pipeline _ _ _) as [[e|[]] [pipeline env1]];
    [reflexivity|].
  cbn zeta. rewrite Hrest. cbn zeta.
  set (outcomes := run_outcomes pipeline _load_ground_truth env1).
  set (evaluator := with_results (RAGEvaluator_init pipeline) (created (fst outcomes))).
  assert (evaluation_results evaluator = created (fst outcomes)) as Hres
    by reflexivity.
  destruct (generate_report_returns evaluator) as (report & Hr & Hempty & Hfull).
  rewrite Hr.
  destruct (created (fst outcomes)) as [|r rs] eqn:Ec.
  - by rewrite (Hempty Hres).
  - destruct Hfull as (summary & details & recs & ->); [by rewrite Hres|].
    exists summary, details, recs. split; reflexivity.
Qed.

Lemma query_loop_calls (p : NSWCrimeRAGPipeline) (chain : QAChain)
    (queries : list string) (env : Ext) :
  qa_chain p = Some chain ->
  exists env',
    for_each queries
      (fun query_text =>
         try_except (result ← query p query_text; mret tt) (fun e => mret tt))
      env
    = (inr tt, env')
    /\ calls env' = calls env ++ map CallChain queries.
Proof.
  intros Hc. revert env. induction queries as [|q queries IH]; intros env.
  - exists env. split; [reflexivity|by rewrite app_nil_r].
  - cbn [for_each]. unfold mbind at 1, M_bind at 1.
    unfold try_except at 1. unfold mbind at 1, M_bind at 1.
    rewrite (query_wired p chain q env Hc).
    destruct (chain_call chain q (world env)) as [[e|[a docs]] w1];
      cbn [mret M_ret];
      (destruct (IH {| world := w1; calls := calls env ++ [CallChain q] |})
         as (env' & Hrun & Hcalls);
       exists env'; split; [exact Hrun|];
       rewrite Hcalls; cbn [calls map]; by rewrite <- app_assoc).
Qed.

(** X10. [rag_pipeline.main] rebuilds the index and then asks its four
    test queries exactly once each, in order, going on after a query that
    raises; an error while initialising is not caught and ends the script
    before any query. *)
Theorem pipeline_main_outcome (env : Ext) :
  match initialize_pipeline "data/rag_documents.json" true
          (NSWCrimeRAGPipeline_init, env) with
  | (inl e, (_, env1)) => pipeline_main env = (inl e, env1)
  | (inr _, (_, env1)) =>
      exists env2,
        pipeline_main env = (inr tt, env2)
        /\ calls env2 = calls env1 ++ map CallChain test_queries
  end.
Proof.
  pose proof (initialize_pipeline_outcome "data/rag_documents.json" true
                NSWCrimeRAGPipeline_init env) as Ho.
  destruct (initialize_pipeline _ _ _) as [[e|[]] [p env1]] eqn:Ei;
    unfold pipeline_main; cbn zeta;
    unfold mbind at 1, M_bind at 1; rewrite on_object_run, Ei;
    [reflexivity|].
  destruct Ho as [chain Hc].
  destruct (query_loop_calls p chain test_queries env1 Hc)
    as (env2 & Hrun & Hcalls).
  exists env2. split; [exact Hrun|exact Hcalls].
Qed.

(** X11. The dashboard's [initialize_pipeline] never raises: it returns
    [None] exactly when initialising raised, and otherwise the pipeline
    with its vector store and QA chain set. *)
Theorem app_initialize_pipeline_outcome (env : Ext) :
  match initialize_pipeline "data/rag_documents.json" false
          (NSWCrimeRAGPipeline_init, env) with
  | (inl _, (_, env1)) => app_initialize_pipeline env = (inr None, env1)
  | (inr _, (pipeline, env1)) =>
      app_initialize_pipeline env = (inr (Some pipeline), env1)
      /\ is_Some (qa_chain pipeline)
  end.
Proof.
  pose proof (initialize_pipeline_outcome "data/rag_documents.json" false
                NSWCrimeRAGPipeline_init env) as Ho.
  destruct (initialize_pipeline _ _ _) as [[e|[]] [p env1]] eqn:Ei;
    unfold app_initialize_pipeline, try_except; cbn zeta;
    unfold mbind at 1, M_bind at 1;
    rewrite on_object_run, initialize_by_existence_eq, Ei;
    [reflexivity|].
  split; [reflexivity|]. destruct Ho as [chain ->]. by eexists.
Qed.

End ScriptProperties.

(** ** More on the pipeline *)

Section PipelineMore.

Context {Sv : Services}.

(** X12. [load_documents] returns one document per corpus record, in
    corpus order, each with the record's content and metadata unchanged;
    a failure to read the corpus is passed on and nothing else is
    called. *)
Theorem load_documents_outcome (documents_file : string) (env : Ext) :
  let env' w :=
    {| world := w; calls := calls env ++ [CallJsonLoad documents_file] |} in
  match json_load documents_file (world env) with
  | (inl e, w) => load_documents documents_file env = (inl e, env' w)
  | (inr data, w) =>
      exists documents,
        load_documents documents_file env = (inr documents, env' w)
        /\ length documents = length data
        /\ forall (i : nat) (record : SourceDoc),
             data !! i = Some record ->
             documents !! i
             = Some {| page_content := content record;
                       doc_metadata := metadata record |}
  end.
Proof.
  cbn zeta. unfold load_documents. plumbing.
  destruct (json_load documents_file (world env)) as [[e|data] w];
    [reflexivity|].
  rewrite (load_documents_to_documents data []). cbn [app].
  exists (to_documents data). split; [reflexivity|].
  unfold to_documents. split; [apply length_map|].
  intros i record Hi. change (map ?f data) with (f <$> data).
  by rewrite list_lookup_fmap, Hi.
Qed.


Lemma query_by_chain (self1 self2 : NSWCrimeRAGPipeline) (question : string)
    (env : Ext) :
  qa_chain self1 = qa_chain self2 ->
  query self1 question env = query self2 question env.
Proof. intros H. unfold query. by rewrite H. Qed.

(** X14. A successful [initialize_pipeline] leaves the pipeline with its
    vector store and its QA chain both set, the chain being the one created
    over that very store, as the last external call. *)
Theorem initialize_pipeline_success
    (documents_file : string) (force_recreate : bool)
    (self self' : NSWCrimeRAGPipeline) (env env' : Ext) :
  initialize_pipeline documents_file force_recreate (self, env)
  = (inr tt, (self', env')) ->
  exists store chain w,
    vectorstore self' = Some store
    /\ qa_chain self' = Some chain
    /\ RetrievalQA_from_chain_type store w = (inr chain, world env')
    /\ last (calls env') = Some CallFromChainType.
Proof.
  intros Hr. apply initialize_pipeline_returns in Hr. cbn zeta in Hr.
  destruct (force_recreate || negb (path_exists "chroma_db" (world env))).
  - destruct Hr as (data & w1 & store & w2 & w3 & chain & w4
                    & _ & _ & _ & _ & Hc & -> & ->).
    exists store, chain, w3. cbn [vectorstore qa_chain world calls].
    repeat split; [exact Hc|].
    change (calls env ++ ?a :: ?b :: ?c :: [?d])
      with (calls env ++ [a; b; c] ++ [d]).
    rewrite app_assoc. apply last_snoc.
  - destruct Hr as (store & w1 & chain & w2 & _ & _ & Hc & -> & ->).
    exists store, chain, w1. cbn [vectorstore qa_chain world calls].
    repeat split; [exact Hc|].
    change (calls env ++ [?a; ?d]) with (calls env ++ [a] ++ [d]).
    rewrite app_assoc. apply last_snoc.
Qed.

(** X15. An [initialize_pipeline] that raises never changes the QA chain:
    a pipeline that was answering keeps answering every query through its
    old chain, exactly as before the failed call. *)
Theorem initialize_pipeline_failure_keeps_chain
    (documents_file : string) (force_recreate : bool)
    (self self' : NSWCrimeRAGPipeline) (env env' : Ext) (e : exn) :
  initialize_pipeline documents_file force_recreate (self, env)
  = (inl e, (self', env')) ->
  qa_chain self' = qa_chain self
  /\ forall question env0, query self' question env0 = query self question env0.
Proof.
  intros Hi.
  pose proof (initialize_pipeline_outcome documents_file force_recreate self env)
    as Ho.
  rewrite Hi in Ho. split; [exact Ho|].
  intros question env0. by apply query_by_chain.
Qed.

(** X16. Replacing the vector store does not rewire the QA chain: after
    [create_vector_store] or [load_vector_store], whether they return or
    raise, every query is still answered through the chain that was set
    before (or still fails as not initialised), until [setup_qa_chain] is
    called. *)
Theorem vector_store_change_keeps_chain
    (documents : list Document) (persist_directory : string)
    (self : NSWCrimeRAGPipeline) (env : Ext) (question : string) (env0 : Ext) :
  query (fst (snd (create_vector_store documents persist_directory (self, env))))
    question env0
  = query self question env0
  /\ query (fst (snd (load_vector_store persist_directory (self, env))))
       question env0
     = query self question env0.
Proof.
  split; apply query_by_chain;
    [apply create_vector_store_qa_chain|apply load_vector_store_qa_chain].
Qed.

End PipelineMore.

(** ** The dashboard *)

Lemma size_list_to_set_le `{Countable A} (l : list A) :
  (size (list_to_set l : gset A) <= length l)%nat.
Proof.
  induction l as [|x l IH].
  - rewrite list_to_set_nil, size_empty. simpl. lia.
  - rewrite list_to_set_cons, size_union_alt, size_singleton. simpl.
    assert (size (list_to_set l ∖ {[x]} : gset A) <= size (list_to_set l : gset A))%nat
      by (apply subseteq_size, subseteq_difference_l; reflexivity).
    lia.
Qed.

Lemma omap_cons_eq {A B} (f : A -> option B) (x : A) (l : list A) :
  omap f (x :: l)
  = match f x with Some y => y :: omap f l | None => omap f l end.
Proof. reflexivity. Qed.

Lemma length_omap_le {A B} (f : A -> option B) (l : list A) :
  (length (omap f l) <= length l)%nat.
Proof.
  induction l as [|x l IH]; [reflexivity|].
  rewrite omap_cons_eq. destruct (f x); cbn [length]; lia.
Qed.

(** The loop of [display_metrics] in closed form. *)
Lemma scan_entries_closed (documents : list CorpusEntry)
    (unique_lgas crime_types : gset meta_value) :
  scan_entries documents unique_lgas crime_types
  = if existsb lacks_crime_type documents
    then inl (KeyError "crime_type")
    else inr (unique_lgas ∪ list_to_set (omap counted_lga documents),
              crime_types ∪ list_to_set (omap counted_crime_type documents)).
Proof.
  revert unique_lgas crime_types.
  induction documents as [|doc docs IH]; intros L C.
  - cbn. by rewrite !(right_id_L ∅ (∪)).
  - cbn [scan_entries existsb]. rewrite !omap_cons_eq.
    unfold scan_entry. cbn zeta.
    destruct (default ∅ (entry_metadata doc) !! "lga") as [lga|] eqn:El.
    2: { assert (counted_lga doc = None) as Hl
           by (unfold counted_lga; by rewrite El).
         assert (counted_crime_type doc = None) as Hc
           by (unfold counted_crime_type; by rewrite Hl).
         assert (lacks_crime_type doc = false) as Hk
           by (unfold lacks_crime_type; cbn zeta; by rewrite El).
         rewrite Hl, Hc, Hk. cbn [orb]. apply IH. }
    destruct (truthy_value lga) eqn:Et.
    2: { assert (counted_lga doc = None) as Hl
           by (unfold counted_lga; by rewrite El, Et).
         assert (counted_crime_type doc = None) as Hc
           by (unfold counted_crime_type; by rewrite Hl).
         assert (lacks_crime_type doc = false) as Hk
           by (unfold lacks_crime_type; cbn zeta; by rewrite El, Et).
         rewrite Hl, Hc, Hk. cbn [orb]. apply IH. }
    assert (counted_lga doc = Some lga) as Hl
      by (unfold counted_lga; by rewrite El, Et).
    destruct (default ∅ (entry_metadata doc) !! "crime_type") as [c|] eqn:Ec.
    + assert (counted_crime_type doc = Some c) as Hc
        by (unfold counted_crime_type; by rewrite Hl, Ec).
      assert (lacks_crime_type doc = false) as Hk.
      { unfold lacks_crime_type. cbn zeta. rewrite El, Et, Ec.
        by rewrite bool_decide_eq_false_2. }
      rewrite Hl, Hc, Hk. cbn [orb]. rewrite IH.
      destruct (existsb _ docs); [reflexivity|].
      rewrite !list_to_set_cons. by rewrite !(assoc_L (∪)).
    + assert (lacks_crime_type doc = true) as Hk.
      { unfold lacks_crime_type. cbn zeta. rewrite El, Et, Ec.
        by rewrite bool_decide_eq_true_2. }
      rewrite Hk. reflexivity.
Qed.

(** X17. [display_metrics] shows an error, and no number at all, exactly
    when some entry has a non-empty region but no crime type.  Otherwise
    it shows the number of entries minus one as the total (so -1 for an
    empty corpus), the number of distinct non-empty regions, and the number
    of distinct crime types among the entries that have such a region;
    entries without metadata or without a region count for neither. *)
Theorem compute_metrics_outcome (documents : list CorpusEntry) :
  (existsb lacks_crime_type documents = true ->
   compute_metrics documents = inl (KeyError "crime_type"))
  /\ (existsb lacks_crime_type documents = false ->
      exists metrics,
        compute_metrics documents = inr metrics
        /\ total_documents metrics = (Z.of_nat (length documents) - 1)%Z
        /\ local_government_areas metrics
           = size (list_to_set (omap counted_lga documents) : gset meta_value)
        /\ crime_type_count metrics
           = size (list_to_set (omap counted_crime_type documents)
                   : gset meta_value)
        /\ (local_government_areas metrics <= length documents)%nat
        /\ (crime_type_count metrics <= length (omap counted_lga documents))%nat).
Proof.
  unfold compute_metrics. cbn zeta. rewrite scan_entries_closed.
  split; intros ->; [reflexivity|].
  eexists. split; [reflexivity|].
  cbn [total_documents local_government_areas crime_type_count].
  rewrite !(left_id_L ∅ (∪)).
  repeat split.
  - etrans; [apply size_list_to_set_le|apply length_omap_le].
  - etrans; [apply size_list_to_set_le|].
    clear. induction documents as [|doc docs IH]; [reflexivity|].
    rewrite !omap_cons_eq. unfold counted_crime_type at 1.
    destruct (counted_lga doc); [|exact IH].
    destruct (default ∅ (entry_metadata doc) !! "crime_type");
      cbn [length]; lia.
Qed.

(** X18. What [display_metrics] shows does not depend on the order of the
    entries in the corpus file. *)
Theorem display_metrics_order (documents1 documents2 : list CorpusEntry) :
  documents1 ≡ₚ documents2 ->
  display_metrics (inr documents1) = display_metrics (inr documents2).
Proof.
  intros Hp. unfold display_metrics. cbn [mbind result_bind].
  unfold compute_metrics. cbn zeta. rewrite !scan_entries_closed.
  assert (existsb lacks_crime_type documents1
          = existsb lacks_crime_type documents2) as ->.
  { apply eq_true_iff_eq. rewrite !existsb_exists.
    split; intros (d & Hin & Hd); exists d; split; try exact Hd.
    - by apply (Permutation_in _ Hp).
    - by apply (Permutation_in _ (Permutation_sym Hp)). }
  rewrite (Permutation_length Hp).
  assert ((list_to_set (omap counted_lga documents1) : gset meta_value)
          = list_to_set (omap counted_lga documents2)) as ->
    by (by rewrite Hp).
  assert ((list_to_set (omap counted_crime_type documents1) : gset meta_value)
          = list_to_set (omap counted_crime_type documents2)) as ->
    by (by rewrite Hp).
  reflexivity.
Qed.

Lemma lstrip_empty (s : string) :
  lstrip s = "" <-> forallb is_space (list_ascii_of_string s) = true.
Proof.
  induction s as [|c s IH]; simpl; [done|].
  destruct (is_space c); simpl; [exact IH|]. split; discriminate.
Qed.

Lemma lstrip_spaces (s : string) :
  forallb is_space (list_ascii_of_string (lstrip s))
  = forallb is_space (list_ascii_of_string s).
Proof.
  induction s as [|c s IH]; simpl; [done|].
  destruct (is_space c) eqn:E; simpl; [exact IH|]. by rewrite E.
Qed.

Lemma reverse_string_spaces (s : string) :
  forallb is_space (list_ascii_of_string (reverse_string s))
  = forallb is_space (list_ascii_of_string s).
Proof.
  unfold reverse_string. rewrite list_ascii_of_string_of_list_ascii.
  apply eq_true_iff_eq. rewrite !forallb_forall.
  split; intros H x Hx; apply H.
  - apply in_rev. by rewrite rev_involutive.
  - by apply in_rev in Hx.
Qed.

Lemma reverse_string_empty (s : string) : reverse_string s = "" <-> s = "".
Proof.
  unfold reverse_string. split; [|by intros ->].
  intros H. apply (f_equal list_ascii_of_string) in H.
  rewrite list_ascii_of_string_of_list_ascii in H. simpl in H.
  destruct s as [|c s]; [done|]. simpl in H.
  by apply app_eq_nil in H as [_ ?].
Qed.

(** [strip] leaves nothing exactly of a text made of white space only. *)
Lemma strip_empty (s : string) :
  Py.truthy_str (strip s)
  = negb (forallb is_space (list_ascii_of_string s)).
Proof.
  assert (strip s = "" <-> forallb is_space (list_ascii_of_string s) = true)
    as Hiff.
  { unfold strip, rstrip.
    rewrite reverse_string_empty, lstrip_empty, reverse_string_spaces.
    by rewrite lstrip_spaces. }
  destruct (forallb is_space (list_ascii_of_string s)); cbn [negb].
  - by rewrite (proj2 Hiff eq_refl).
  - destruct (strip s); [|reflexivity]. by destruct (proj1 Hiff eq_refl).
Qed.

Section DashboardProperties.

Context {Sv : Services}.

(** X19. Pressing "Ask Question" never raises.  A question made of white
    space only (or empty) gives a warning and does not reach the pipeline;
    any other question is passed to [query] exactly as typed, surrounding
    white space included, and an error of the query is shown instead of
    an answer. *)
Theorem ask_question_outcome (pipeline : NSWCrimeRAGPipeline)
    (selected_example text_input : string) (env : Ext) :
  let user_question :=
    if Py.truthy_str selected_example then selected_example else text_input in
  if forallb is_space (list_ascii_of_string user_question)
  then ask_question pipeline selected_example text_input env
       = (inr ShowWarning, env)
  else ask_question pipeline selected_example text_input env
       = match query pipeline user_question env with
         | (inr result, env') => (inr (ShowAnswer result), env')
         | (inl e, env') => (inr (ShowQueryError e), env')
         end.
Proof.
  cbn zeta. unfold ask_question. cbn zeta. rewrite strip_empty.
  destruct (forallb is_space _); cbn [negb]; [reflexivity|].
  unfold try_except, mbind, M_bind.
  by destruct (query _ _ env) as [[e|r] env'].
Qed.

End DashboardProperties.

(** ** The setup scripts *)

(** X20. [check_python_version] accepts exactly the versions from 3.8 on:
    a major number above 3, or major 3 with a minor number of at least 8,
    whatever follows in [sys.version_info]. *)
Theorem check_python_version_accepts (major minor : Z) (rest : list Z) :
  check_python_version (major :: minor :: rest) = true
  <-> (3 < major)%Z \/ (major = 3%Z /\ (8 <= minor)%Z).
Proof.
  unfold check_python_version. cbn [tuple_lt].
  destruct (major <? 3)%Z eqn:E1; [apply Z.ltb_lt in E1|apply Z.ltb_ge in E1].
  { split; [discriminate|lia]. }
  destruct (3 <? major)%Z eqn:E2; [apply Z.ltb_lt in E2|apply Z.ltb_ge in E2].
  { split; [intros _; by left|reflexivity]. }
  destruct (minor <? 8)%Z eqn:E3; [apply Z.ltb_lt in E3|apply Z.ltb_ge in E3].
  { split; [discriminate|lia]. }
  destruct (8 <? minor)%Z eqn:E4;
    (split; [intros _; right; lia|intros _; by destruct rest]).
Qed.

Lemma exists_path_true (path : string) (fs : gmap string node) :
  exists_path path fs = true <-> is_Some (fs !! path).
Proof. unfold exists_path. apply bool_decide_eq_true. Qed.

Lemma exists_path_false (path : string) (fs : gmap string node) :
  exists_path path fs = false <-> fs !! path = None.
Proof.
  unfold exists_path. rewrite bool_decide_eq_false. symmetry.
  apply eq_None_not_Some.
Qed.

(** X21. [setup_environment] never touches an existing [.env]; it creates
    [.env] only when it is missing and the template exists, with the
    template's text, and changes no other path.  Run again after it
    returned, it changes nothing.  It raises only when [.env] is missing
    and the template path is a directory, leaving everything as it was. *)
Theorem setup_environment_effect (fs : gmap string node) :
  match setup_environment fs with
  | (inr _, fs') =>
      (is_Some (fs !! ".env") -> fs' = fs)
      /\ (forall path, path <> ".env" -> fs' !! path = fs !! path)
      /\ (forall text, fs !! ".env" = None ->
            fs !! "env_example.txt" = Some (File text) ->
            fs' !! ".env" = Some (File text))
      /\ (fs !! ".env" = None -> fs !! "env_example.txt" = None -> fs' = fs)
      /\ setup_environment fs' = (inr tt, fs')
  | (inl e, fs') =>
      fs' = fs /\ e = IsADirectoryError
      /\ fs !! ".env" = None /\ fs !! "env_example.txt" = Some Directory
  end.
Proof.
  unfold setup_environment. cbn zeta.
  destruct (exists_path ".env" fs) eqn:Eenv; cbn [negb andb].
  - rewrite Eenv. apply exists_path_true in Eenv.
    split; [done|]. split; [done|]. split; [|split; [|done]].
    + intros text H. rewrite H in Eenv. by destruct Eenv.
    + intros H. rewrite H in Eenv. by destruct Eenv.
  - apply exists_path_false in Eenv.
    destruct (exists_path "env_example.txt" fs) eqn:Etpl.
    + apply exists_path_true in Etpl as [n Hn].
      unfold mbind, M_bind, read_text, write_text. rewrite Hn.
      destruct n as [text|]; [|done].
      rewrite Eenv.
      assert (exists_path ".env" (<[".env":=File text]> fs) = true) as Hnow
        by (apply exists_path_true; rewrite lookup_insert_eq; by eexists).
      rewrite Hnow. cbn [negb andb].
      split; [|split; [|split; [|split; [|done]]]].
      * intros [? ?]. discriminate.
      * intros path Hp. by rewrite lookup_insert_ne.
      * intros text' _ [= <-]. by rewrite lookup_insert_eq.
      * congruence.
    + rewrite (proj2 (exists_path_false ".env" fs) Eenv).
      pose proof Etpl as Hno. apply exists_path_false in Etpl.
      split; [done|]. split; [done|]. split; [congruence|]. split; [done|].
      by rewrite Hno.
Qed.

Section TestSetupProperties.

Variable json_loads : string -> option json.

Lemma check_data_files_true (fs : gmap string node) :
  check_data_files fs = true
  <-> is_Some (fs !! "data")
      /\ is_Some (fs !! "data/nsw_crime_data.json")
      /\ is_Some (fs !! "data/rag_documents.json").
Proof.
  unfold check_data_files. cbn zeta. cbn [all_found].
  change (path_join "data" "nsw_crime_data.json") with "data/nsw_crime_data.json".
  change (path_join "data" "rag_documents.json") with "data/rag_documents.json".
  rewrite <- !exists_path_true.
  destruct (exists_path "data" fs), (exists_path "data/nsw_crime_data.json" fs),
    (exists_path "data/rag_documents.json" fs); cbn; intuition discriminate.
Qed.

Lemma json_getitem_contains (key : string) (members : list (string * json))
    (value : json) :
  json_getitem key (JObject members) = inr value ->
  json_contains key (JObject members) = inr true.
Proof.
  cbn. destruct (List.find _ (rev members)) as [m|] eqn:Ef; [|discriminate].
  intros _. apply find_some in Ef as [Hin Hm]. apply in_rev in Hin.
  f_equal. apply existsb_exists. eauto.
Qed.

(** X22. [test_data_files] returns [True] exactly when the data directory
    exists, [nsw_crime_data.json] is a file holding a JSON object with a
    ["crime_records"] member that has a length, and [rag_documents.json]
    is a file holding a JSON array.  Whenever it returns [True], the
    weaker [check_data_files] of [setup.py] returns [True] as well. *)
Theorem test_data_files_passes (fs : gmap string node) :
  (test_data_files json_loads fs = inr true
   <-> is_Some (fs !! "data")
       /\ (exists crime_text members records count,
             fs !! "data/nsw_crime_data.json" = Some (File crime_text)
             /\ json_loads crime_text = Some (JObject members)
             /\ json_getitem "crime_records" (JObject members) = inr records
             /\ json_len records = inr count)
       /\ (exists rag_text items,
             fs !! "data/rag_documents.json" = Some (File rag_text)
             /\ json_loads rag_text = Some (JArray items)))
  /\ (test_data_files json_loads fs = inr true -> check_data_files fs = true).
Proof.
  assert (test_data_files json_loads fs = inr true
   <-> is_Some (fs !! "data")
       /\ (exists crime_text members records count,
             fs !! "data/nsw_crime_data.json" = Some (File crime_text)
             /\ json_loads crime_text = Some (JObject members)
             /\ json_getitem "crime_records" (JObject members) = inr records
             /\ json_len records = inr count)
       /\ (exists rag_text items,
             fs !! "data/rag_documents.json" = Some (File rag_text)
             /\ json_loads rag_text = Some (JArray items))) as Hiff.
  { unfold test_data_files. cbn zeta.
    change (path_join "data" "nsw_crime_data.json") with "data/nsw_crime_data.json".
    change (path_join "data" "rag_documents.json") with "data/rag_documents.json".
    rewrite <- exists_path_true.
    destruct (exists_path "data" fs); cbn [negb].
    2: { split; [discriminate|]. intros [H _]. discriminate. }
    unfold exists_path, load_json.
    destruct (fs !! "data/nsw_crime_data.json") as [[crime_text|]|] eqn:Ecrime.
    3: { rewrite bool_decide_eq_false_2 by (by intros [? ?]). cbn [negb].
         split; [discriminate|]. intros (_ & (? & ? & ? & ? & ? & _) & _).
         discriminate. }
    2: { rewrite bool_decide_eq_true_2 by (by eexists). cbn [negb].
         cbn [mbind result_bind].
         split; [discriminate|]. intros (_ & (? & ? & ? & ? & ? & _) & _).
         discriminate. }
    rewrite bool_decide_eq_true_2 by (by eexists). cbn [negb mbind result_bind].
    destruct (json_loads crime_text) as [crime_data|] eqn:Eparse.
    2: { split; [discriminate|].
         intros (_ & (? & ? & ? & ? & [= <-] & Hp & _) & _). congruence. }
    destruct crime_data as [|b|q|s|items|members];
      try (cbn [json_contains mbind result_bind]; split; [discriminate|];
           intros (_ & (? & ? & ? & ? & [= <-] & Hp & _) & _); congruence).
    - (* a string: the subscript raises *)
      cbn [json_contains mbind result_bind].
      destruct (Py.str_in "crime_records" s); cbn [negb json_getitem mbind result_bind];
        (split; [discriminate|];
         intros (_ & (? & ? & ? & ? & [= <-] & Hp & _) & _); congruence).
    - (* an array: the subscript raises *)
      cbn [json_contains mbind result_bind].
      destruct (existsb _ items); cbn [negb json_getitem mbind result_bind];
        (split; [discriminate|];
         intros (_ & (? & ? & ? & ? & [= <-] & Hp & _) & _); congruence).
    - destruct (json_contains "crime_records" (JObject members)) as [e|[]] eqn:Ec;
        [discriminate Ec| |].
      2: { cbn [negb]. split; [discriminate|].
           intros (_ & (? & ms & records & ? & [= <-] & Hp & Hg & _) & _).
           rewrite Eparse in Hp. injection Hp as <-.
           apply json_getitem_contains in Hg. congruence. }
      cbn [negb].
      destruct (json_getitem "crime_records" (JObject members)) as [e|records] eqn:Eg.
      { cbn [mbind result_bind]. split; [discriminate|].
        intros (_ & (? & ms & rs & ? & [= <-] & Hp & Hg & _) & _).
        rewrite Eparse in Hp. injection Hp as <-. congruence. }
      cbn [mbind result_bind].
      destruct (json_len records) as [e|count] eqn:El.
      { cbn [mbind result_bind]. split; [discriminate|].
        intros (_ & (? & ms & rs & ? & [= <-] & Hp & Hg & Hl) & _).
        rewrite Eparse in Hp. injection Hp as <-. congruence. }
      cbn [mbind result_bind].
      destruct (fs !! "data/rag_documents.json") as [[rag_text|]|] eqn:Erag.
      3: { rewrite bool_decide_eq_false_2 by (by intros [? ?]). cbn [negb].
           split; [discriminate|]. intros (_ & _ & (? & ? & ? & _)). discriminate. }
      2: { rewrite bool_decide_eq_true_2 by (by eexists). cbn [negb].
           split; [discriminate|]. intros (_ & _ & (? & ? & ? & _)). discriminate. }
      rewrite bool_decide_eq_true_2 by (by eexists). cbn [negb].
      destruct (json_loads rag_text) as [rag_docs|] eqn:Erp.
      2: { split; [discriminate|]. intros (_ & _ & (? & ? & [= <-] & ?)). congruence. }
      destruct rag_docs as [|b|q|s|items|ms];
        try (split; [discriminate|];
             intros (_ & _ & (? & ? & [= <-] & ?)); congruence).
      split; [|reflexivity]. intros _.
      split; [reflexivity|]. split; [|by eauto].
      exists crime_text, members, records, count. by repeat split. }
  split; [exact Hiff|].
  intros Ht. apply Hiff in Ht as (Hd & (? & ? & ? & ? & Hc & _) & (? & ? & Hr & _)).
  apply check_data_files_true. rewrite Hc, Hr. by repeat split.
Qed.

End TestSetupProperties.

Section TestMainProperties.

Variable Host : Type.

Lemma run_tests_outcomes (tests : list (string * M Host bool))
    (results : list (string * bool)) (h : Host) :
  run_tests Host tests results h
  = (inr (results ++ zip (map fst tests) (fst (test_outcomes Host tests h))),
     snd (test_outcomes Host tests h)).
Proof.
  revert results h. induction tests as [|[name test] tests IH]; intros results h.
  - cbn. by rewrite app_nil_r.
  - cbn [run_tests test_outcomes map fst snd].
    unfold mbind at 1, M_bind at 1, run_test, try_except, mbind, M_bind.
    cbn [fst snd].
    destruct (test h) as [[e|b] h1]; cbn [mret M_ret];
      rewrite IH; destruct (test_outcomes Host tests h1) as [bs h2];
      cbn [fst snd zip zip_with]; by rewrite <- app_assoc.
Qed.

Lemma all_counted {A} (p : A -> bool) (l : list A) :
  Nat.eqb (length (filter (fun x => p x = true) l)) (length l) = forallb p l.
Proof.
  induction l as [|x l IH]; [reflexivity|].
  rewrite filter_cons. cbn [forallb length]. destruct (p x) eqn:Hp.
  - rewrite decide_True by done. cbn [length andb Nat.eqb]. exact IH.
  - rewrite decide_False by done. cbn [andb].
    apply Nat.eqb_neq.
    pose proof (length_filter (fun x => p x = true) l). lia.
Qed.

Lemma forallb_snd_zip (names : list string) (bs : list bool) :
  length names = length bs ->
  forallb (fun r : string * bool => snd r) (zip names bs) = forallb id bs.
Proof.
  revert bs. induction names as [|n names IH]; intros [|b bs] Hlen;
    try discriminate; [reflexivity|].
  cbn. f_equal. apply IH. by injection Hlen.
Qed.

Lemma test_outcomes_length (tests : list (string * M Host bool)) (h : Host) :
  length (fst (test_outcomes Host tests h)) = length tests.
Proof.
  revert h. induction tests as [|[name test] tests IH]; intros h; [reflexivity|].
  cbn [test_outcomes snd]. destruct (test h) as [r h1].
  specialize (IH h1). destruct (test_outcomes Host tests h1) as [bs h2].
  cbn in *. by rewrite IH.
Qed.

(** X23. [main] of [test_setup.py] never raises: each test is run once, in
    order, also after a test that failed or raised; a test that raises
    counts as failed; there is one result per test; and [main] returns
    [True] exactly when every test returned [True]. *)
Theorem test_main_outcome (tests : list (string * M Host bool)) (h : Host) :
  let outcomes := fst (test_outcomes Host tests h) in
  test_main Host tests h
  = (inr (forallb id outcomes), snd (test_outcomes Host tests h))
  /\ run_tests Host tests [] h
     = (inr (zip (map fst tests) outcomes), snd (test_outcomes Host tests h))
  /\ length outcomes = length tests.
Proof.
  cbn zeta. split; [|split; [apply run_tests_outcomes|apply test_outcomes_length]].
  unfold test_main. unfold mbind at 1, M_bind at 1.
  rewrite run_tests_outcomes. cbn [app].
  rewrite (count_loop (fun r : string * bool => snd r)), Nat.add_0_l.
  rewrite all_counted, forallb_snd_zip; [reflexivity|].
  by rewrite length_map, test_outcomes_length.
Qed.

End TestMainProperties.

(** ** More on the scores *)

Lemma truthy_str_lower (s : string) : Py.truthy_str (Py.lower s) = Py.truthy_str s.
Proof. by destruct s. Qed.

Lemma appears_in_lower_answer (answer keyword : string) :
  appears_in (Py.lower answer) keyword = appears_in answer keyword.
Proof. unfold appears_in. by rewrite lower_idempotent. Qed.

Lemma appears_in_lower_keyword (answer keyword : string) :
  appears_in answer (Py.lower keyword) = appears_in answer keyword.
Proof. unfold appears_in. by rewrite lower_idempotent. Qed.

(** The effectiveness score as one expression. *)
Lemma evaluate_effectiveness_value (question answer : string) (kws : list string) :
  evaluate_effectiveness question answer kws
  = if negb (Py.truthy_str answer) || negb (Py.truthy_list kws)
    then inr 0%Q
    else inr (of_nat (length (filter (fun k => appears_in answer k = true) kws))
              / of_nat (length kws))%Q.
Proof.
  destruct (Py.truthy_str answer) eqn:Ea; cbn [negb orb].
  2: { apply evaluate_effectiveness_empty. left. by apply truthy_str_false. }
  destruct (Py.truthy_list kws) eqn:Ek; cbn [negb].
  2: { apply evaluate_effectiveness_empty. right. by apply truthy_list_false. }
  apply evaluate_effectiveness_list.
  - intros ->. discriminate.
  - intros ->. discriminate.
Qed.

Lemma length_filter_fmap {A B} (g : A -> B) (P : B -> Prop)
    `{!forall y, Decision (P y)} (l : list A) :
  length (filter P (g <$> l)) = length (filter (fun x => P (g x)) l).
Proof.
  induction l as [|x l IH]; [reflexivity|].
  rewrite fmap_cons, !filter_cons.
  destruct (decide (P (g x))); cbn [length]; by rewrite IH.
Qed.

(** X24. The effectiveness score ignores the question it is given, the
    case of the answer and of the keywords, and the order of the
    keywords. *)
Theorem evaluate_effectiveness_invariant
    (question question' answer : string) (kws kws' : list string) :
  evaluate_effectiveness question answer kws
  = evaluate_effectiveness question' answer kws
  /\ evaluate_effectiveness question (Py.lower answer) kws
     = evaluate_effectiveness question answer kws
  /\ evaluate_effectiveness question answer (Py.lower <$> kws)
     = evaluate_effectiveness question answer kws
  /\ (kws ≡ₚ kws' ->
      evaluate_effectiveness question answer kws
      = evaluate_effectiveness question answer kws').
Proof.
  rewrite !evaluate_effectiveness_value. split; [reflexivity|].
  split; [|split].
  - rewrite truthy_str_lower.
    destruct (negb (Py.truthy_str answer) || negb (Py.truthy_list kws));
      [reflexivity|].
    rewrite (list_filter_iff (fun k => appears_in (Py.lower answer) k = true)
               (fun k => appears_in answer k = true)); [reflexivity|].
    intros k. by rewrite appears_in_lower_answer.
  - assert (Py.truthy_list (Py.lower <$> kws) = Py.truthy_list kws) as ->
      by (by destruct kws).
    destruct (negb (Py.truthy_str answer) || negb (Py.truthy_list kws));
      [reflexivity|].
    rewrite length_filter_fmap, length_fmap.
    rewrite (list_filter_iff (fun k => appears_in answer (Py.lower k) = true)
               (fun k => appears_in answer k = true)); [reflexivity|].
    intros k. by rewrite appears_in_lower_keyword.
  - intros Hp.
    assert (Py.truthy_list kws = Py.truthy_list kws') as ->.
    { destruct kws, kws'; try reflexivity.
      - by apply Permutation_nil_cons in Hp.
      - symmetry in Hp. by apply Permutation_nil_cons in Hp. }
    destruct (negb (Py.truthy_str answer) || negb (Py.truthy_list kws'));
      [reflexivity|].
    by rewrite Hp.
Qed.

Lemma supported_app (docs more : list SourceDoc) (fact : string) :
  supported (docs ++ more) fact = supported docs fact || supported more fact.
Proof. unfold supported. apply existsb_app. Qed.

Lemma supported_perm (docs docs' : list SourceDoc) (fact : string) :
  docs ≡ₚ docs' -> supported docs fact = supported docs' fact.
Proof.
  intros Hp. unfold supported. apply eq_true_iff_eq. rewrite !existsb_exists.
  split; intros (d & Hin & Hd); exists d; split; try exact Hd.
  - by apply (Permutation_in _ Hp).
  - by apply (Permutation_in _ (Permutation_sym Hp)).
Qed.

Lemma length_filter_mono {A} (P Q : A -> Prop)
    `{!forall x, Decision (P x)} `{!forall x, Decision (Q x)} (l : list A) :
  (forall x, P x -> Q x) ->
  (length (filter P l) <= length (filter Q l))%nat.
Proof.
  intros Himp. induction l as [|x l IH]; [reflexivity|].
  rewrite !filter_cons. destruct (decide (P x)) as [Hp|Hp].
  - rewrite decide_True by auto. cbn [length]. lia.
  - destruct (decide (Q x)); cbn [length]; lia.
Qed.

Lemma ratio_mono (m m' n : nat) :
  (m <= m')%nat -> (0 < n)%nat -> (of_nat m / of_nat n <= of_nat m' / of_nat n)%Q.
Proof.
  intros Hm Hn. pose proof (of_nat_pos n Hn) as Hp.
  apply Qle_shift_div_l; [exact Hp|].
  assert (of_nat m / of_nat n * of_nat n == of_nat m)%Q as ->
    by (field; lra).
  by apply of_nat_le.
Qed.

(** X25. The faithfulness score does not depend on the order of the
    source documents, and retrieving more documents never lowers it. *)
Theorem evaluate_faithfulness_sources
    (answer : string) (docs docs' more : list SourceDoc) :
  (docs ≡ₚ docs' ->
   evaluate_faithfulness answer docs = evaluate_faithfulness answer docs')
  /\ exists score score' : Q,
       evaluate_faithfulness answer docs = inr score
       /\ evaluate_faithfulness answer (docs ++ more) = inr score'
       /\ (score <= score')%Q.
Proof.
  split.
  - intros Hp.
    destruct (decide (fact_sequence answer = [] \/ docs = [])) as [Hz|Hnz].
    + rewrite !evaluate_faithfulness_none; [reflexivity| |exact Hz].
      destruct Hz as [?| ->]; [by left|]. right. by apply Permutation_nil.
    + assert (docs' <> []) as Hd'.
      { intros ->. apply Hnz. right. by apply Permutation_nil_r. }
      rewrite !evaluate_faithfulness_some by tauto.
      rewrite (list_filter_iff (fun f => supported docs f = true)
                 (fun f => supported docs' f = true)); [reflexivity|].
      intros f. by rewrite (supported_perm docs docs' f Hp).
  - destruct (decide (fact_sequence answer = [] \/ docs = [])) as [Hz|Hnz].
    + destruct (evaluate_faithfulness_total answer (docs ++ more))
        as (score' & Hs' & Hb').
      exists 0%Q, score'. split; [by apply evaluate_faithfulness_none|].
      split; [exact Hs'|apply Hb'].
    + assert (docs ++ more <> []) as Hne by (destruct docs; [tauto|discriminate]). rewrite !evaluate_faithfulness_some by tauto.
      eexists _, _. split; [reflexivity|]. split; [reflexivity|].
      apply ratio_mono.
      * apply length_filter_mono. intros f Hf.
        rewrite supported_app, Hf. reflexivity.
      * destruct (fact_sequence answer); [tauto|simpl; lia].
Qed.

Lemma actualRegions_app (docs more : list SourceDoc) :
  actualRegions (docs ++ more) = actualRegions docs ∪ actualRegions more.
Proof.
  unfold actualRegions. rewrite omap_app. apply leibniz_equiv.
  apply list_to_set_app.
Qed.

(** The source-attribution score as one expression. *)
Lemma evaluate_source_attribution_value
    (docs : list SourceDoc) (expected : list string) :
  evaluate_source_attribution docs expected
  = if negb (Py.truthy_list docs) then inr 0%Q
    else if decide ((list_to_set expected : gset string) = ∅) then inr 1%Q
    else inr (of_nat (size (actualRegions docs
                            ∩ set_map MStr (list_to_set expected : gset string)))
              / of_nat (size (list_to_set expected : gset string)))%Q.
Proof.
  unfold evaluate_source_attribution.
  destruct docs as [|d docs]; cbn [Py.truthy_list negb]; [reflexivity|].
  destruct expected as [|e es]; cbn [Py.truthy_list negb].
  { rewrite decide_True by done. reflexivity. }
  rewrite (decide_False (P := (list_to_set (e :: es) : gset string) = ∅))
    by set_solver.
  assert ((list_to_set (MStr <$> e :: es) : gset meta_value)
          = set_map MStr (list_to_set (e :: es) : gset string)) as ->
    by apply list_to_set_fmap_L.
  rewrite decide_False.
  - rewrite collect_lga_spec, size_set_map_inj by apply _.
    apply truediv_of_nat. apply size_pos_nonempty. set_solver.
  - intros Hm.
    assert (MStr e ∈ (set_map MStr (list_to_set (e :: es) : gset string)
                      : gset meta_value)) as Hin by set_solver.
    rewrite Hm in Hin. set_solver.
Qed.

(** X26. The source-attribution score depends on the expected sources
    only as a set (neither their order nor repetitions matter) and not on
    the order of the retrieved documents, and retrieving more documents
    never lowers it. *)
Theorem evaluate_source_attribution_sources
    (docs docs' more : list SourceDoc) (expected expected' : list string) :
  (docs ≡ₚ docs' ->
   (list_to_set expected : gset string) = list_to_set expected' ->
   evaluate_source_attribution docs expected
   = evaluate_source_attribution docs' expected')
  /\ exists score score' : Q,
       evaluate_source_attribution docs expected = inr score
       /\ evaluate_source_attribution (docs ++ more) expected = inr score'
       /\ (score <= score')%Q.
Proof.
  split.
  - intros Hp He. rewrite !evaluate_source_attribution_value, He.
    assert (Py.truthy_list docs = Py.truthy_list docs') as ->.
    { destruct docs, docs'; try reflexivity.
      - by apply Permutation_nil_cons in Hp.
      - symmetry in Hp. by apply Permutation_nil_cons in Hp. }
    assert (actualRegions docs = actualRegions docs') as ->
      by (unfold actualRegions; by rewrite Hp).
    reflexivity.
  - destruct docs as [|d docs].
    { destruct (evaluate_source_attribution_total ([] ++ more) expected)
        as (score' & Hs' & Hb').
      exists 0%Q, score'. split; [reflexivity|]. split; [exact Hs'|apply Hb']. }
    rewrite !evaluate_source_attribution_value.
    cbn [app Py.truthy_list negb].
    destruct (decide ((list_to_set expected : gset string) = ∅)) as [He|He].
    { exists 1%Q, 1%Q. repeat split; lra. }
    eexists _, _. split; [reflexivity|]. split; [reflexivity|].
    apply ratio_mono.
    + apply subseteq_size.
      change (d :: docs ++ more) with ((d :: docs) ++ more).
      rewrite actualRegions_app.
      apply intersection_mono_r, union_subseteq_l.
    + by apply size_pos_nonempty.
Qed.

(** ** Quoting a source *)

Lemma string_of_list_ascii_snoc (l : list ascii) (c : ascii) (s : string) :
  (string_of_list_ascii (l ++ [c]) ++ s)%string
  = (string_of_list_ascii l ++ String c s)%string.
Proof.
  induction l as [|x l IH]; [reflexivity|].
  cbn [app string_of_list_ascii]. rewrite !string_app_cons. by rewrite IH.
Qed.

Lemma lower_app (a b : string) :
  Py.lower (a ++ b)%string = (Py.lower a ++ Py.lower b)%string.
Proof.
  induction a as [|x a IH]; [reflexivity|].
  rewrite string_app_cons. cbn [Py.lower].
  rewrite string_app_cons. by rewrite IH.
Qed.

(** [sub in s] is transitive. *)
Lemma str_in_trans (a b c : string) :
  Py.str_in a b = true -> Py.str_in b c = true -> Py.str_in a c = true.
Proof.
  rewrite !str_in_spec. intros (p1 & q1 & ->) (p2 & q2 & ->).
  exists (p2 ++ p1)%string, (q1 ++ q2)%string.
  by rewrite !string_app_assoc.
Qed.

(** A substring, lower-cased, is a substring of the lower-cased text. *)
Lemma str_in_lower (a b : string) :
  Py.str_in a b = true -> Py.str_in (Py.lower a) (Py.lower b) = true.
Proof.
  rewrite !str_in_spec. intros (p & q & ->).
  exists (Py.lower p), (Py.lower q). by rewrite !lower_app.
Qed.

(** Every run of digits that [re.findall] returns is a piece of the text
    being read (the run in progress put in front of it). *)
Lemma findall_digits_from_substring (run : list ascii) (text f : string) :
  f ∈ Py.findall_digits_from run text ->
  Py.str_in f (string_of_list_ascii (rev run) ++ text)%string = true.
Proof.
  revert run. induction text as [|c rest IH]; intros run Hf.
  - cbn [Py.findall_digits_from] in Hf. destruct run as [|x run].
    + by apply elem_of_nil in Hf.
    + apply list_elem_of_singleton in Hf as ->.
      apply str_in_spec. exists "", "". by rewrite string_app_empty_r.
  - cbn [Py.findall_digits_from] in Hf. destruct (Py.is_digit c).
    + apply IH in Hf. cbn [rev] in Hf.
      by rewrite string_of_list_ascii_snoc in Hf.
    + assert (f ∈ Py.findall_digits_from [] rest ->
              Py.str_in f (string_of_list_ascii (rev run) ++ String c rest)%string
              = true) as Hrest.
      { intros Hin. apply IH in Hin. cbn [rev string_of_list_ascii] in Hin.
        rewrite string_app_nil in Hin.
        apply str_in_spec in Hin as (p & q & ->). apply str_in_spec.
        exists (string_of_list_ascii (rev run) ++ String c p)%string, q.
        by rewrite string_app_assoc, string_app_cons. }
      destruct run as [|x run]; [by apply Hrest|].
      apply elem_of_cons in Hf as [->|Hf]; [|by apply Hrest].
      apply str_in_spec. by exists "", (String c rest).
Qed.

Lemma trends_lower (t : string) : t ∈ trends -> Py.lower t = t.
Proof.
  unfold trends. rewrite !elem_of_cons, elem_of_nil.
  intros [->|[->|[->|[]]]]; reflexivity.
Qed.

(** Every extracted fact appears in the answer it was extracted from. *)
Lemma fact_sequence_appears (answer f : string) :
  f ∈ fact_sequence answer -> appears_in answer f = true.
Proof.
  unfold fact_sequence, appears_in. rewrite !elem_of_app, !list_elem_of_filter.
  intros [Hf|[[Hf _]|[[Hf _]|[Hf Ht]]]].
  - apply str_in_lower.
    by apply (findall_digits_from_substring [] answer f).
  - by apply str_in_lower.
  - by apply str_in_lower.
  - by rewrite (trends_lower f Ht).
Qed.

Lemma supported_quoted (docs : list SourceDoc) (d : SourceDoc) (answer f : string) :
  d ∈ docs -> appears_in (content d) answer = true ->
  appears_in answer f = true -> supported docs f = true.
Proof.
  intros Hd Ha Hf. unfold supported. apply existsb_exists. exists d.
  split; [by apply list_elem_of_In|].
  unfold appears_in in *. by apply (str_in_trans _ (Py.lower answer)).
Qed.

Lemma filter_all {A} (P : A -> Prop) `{!forall x, Decision (P x)} (l : list A) :
  (forall x, x ∈ l -> P x) -> filter P l = l.
Proof.
  intros Hall. induction l as [|x l IH]; [reflexivity|].
  rewrite filter_cons, decide_True by (apply Hall; left).
  rewrite IH; [reflexivity|]. intros y Hy. apply Hall. by right.
Qed.

(** X27. An answer that quotes a retrieved document (its text appears,
    whatever the case, in the content of one of the source documents)
    and that states at least one fact has faithfulness 1. *)
Theorem evaluate_faithfulness_quoted
    (answer : string) (docs : list SourceDoc) (d : SourceDoc) :
  d ∈ docs ->
  appears_in (content d) answer = true ->
  fact_sequence answer <> [] ->
  exists score : Q,
    evaluate_faithfulness answer docs = inr score /\ (score == 1)%Q.
Proof.
  intros Hd Ha Hf.
  assert (docs <> []) as Hne by (intros ->; by apply elem_of_nil in Hd).
  rewrite evaluate_faithfulness_some by assumption.
  eexists. split; [reflexivity|].
  rewrite filter_all.
  - assert (0 < of_nat (length (fact_sequence answer)))%Q as Hp.
    { apply of_nat_pos. destruct (fact_sequence answer); [done|simpl; lia]. }
    field. lra.
  - intros f Hin. eapply supported_quoted; [exact Hd|exact Ha|].
    by apply fact_sequence_appears.
Qed.

(** ** Concrete runs of the rest of the program *)

Lemma generate_report_counts_witness :
  exists summary details recs,
    @generate_report test_services sample_evaluator
    = inr (FullReport summary details recs)
    /\ total_questions summary = 10%nat
    /\ (unanswered_questions summary <= total_questions summary)%nat.
Proof.
  destruct (@generate_report_counts test_services sample_evaluator)
    as (summary & details & recs & Hr & Htotal & _ & Hle & _).
  - discriminate.
  - exists summary, details, recs. split; [exact Hr|]. split; [|exact Hle].
    rewrite Htotal. reflexivity.
Defined.

Lemma generate_report_rounding_witness :
  exists summary details recs,
    @generate_report test_services sample_evaluator
    = inr (FullReport summary details recs)
    /\ (mean (map overall_score ten_results) - (1 # 2000)
        <= average_overall_score summary
        <= mean (map overall_score ten_results) + (1 # 2000))%Q.
Proof.
  destruct (@generate_report_rounding test_services sample_evaluator)
    as (summary & details & recs & Hr & _ & _ & _ & Ho & _).
  - discriminate.
  - exists summary, details, recs. split; [exact Hr|exact Ho].
Defined.

Lemma generate_report_recommendations_witness :
  exists summary details recs,
    @generate_report test_services near_threshold_evaluator
    = inr (FullReport summary details recs)
    /\ rec_relevance ∈ recs.
Proof.
  destruct (@generate_report_recommendations test_services near_threshold_evaluator)
    as (summary & details & recs & Hr & Hrel & _).
  - discriminate.
  - exists summary, details, recs. split; [exact Hr|].
    apply Hrel. vm_compute. discriminate.
Defined.

(** The same report shows the average as 0.7. *)
Example near_threshold_shown :
  exists summary details recs,
    @generate_report test_services near_threshold_evaluator
    = inr (FullReport summary details recs)
    /\ (average_effectiveness summary == 0.7)%Q
    /\ rec_relevance ∈ recs.
Proof.
  do 3 eexists. split; [vm_compute; reflexivity|].
  split; [reflexivity|]. apply (bool_decide_unpack _). vm_compute. reflexivity.
Qed.

Lemma initialize_pipeline_success_witness :
  exists store chain,
    vectorstore
      (fst (snd (@initialize_pipeline test_services "data/rag_documents.json"
                   true (@NSWCrimeRAGPipeline_init test_services, served))))
    = Some store
    /\ qa_chain
         (fst (snd (@initialize_pipeline test_services "data/rag_documents.json"
                      true (@NSWCrimeRAGPipeline_init test_services, served))))
       = Some chain.
Proof.
  destruct (@initialize_pipeline_success test_services "data/rag_documents.json"
              true (@NSWCrimeRAGPipeline_init test_services)
              (fst (snd (@initialize_pipeline test_services
                           "data/rag_documents.json" true
                           (@NSWCrimeRAGPipeline_init test_services, served))))
              served
              (snd (snd (@initialize_pipeline test_services
                           "data/rag_documents.json" true
                           (@NSWCrimeRAGPipeline_init test_services, served)))))
    as (store & chain & w & Hs & Hc & _).
  - vm_compute. reflexivity.
  - exists store, chain. split; [exact Hs|exact Hc].
Defined.


Lemma initialize_pipeline_failure_keeps_chain_witness :
  qa_chain
    (fst (snd (@initialize_pipeline test_services "data/rag_documents.json" true
                 (wired_pipeline, @Build_Ext test_services unreadable_world []))))
  = Some tt.
Proof.
  apply (@initialize_pipeline_failure_keeps_chain test_services
           "data/rag_documents.json" true wired_pipeline
           (fst (snd (@initialize_pipeline test_services
                        "data/rag_documents.json" true
                        (wired_pipeline,
                         @Build_Ext test_services unreadable_world []))))
           (@Build_Ext test_services unreadable_world [])
           (snd (snd (@initialize_pipeline test_services
                        "data/rag_documents.json" true
                        (wired_pipeline,
                         @Build_Ext test_services unreadable_world []))))
           FileNotFoundError).
  vm_compute. reflexivity.
Defined.

Lemma display_metrics_order_witness :
  display_metrics (inr [entry "Greater Sydney" "Assault"; entry "NSW Regional" "Fraud"])
  = display_metrics (inr [entry "NSW Regional" "Fraud"; entry "Greater Sydney" "Assault"]).
Proof.
  apply display_metrics_order. apply perm_swap.
Defined.

(** With a chain that raises on every question nothing is collected, and
    [evaluation_framework.main] ends in a [KeyError]. *)
Example evaluation_main_without_answers :
  fst (@evaluation_main test_services test_disk
         (@Build_Ext test_services silent_world []))
  = inl (KeyError "evaluation_summary").
Proof. vm_compute. reflexivity. Qed.

(** An empty corpus is shown as -1 records. *)
Example display_metrics_empty :
  display_metrics (inr [])
  = ShowMetrics {| total_documents := (-1)%Z; local_government_areas := 0;
                   crime_type_count := 0 |}.
Proof. vm_compute. reflexivity. Qed.

(** A question of blanks does not reach the pipeline; a padded question is
    passed on with its padding. *)
Example ask_question_blank :
  @ask_question test_services wired_pipeline "" "   " served
  = (inr ShowWarning, served).
Proof. vm_compute. reflexivity. Qed.

Example ask_question_padded :
  calls (snd (@ask_question test_services wired_pipeline "" " Which region? " served))
  = [CallChain " Which region? "].
Proof. vm_compute. reflexivity. Qed.

Lemma evaluate_effectiveness_invariant_witness :
  evaluate_effectiveness "Which crimes rose?" "Theft rose in Sydney" ["theft"; "SYDNEY"]
  = evaluate_effectiveness "Which crimes rose?" "Theft rose in Sydney" ["SYDNEY"; "theft"].
Proof.
  apply (proj2 (proj2 (proj2
    (evaluate_effectiveness_invariant "Which crimes rose?" "Which crimes rose?"
       "Theft rose in Sydney" ["theft"; "SYDNEY"] ["SYDNEY"; "theft"])))).
  apply Permutation_swap.
Defined.

Lemma evaluate_faithfulness_sources_witness :
  evaluate_faithfulness "Theft rose to 120"
    [record "Theft incidents: 120" "Sydney"; record "Assault incidents: 80" "Newcastle"]
  = evaluate_faithfulness "Theft rose to 120"
      [record "Assault incidents: 80" "Newcastle"; record "Theft incidents: 120" "Sydney"].
Proof.
  apply (proj1 (evaluate_faithfulness_sources "Theft rose to 120"
    [record "Theft incidents: 120" "Sydney"; record "Assault incidents: 80" "Newcastle"]
    [record "Assault incidents: 80" "Newcastle"; record "Theft incidents: 120" "Sydney"]
    [])).
  apply Permutation_swap.
Defined.

Lemma evaluate_source_attribution_sources_witness :
  evaluate_source_attribution
    [record "Theft incidents: 120" "Sydney"; record "Assault incidents: 80" "Newcastle"]
    ["Sydney"; "Sydney"; "Newcastle"]
  = evaluate_source_attribution
      [record "Assault incidents: 80" "Newcastle"; record "Theft incidents: 120" "Sydney"]
      ["Newcastle"; "Sydney"].
Proof.
  apply (proj1 (evaluate_source_attribution_sources
    [record "Theft incidents: 120" "Sydney"; record "Assault incidents: 80" "Newcastle"]
    [record "Assault incidents: 80" "Newcastle"; record "Theft incidents: 120" "Sydney"]
    [] ["Sydney"; "Sydney"; "Newcastle"] ["Newcastle"; "Sydney"])).
  - apply Permutation_swap.
  - apply (bool_decide_unpack _). vm_compute. reflexivity.
Defined.

Lemma evaluate_faithfulness_quoted_witness :
  exists score : Q,
    evaluate_faithfulness "Theft rose to 120"
      [record "In 2023 theft rose to 120 incidents" "Sydney"]
    = inr score /\ (score == 1)%Q.
Proof.
  apply (evaluate_faithfulness_quoted "Theft rose to 120"
           [record "In 2023 theft rose to 120 incidents" "Sydney"]
           (record "In 2023 theft rose to 120 incidents" "Sydney")).
  - left.
  - vm_compute. reflexivity.
  - intros H. vm_compute in H. discriminate.
Defined.

(** More documents can raise the faithfulness score: alone the first
    document supports one of the two facts, with the second both. *)
Example evaluate_faithfulness_more_sources :
  evaluate_faithfulness "Theft 120, assault 80" [record "Theft incidents: 120" "Sydney"]
  = inr (of_nat 1 / of_nat 2)%Q
  /\ evaluate_faithfulness "Theft 120, assault 80"
       ([record "Theft incidents: 120" "Sydney"]
        ++ [record "Assault incidents: 80" "Newcastle"])
     = inr (of_nat 2 / of_nat 2)%Q.
Proof. split; vm_compute; reflexivity. Qed.
